(** * Tool-calling chatbots: a shallow embedding of the orchestration code

    The repository holds chatbot clients and one tool server:
    - [L3-chatbot-example-with-pip/L3.openai.py]   (module [L3])
    - [L6-multi-client-server/mcp_chatbot.py]      (module [L6])
    - [alstom-from-claude/ai-azure-client.py]      (module [Azure])
    - [alstom-from-claude/mcp-server.py]           (module [McpServer])
    [L5-mcp-client/mcp_chatbot.py] has the [process_query] of [L6] with a
    single session and is not embedded on its own.

    Python values, exceptions and the few library functions the clients
    call on them ([str.join], [json.dumps], [str], [repr]) live in module
    [Py].  Everything that talks to the outside (the LLM endpoint, the
    tool processes, the arXiv tools, [json.loads], the standard output
    of the agent) is a variable of the section that embeds its caller. *)

From Stdlib Require Import ZArith Ascii String List Lia.
From stdpp Require Import base option list strings pretty gmap.

Local Open Scope string_scope.

(* ================================================================== *)
(** * Python values, exceptions, and state-passing with exceptions      *)
(* ================================================================== *)

Module Py.

(** A Python [str] is the string of its code points; the development
    covers code points below 256 (one [ascii] each). *)

(** The values tools return and [json.loads] produces.  A [dict] keeps
    its insertion order, which is the order [json.dumps] writes. *)
#[warnings="-register-all"]
Inductive pyval : Type :=
| PNone
| PBool (b : bool)
| PInt (z : Z)
| PStr (s : string)
| PList (l : list pyval)
| PDict (d : list (string * pyval)).

(** An exception, of a subclass of [Exception] (what [except Exception]
    catches): its class name and what [str(e)] gives. *)
Record exn : Type := Exn { exn_class : string; exn_str : string }.

Inductive result (A : Type) : Type :=
| Ok (a : A)
| Raise (e : exn).
Arguments Ok {A} a.
Arguments Raise {A} e.

(** A computation over a mutable store [S].  The store a computation
    leaves behind is kept when it raises: Python does not undo the
    mutations made before an exception. *)
Definition M (S A : Type) : Type := S -> S * result A.

Definition ret {S A} (a : A) : M S A := fun s => (s, Ok a).
Definition raise {S A} (e : exn) : M S A := fun s => (s, Raise e).
Definition bind {S A B} (c : M S A) (k : A -> M S B) : M S B :=
  fun s => match c s with
           | (s', Ok a) => k a s'
           | (s', Raise e) => (s', Raise e)
           end.
Definition get {S} : M S S := fun s => (s, Ok s).
Definition modify {S} (f : S -> S) : M S unit := fun s => (f s, Ok tt).
Definition of_result {S A} (r : result A) : M S A := fun s => (s, r).

(** [try: c  except Exception as e: h e] *)
Definition try_except {S A} (c : M S A) (h : exn -> M S A) : M S A :=
  fun s => match c s with
           | (s', Ok a) => (s', Ok a)
           | (s', Raise e) => h e s'
           end.

(** [for x in xs: body x] *)
Fixpoint for_each {S A} (body : A -> M S unit) (xs : list A) : M S unit :=
  match xs with
  | [] => ret tt
  | x :: rest => bind (body x) (fun _ => for_each body rest)
  end.

Declare Scope py_scope.
Delimit Scope py_scope with py.
Notation "'do' x <- c ; k" := (bind c (fun x => k))
  (at level 10, x name, c at level 100, k at level 200) : py_scope.
Notation "'run' c ; k" := (bind c (fun _ => k))
  (at level 10, c at level 100, k at level 200) : py_scope.

(** ** Characters *)

Definition dquote : ascii := "034"%char.
Definition squote : ascii := "039"%char.
Definition backslash : ascii := "092"%char.
Definition newline : ascii := "010"%char.
Definition str1 (c : ascii) : string := String c EmptyString.

Definition hex_digit (n : N) : ascii :=
  if (n <? 10)%N then ascii_of_N (48 + n) else ascii_of_N (87 + n).

(** Two lowercase hexadecimal digits of a code point below 256. *)
Definition hex2 (c : ascii) : string :=
  let n := N_of_ascii c in
  String (hex_digit (n / 16)) (String (hex_digit (n mod 16)) EmptyString).

(** ** [sep.join(strings)] *)
Definition join (sep : string) (l : list string) : string := String.concat sep l.

Definition type_name (v : pyval) : string :=
  match v with
  | PNone => "NoneType" | PBool _ => "bool" | PInt _ => "int"
  | PStr _ => "str" | PList _ => "list" | PDict _ => "dict"
  end.

(** [sep.join(l)] on a list of values: every item has to be a [str];
    the first one that is not raises [TypeError]. *)
Fixpoint str_items (i : nat) (l : list pyval) : result (list string) :=
  match l with
  | [] => Ok []
  | PStr s :: rest =>
      match str_items (S i) rest with
      | Ok ss => Ok (s :: ss)
      | Raise e => Raise e
      end
  | v :: _ =>
      Raise (Exn "TypeError"
               ("sequence item " +:+ pretty i +:+ ": expected str instance, "
                  +:+ type_name v +:+ " found"))
  end.

Definition join_values (sep : string) (l : list pyval) : result string :=
  match str_items 0 l with
  | Ok ss => Ok (join sep ss)
  | Raise e => Raise e
  end.

(** ** [json.dumps(v, indent=2)] with the default [ensure_ascii=True] *)

Definition json_escape_char (c : ascii) : string :=
  let n := N_of_ascii c in
  if Ascii.eqb c dquote then String backslash (str1 dquote)
  else if Ascii.eqb c backslash then String backslash (str1 backslash)
  else if (n =? 8)%N then "\b"
  else if (n =? 12)%N then "\f"
  else if (n =? 10)%N then "\n"
  else if (n =? 13)%N then "\r"
  else if (n =? 9)%N then "\t"
  else if ((32 <=? n) && (n <=? 126))%N then str1 c
  else "\u00" +:+ hex2 c.

Fixpoint json_escape (s : string) : string :=
  match s with
  | EmptyString => EmptyString
  | String c rest => json_escape_char c +:+ json_escape rest
  end.

Definition json_quote (s : string) : string :=
  str1 dquote +:+ json_escape s +:+ str1 dquote.

Fixpoint spaces (n : nat) : string :=
  match n with O => EmptyString | S k => String " "%char (spaces k) end.

(** The line break that starts an item at nesting depth [level]. *)
Definition newline_indent (indent level : nat) : string :=
  String newline (spaces (indent * level)).

Fixpoint json_encode (indent level : nat) (v : pyval) {struct v} : string :=
  match v with
  | PNone => "null"
  | PBool true => "true"
  | PBool false => "false"
  | PInt z => pretty z
  | PStr s => json_quote s
  | PList [] => "[]"
  | PList l =>
      "[" +:+ newline_indent indent (S level)
          +:+ join ("," +:+ newline_indent indent (S level))
                   (map (json_encode indent (S level)) l)
          +:+ newline_indent indent level +:+ "]"
  | PDict [] => "{}"
  | PDict d =>
      "{" +:+ newline_indent indent (S level)
          +:+ join ("," +:+ newline_indent indent (S level))
                   (map (fun kv => json_quote (fst kv) +:+ ": "
                                     +:+ json_encode indent (S level) (snd kv)) d)
          +:+ newline_indent indent level +:+ "}"
  end.

Definition json_dumps_indent2 (v : pyval) : string := json_encode 2 0 v.

(** ** [repr] of a string, and the exceptions the clients meet *)

Definition printable (c : ascii) : bool :=
  let n := N_of_ascii c in
  (((32 <=? n) && (n <=? 126)) || ((161 <=? n) && negb (n =? 173)))%N.

Fixpoint contains_char (c : ascii) (s : string) : bool :=
  match s with
  | EmptyString => false
  | String c' rest => Ascii.eqb c c' || contains_char c rest
  end.

Definition repr_char (quote c : ascii) : string :=
  let n := N_of_ascii c in
  if Ascii.eqb c backslash then String backslash (str1 backslash)
  else if Ascii.eqb c quote then String backslash (str1 quote)
  else if (n =? 9)%N then "\t"
  else if (n =? 10)%N then "\n"
  else if (n =? 13)%N then "\r"
  else if printable c then str1 c
  else "\x" +:+ hex2 c.

Fixpoint repr_chars (quote : ascii) (s : string) : string :=
  match s with
  | EmptyString => EmptyString
  | String c rest => repr_char quote c +:+ repr_chars quote rest
  end.

Definition repr_str (s : string) : string :=
  let quote := if contains_char squote s && negb (contains_char dquote s)
               then dquote else squote in
  str1 quote +:+ repr_chars quote s +:+ str1 quote.

(** [d[key]] on a missing key: [str(KeyError(key))] is [repr(key)]. *)
Definition KeyError (key : string) : exn := Exn "KeyError" (repr_str key).
Definition ValueError (msg : string) : exn := Exn "ValueError" msg.
Definition TypeError (msg : string) : exn := Exn "TypeError" msg.

(** [json.loads(x)] where [x] may be [None]. *)
Definition loads_optional (json_loads : string -> result pyval)
    (x : option string) : result pyval :=
  match x with
  | Some s => json_loads s
  | None => Raise (TypeError
      "the JSON object must be str, bytes or bytearray, not NoneType")
  end.

(** [str(b)] and [str(n)] *)
Definition str_bool (b : bool) : string := if b then "True" else "False".
Definition str_int (z : Z) : string := pretty z.

End Py.

Import Py.
Local Open Scope py_scope.

(* ================================================================== *)
(** * The chat-completions data the clients exchange with the LLM      *)
(* ================================================================== *)

Module Chat.

(** One entry of [message.tool_calls]: [tc.id], [tc.function.name] and
    [tc.function.arguments] (the serialized arguments, possibly [None]). *)
Record tool_call : Type := ToolCall {
  tc_id : string;
  tc_name : string;
  tc_arguments : option string
}.

(** [resp.choices[0].message] *)
Record llm_message : Type := LlmMessage {
  msg_content : option string;
  msg_tool_calls : option (list tool_call)
}.

(** The dictionaries in [messages]: the role, the content and, by role,
    the [tool_calls] key (absent on a plain answer) or [tool_call_id]. *)
Inductive message : Type :=
| System (content : string)
| User (content : string)
| Assistant (content : option string) (tool_calls : option (list tool_call))
| Tool (tool_call_id : string) (content : string).

(** Truth value of [message.tool_calls]: [None] and [[]] are false. *)
Definition requests_tools (m : llm_message) : bool :=
  match msg_tool_calls m with
  | Some (_ :: _) => true
  | _ => false
  end.

Definition calls_of (m : llm_message) : list tool_call :=
  default [] (msg_tool_calls m).

(** A tool descriptor as a provider lists it ([tool.name],
    [tool.description], [tool.inputSchema]) and as the LLM receives it. *)
Record tool_descriptor : Type := ToolDescriptor {
  tool_name : string;
  tool_description : string;
  tool_input_schema : pyval
}.

(** The [tool_call_id]s of the tool-role messages of a transcript, in
    transcript order. *)
Fixpoint tool_ids (msgs : list message) : list string :=
  match msgs with
  | [] => []
  | Tool id _ :: rest => id :: tool_ids rest
  | _ :: rest => tool_ids rest
  end.

(** The tool-role messages that answer [calls] with [texts], pairwise. *)
Definition tool_messages (calls : list tool_call) (texts : list string) : list message :=
  zip_with (fun tc text => Tool (tc_id tc) text) calls texts.

End Chat.

Import Chat.

(* ================================================================== *)
(** * L3-chatbot-example-with-pip/L3.openai.py                         *)
(* ================================================================== *)

Module L3.

Section Chatbot.

(** The outside world: the arXiv service and the [papers] directory the
    two tools work on, and the LLM endpoint. *)
Variable world : Type.

(** A tool, called with the keyword arguments unpacked from [tool_args]. *)
Definition handler : Type := list (string * pyval) -> M world pyval.

Variable search_papers : handler.
Variable extract_info : handler.

(** [json.loads] *)
Variable json_loads : string -> result pyval.

(** [client.chat.completions.create(messages=messages, tools=tools, ...)];
    the other arguments are the same at every call. *)
Variable completions_create : list message -> M world llm_message.

Definition mapping_tool_function : gmap string handler :=
  <["search_papers" := search_papers]> (<["extract_info" := extract_info]> ∅).

Definition no_results : string :=
  "The operation completed but didn't return any results.".

(** The [if]/[elif] chain of [execute_tool] (lines 167-179): [None],
    then [list], then [dict], and [str(result)] for what is left. *)
Definition text_of_result (result : pyval) : Py.result string :=
  match result with
  | PNone => Ok no_results
  | PList l => join_values ", " l
  | PDict _ => Ok (json_dumps_indent2 result)
  | PBool b => Ok (str_bool b)
  | PInt z => Ok (str_int z)
  | PStr s => Ok s
  end.

(** [mapping_tool_function[tool_name]] is looked up before [tool_args]
    is unpacked.  The [TypeError] of the unpacking names the callee as
    CPython does, with its module: the file runs as the script
    [__main__], and each registered function has the name it is
    registered under. *)
Definition execute_tool (tool_name : string) (tool_args : pyval) : M world string :=
  match mapping_tool_function !! tool_name with
  | None => raise (KeyError tool_name)
  | Some f =>
      match tool_args with
      | PDict kwargs =>
          do result <- f kwargs;
          of_result (text_of_result result)
      | _ =>
          raise (TypeError ("__main__." +:+ tool_name
                              +:+ "() argument after ** must be a mapping, not "
                              +:+ type_name tool_args))
      end
  end.

(** The store of [process_query]: the world and the local [messages]. *)
Record state : Type := State { st_world : world; st_messages : list message }.

Definition on_world {A} (c : M world A) : M state A :=
  fun st => let (w, r) := c (st_world st) in (State w (st_messages st), r).

(** [messages.append(m)] *)
Definition append (m : message) : M state unit :=
  modify (fun st => State (st_world st) (st_messages st ++ [m])).

(** [tc.function.arguments or "{}"] *)
Definition arguments_or_empty (a : option string) : string :=
  match a with
  | None => "{}"
  | Some EmptyString => "{}"
  | Some s => s
  end.

(** The body of [for tc in msg.tool_calls] (lines 239-248). *)
Definition run_tool_call (tc : tool_call) : M state unit :=
  let func_name := tc_name tc in
  do args <- of_result (json_loads (arguments_or_empty (tc_arguments tc)));
  do result <- on_world (execute_tool func_name args);
  append (Tool (tc_id tc) result).

(** The branch taken when the model asks for tools (lines 222-248). *)
Definition tool_round (msg : llm_message) : M state unit :=
  run append (Assistant (Some (default EmptyString (msg_content msg)))
                        (Some (calls_of msg)));
  for_each run_tool_call (calls_of msg).

(** One iteration of [while True] (lines 208-255): [Some answer] when
    the function returns [msg.content] (which may be [None]), [None]
    when it reaches [continue]. *)
Definition loop_body : M state (option (option string)) :=
  do msg <- (fun st => on_world (completions_create (st_messages st)) st);
  if requests_tools msg then
    run tool_round msg;
    ret None
  else ret (Some (msg_content msg)).

(** [while True]: [fuel] bounds the number of iterations, and [None]
    means the bound was reached with the loop still running. *)
Fixpoint process_query_loop (fuel : nat) (st : state)
  : option (state * result (option string)) :=
  match fuel with
  | O => None
  | S fuel' =>
      match loop_body st with
      | (st1, Raise e) => Some (st1, Raise e)
      | (st1, Ok None) => process_query_loop fuel' st1
      | (st1, Ok (Some answer)) => Some (st1, Ok answer)
      end
  end.

Definition process_query (fuel : nat) (query : string) (w : world)
  : option (state * result (option string)) :=
  process_query_loop fuel (State w [User query]).

(** The store after [n] iterations that each reached [continue]. *)
Fixpoint tool_rounds (n : nat) (st : state) : option state :=
  match n with
  | O => Some st
  | S n' =>
      match loop_body st with
      | (st1, Ok None) => tool_rounds n' st1
      | _ => None
      end
  end.

End Chatbot.

Arguments State {world} _ _.
Arguments st_world {world} _.
Arguments st_messages {world} _.

End L3.

(* ================================================================== *)
(** * alstom-from-claude/mcp-server.py                                 *)
(* ================================================================== *)

Module McpServer.

Section Server.

(** The production database behind the tools. *)
Variable world : Type.

(** [TextContent(type="text", text=...)] *)
Record text_content : Type := TextContent { text : string }.

(** A tool implementation: [async def get_...(self, args: dict)]. *)
Definition tool_impl : Type := pyval -> M world (list text_content).

Variable get_project_overview : tool_impl.
Variable get_project_phases : tool_impl.
Variable search_similar_projects : tool_impl.
Variable get_phase_statistics : tool_impl.
Variable build_project_skeleton : tool_impl.
Variable get_commitments_summary : tool_impl.

(** The names [list_tools] publishes, in its order. *)
Definition tool_names : list string :=
  [ "get_project_overview"; "get_project_phases"; "search_similar_projects";
    "get_phase_statistics"; "build_project_skeleton"; "get_commitments_summary" ].

Definition call_tool (name : string) (arguments : pyval) : M world (list text_content) :=
  if String.eqb name "get_project_overview" then get_project_overview arguments
  else if String.eqb name "get_project_phases" then get_project_phases arguments
  else if String.eqb name "search_similar_projects" then search_similar_projects arguments
  else if String.eqb name "get_phase_statistics" then get_phase_statistics arguments
  else if String.eqb name "build_project_skeleton" then build_project_skeleton arguments
  else if String.eqb name "get_commitments_summary" then get_commitments_summary arguments
  else raise (ValueError ("Unknown tool: " +:+ name)).

End Server.

End McpServer.

(* ================================================================== *)
(** * alstom-from-claude/ai-azure-client.py                            *)
(* ================================================================== *)

Module Azure.

Section Agent.

(** The outside world: the LLM endpoint and the MCP server process. *)
Variable world : Type.

Variable json_loads : string -> result pyval.

(** An item of [result.content]; [item_text] is [item.text] when the item
    has that attribute. *)
Record content_item : Type := ContentItem { item_text : option string }.

(** [self.mcp_session.call_tool(tool_name, tool_args)], giving
    [result.content]. *)
Variable session_call_tool : string -> pyval -> M world (list content_item).

(** The two progress lines of the loop over the requests (lines
    188-189): [Executing name] is the wrench sign U+1F527 followed by
    [ Executing: <name>], and [Args dumped] is three spaces and [Args: ]
    followed by [json.dumps(function_args, indent=2)]. *)
Inductive progress_line : Type :=
| Executing (function_name : string)
| Args (dumped : string).

(** [print(line)] on the standard output of the agent, which is part of
    the world; it raises when the output cannot take the line
    ([UnicodeEncodeError] where its encoding has no wrench sign). *)
Variable print : progress_line -> M world unit.

(** [self.llm_client.chat.completions.create(messages=..., tools=...)]
    up to [response.choices[0].message], which is its result; the
    second completion of a turn passes no [tools]. *)
Variable completions_create :
  list message -> option (list tool_descriptor) -> M world llm_message.

(** [self.available_tools], as [initialize] left it. *)
Variable available_tools : list tool_descriptor.

Definition _convert_tools_to_openai_format : list tool_descriptor :=
  map (fun tool => ToolDescriptor (tool_name tool) (tool_description tool)
                     (tool_input_schema tool)) available_tools.

Definition texts_of (content : list content_item) : list string :=
  omap item_text content.

(** [try] ... [except Exception as e]: every failure of the call becomes
    the returned text. *)
Definition _execute_tool (tool_name : string) (tool_args : pyval) : M world string :=
  try_except
    (do content <- session_call_tool tool_name tool_args;
     match content with
     | _ :: _ => ret (join (str1 newline) (texts_of content))
     | [] => ret "Tool executed but returned no content"
     end)
    (fun e => ret ("Error executing tool " +:+ tool_name +:+ ": " +:+ exn_str e)).

Definition system_message : message :=
  System "You are an AI assistant specialized in train manufacturing project management.
You have access to tools that can query the production database. 

Your capabilities:
1. Answer questions about project phases, commitments, and statistics
2. Find similar past projects based on phase patterns
3. Build project skeletons by learning from historical data
4. Provide insights and recommendations based on data

When a user asks a complex question:
- Break it down into smaller queries if needed
- Use multiple tools in sequence to gather complete information
- Synthesize results into clear, actionable insights
- Always cite which projects or data your recommendations come from

Be conversational but precise. Always verify your understanding of technical terms related to train production.".

(** The store of an agent: the world and [self.conversation_history],
    which outlives every call of [chat]. *)
Record state : Type := State {
  st_world : world;
  conversation_history : list message
}.

Definition on_world {A} (c : M world A) : M state A :=
  fun st => let (w, r) := c (st_world st) in (State w (conversation_history st), r).

(** [self.conversation_history.append(m)] *)
Definition append (m : message) : M state unit :=
  modify (fun st => State (st_world st) (conversation_history st ++ [m])).

Definition history : M state (list message) :=
  fun st => (st, Ok (conversation_history st)).

(** The body of [for tool_call in assistant_message.tool_calls]
    (lines 185-199): the arguments are decoded, the two progress lines
    are printed, outside every [try], and then the tool is run. *)
Definition run_tool_call (tool_call : tool_call) : M state unit :=
  let function_name := tc_name tool_call in
  do function_args <- of_result (loads_optional json_loads (tc_arguments tool_call));
  run on_world (print (Executing function_name));
  run on_world (print (Args (json_dumps_indent2 function_args)));
  do function_response <- on_world (_execute_tool function_name function_args);
  append (Tool (tc_id tool_call) function_response).

Definition chat (user_message : string) : M state (option string) :=
  run append (User user_message);
  do h <- history;
  let messages := system_message :: h in
  let tools := _convert_tools_to_openai_format in
  do assistant_message <- on_world (completions_create messages (Some tools));
  if requests_tools assistant_message then
    run append (Assistant (msg_content assistant_message)
                          (Some (calls_of assistant_message)));
    run for_each run_tool_call (calls_of assistant_message);
    do h' <- history;
    do final_response <- on_world (completions_create (system_message :: h') None);
    let final_message := msg_content final_response in
    run append (Assistant final_message None);
    ret final_message
  else
    let response_content := msg_content assistant_message in
    run append (Assistant response_content None);
    ret response_content.

End Agent.

Arguments State {world} _ _.
Arguments st_world {world} _.
Arguments conversation_history {world} _.

End Azure.

(* ================================================================== *)
(** * L6-multi-client-server/mcp_chatbot.py                            *)
(* ================================================================== *)

Module L6.

(** [repr] of a list of strings, as [print] shows [[t.name for t in tools]]. *)
Definition repr_names (names : list string) : string :=
  "[" +:+ join ", " (map repr_str names) +:+ "]".

(** [str(x)] for an optional text: [None] prints as [None]. *)
Definition str_optional (x : option string) : string := default "None" x.

(** [d.get(key, {})] on the pairs of a dictionary. *)
Fixpoint dict_get (key : string) (d : list (string * pyval)) : pyval :=
  match d with
  | [] => PDict []
  | (k, v) :: rest => if String.eqb k key then v else dict_get key rest
  end.

Definition AttributeError (v : pyval) (attr : string) : exn :=
  Exn "AttributeError"
      (str1 squote +:+ type_name v +:+ str1 squote +:+ " object has no attribute "
         +:+ str1 squote +:+ attr +:+ str1 squote).

(** [data.get("mcpServers", {})] followed by [servers.items()]. *)
Definition servers_of (data : pyval) : result (list (string * pyval)) :=
  match data with
  | PDict d =>
      match dict_get "mcpServers" d with
      | PDict servers => Ok servers
      | v => Raise (AttributeError v "items")
      end
  | v => Raise (AttributeError v "get")
  end.

Section Chatbot.

(** The outside world: the server processes, the configuration file and
    the LLM endpoint. *)
Variable world : Type.

Variable json_loads : string -> result pyval.

(** A [ClientSession]; each one is the connection to the server it was
    opened for, and the keys of [mcpServers] are distinct, so the server
    name identifies it. *)
Definition session : Type := string.

(** Lines 36-44: building [StdioServerParameters] from [server_config],
    entering the transport and the session, and [session.initialize()]. *)
Variable open_session : string -> pyval -> M world unit.

(** [session.list_tools()], giving [response.tools]. *)
Variable list_tools : session -> M world (list tool_descriptor).

(** [result.content] of a tool call, and [str] of it. *)
Variable content : Type.
Variable str_content : content -> string.

(** [session.call_tool(tool_name, arguments=tool_args_dict)] *)
Variable call_tool : session -> string -> pyval -> M world content.

(** Opening [server_config.json] and [json.load] of it. *)
Variable load_config : M world pyval.

(** [self.llm.chat.completions.create(messages=..., tools=...)] *)
Variable completions_create :
  list message -> list tool_descriptor -> M world llm_message.

(** The attributes of [MCP_ChatBot], the world and what was printed.
    The exit stack, which only [cleanup] reads, is part of the world. *)
Record state : Type := State {
  st_world : world;
  sessions : list session;
  available_tools : list tool_descriptor;
  tool_to_session : gmap string session;
  stdout : list string
}.

Definition on_world {A} (c : M world A) : M state A :=
  fun st => let (w, r) := c (st_world st) in
            (State w (sessions st) (available_tools st) (tool_to_session st) (stdout st), r).

Definition print (line : string) : M state unit :=
  modify (fun st => State (st_world st) (sessions st) (available_tools st)
                          (tool_to_session st) (stdout st ++ [line])).

(** [self.sessions.append(session)] *)
Definition add_session (s : session) : M state unit :=
  modify (fun st => State (st_world st) (sessions st ++ [s]) (available_tools st)
                          (tool_to_session st) (stdout st)).

(** The body of [for tool in tools] (lines 53-61). *)
Definition register_tool (s : session) (tool : tool_descriptor) : M state unit :=
  modify (fun st => State (st_world st) (sessions st)
                          (available_tools st ++
                             [ToolDescriptor (tool_name tool) (tool_description tool)
                                             (tool_input_schema tool)])
                          (<[tool_name tool := s]> (tool_to_session st)) (stdout st)).

Definition connect_to_server (server_name : string) (server_config : pyval)
  : M state unit :=
  try_except
    (run on_world (open_session server_name server_config);
     let session := server_name in
     run add_session session;
     do tools <- on_world (list_tools session);
     run print (String newline ("Connected to " +:+ server_name +:+ " with tools: "
                                  +:+ repr_names (map tool_name tools)));
     for_each (register_tool session) tools)
    (fun e => print ("Failed to connect to " +:+ server_name +:+ ": " +:+ exn_str e)).

Definition connect_to_servers : M state unit :=
  try_except
    (do data <- on_world load_config;
     do servers <- of_result (servers_of data);
     for_each (fun server => connect_to_server (fst server) (snd server)) servers)
    (fun e =>
       run print ("Error loading server configuration: " +:+ exn_str e);
       raise e).

(** The store of [process_query]: the chatbot and the local [messages]. *)
Record query_state : Type := QueryState {
  bot : state;
  messages : list message
}.

Definition on_bot {A} (c : M state A) : M query_state A :=
  fun q => let (b, r) := c (bot q) in (QueryState b (messages q), r).

(** [messages.append(m)] *)
Definition append (m : message) : M query_state unit :=
  modify (fun q => QueryState (bot q) (messages q ++ [m])).

Definition create_completion : M query_state llm_message :=
  fun q => on_bot (on_world (completions_create (messages q)
                                                (available_tools (bot q)))) q.

(** [self.tool_to_session[tool_name]] *)
Definition session_of (tool_name : string) : M query_state session :=
  fun q => match tool_to_session (bot q) !! tool_name with
           | Some s => (q, Ok s)
           | None => (q, Raise (KeyError tool_name))
           end.

(** The body of [for tool_call in message.tool_calls] (lines 97-117). *)
Definition run_tool_call (tool_call : tool_call) : M query_state unit :=
  let tool_name := tc_name tool_call in
  let tool_args := tc_arguments tool_call in
  let tool_id := tc_id tool_call in
  run on_bot (print ("Calling tool " +:+ tool_name +:+ " with args "
                       +:+ str_optional tool_args));
  do tool_args_dict <- of_result (loads_optional json_loads tool_args);
  do session <- session_of tool_name;
  do result <- on_bot (on_world (call_tool session tool_name tool_args_dict));
  append (Tool tool_id (str_content result)).


(** One iteration of [while process_query] (lines 90-125): the next
    response when the loop goes on, [None] when [process_query] is set
    to [False]. *)
Definition loop_body (response : llm_message) : M query_state (option llm_message) :=
  let message := response in
  let assistant_content := msg_content message in
  run on_bot (print (str_optional assistant_content));
  if requests_tools message then
    run append (Assistant assistant_content (msg_tool_calls message));
    run for_each run_tool_call (calls_of message);
    do response' <- create_completion;
    ret (Some response')
  else ret None.

(** [while process_query], entered with the response of the first
    completion; [fuel] bounds the number of iterations and [None] means
    the bound was reached with the loop still running. *)
Fixpoint process_query_loop (fuel : nat) (response : llm_message) (q : query_state)
  : option (query_state * result unit) :=
  match fuel with
  | O => None
  | S fuel' =>
      match loop_body response q with
      | (q1, Raise e) => Some (q1, Raise e)
      | (q1, Ok (Some response')) => process_query_loop fuel' response' q1
      | (q1, Ok None) => Some (q1, Ok tt)
      end
  end.

Definition process_query (fuel : nat) (query : string) (b : state)
  : option (query_state * result unit) :=
  match create_completion (QueryState b [User query]) with
  | (q, Raise e) => Some (q, Raise e)
  | (q, Ok response) => process_query_loop fuel response q
  end.

End Chatbot.

Arguments State {world} _ _ _ _ _.
Arguments st_world {world} _.
Arguments sessions {world} _.
Arguments available_tools {world} _.
Arguments tool_to_session {world} _.
Arguments stdout {world} _.
Arguments QueryState {world} _ _.
Arguments bot {world} _.
Arguments messages {world} _.

End L6.

(* ================================================================== *)
(** * A decoder for the JSON texts of the scenarios                    *)
(* ================================================================== *)

(** The clients take [json.loads] from Python's library; the sections
    above leave it a variable.  The scenarios below run the clients on
    concrete payloads and need a decoder for them.  [Json.loads] decodes
    objects, arrays, strings, integers and the three literals, and
    rejects every other text; on numbers with a fraction or an exponent
    and on escapes above [u00ff] it therefore differs from the library,
    and no scenario uses such a text. *)

Module Json.

Definition is_ws (c : ascii) : bool :=
  let n := N_of_ascii c in
  ((n =? 32) || (n =? 9) || (n =? 10) || (n =? 13))%N.

Fixpoint skip_ws (s : string) : string :=
  match s with
  | String c rest => if is_ws c then skip_ws rest else s
  | EmptyString => s
  end.

Definition digit (c : ascii) : option Z :=
  let n := N_of_ascii c in
  if ((48 <=? n) && (n <=? 57))%N then Some (Z.of_N (n - 48)) else None.

Definition hex (c : ascii) : option N :=
  let n := N_of_ascii c in
  if ((48 <=? n) && (n <=? 57))%N then Some (n - 48)%N
  else if ((97 <=? n) && (n <=? 102))%N then Some (n - 87)%N
  else if ((65 <=? n) && (n <=? 70))%N then Some (n - 55)%N
  else None.

Definition unescape (c : ascii) : option ascii :=
  if Ascii.eqb c dquote then Some dquote
  else if Ascii.eqb c backslash then Some backslash
  else if Ascii.eqb c "/" then Some "/"%char
  else if Ascii.eqb c "b" then Some "008"%char
  else if Ascii.eqb c "f" then Some "012"%char
  else if Ascii.eqb c "n" then Some "010"%char
  else if Ascii.eqb c "r" then Some "013"%char
  else if Ascii.eqb c "t" then Some "009"%char
  else None.

(** The text after an opening quote: the decoded string and what
    follows its closing quote. *)
Fixpoint scan_string (s : string) : option (string * string) :=
  match s with
  | EmptyString => None
  | String c rest =>
      if Ascii.eqb c dquote then Some (EmptyString, rest)
      else if Ascii.eqb c backslash then
        match rest with
        | String "u" (String "0" (String "0" (String h (String l rest')))) =>
            match hex h, hex l, scan_string rest' with
            | Some a, Some b, Some (str, r) =>
                Some (String (ascii_of_N (16 * a + b)) str, r)
            | _, _, _ => None
            end
        | String e rest' =>
            match unescape e, scan_string rest' with
            | Some ch, Some (str, r) => Some (String ch str, r)
            | _, _ => None
            end
        | EmptyString => None
        end
      else if (N_of_ascii c <? 32)%N then None
      else match scan_string rest with
           | Some (str, r) => Some (String c str, r)
           | None => None
           end
  end.

(** The digits at the head of [s], read after [acc]. *)
Fixpoint scan_digits (acc : Z) (s : string) : Z * string :=
  match s with
  | String c rest =>
      match digit c with
      | Some d => scan_digits (10 * acc + d) rest
      | None => (acc, s)
      end
  | EmptyString => (acc, s)
  end.

Definition starts_fraction (s : string) : bool :=
  match s with
  | String c _ => Ascii.eqb c "." || Ascii.eqb c "e" || Ascii.eqb c "E"
  | EmptyString => false
  end.

(** An integer without its sign: [0], or digits that start with 1-9. *)
Definition scan_natural (s : string) : option (Z * string) :=
  match s with
  | String c rest =>
      match digit c with
      | Some 0%Z => if starts_fraction rest then None else Some (0%Z, rest)
      | Some d => let (n, r) := scan_digits d rest in
                  if starts_fraction r then None else Some (n, r)
      | None => None
      end
  | EmptyString => None
  end.

Fixpoint strip_prefix (p s : string) : option string :=
  match p, s with
  | EmptyString, _ => Some s
  | String a p', String b s' => if Ascii.eqb a b then strip_prefix p' s' else None
  | _, _ => None
  end.

(** [d[key] = v] on the pairs of a dictionary: a key met again keeps its
    place and takes the new value. *)
Fixpoint dict_set (key : string) (v : pyval) (d : list (string * pyval))
  : list (string * pyval) :=
  match d with
  | [] => [(key, v)]
  | (k, x) :: rest =>
      if String.eqb k key then (k, v) :: rest else (k, x) :: dict_set key v rest
  end.

Fixpoint parse_value (fuel : nat) (s : string) : option (pyval * string) :=
  match fuel with
  | O => None
  | S fuel' =>
      match s with
      | EmptyString => None
      | String c rest =>
          if Ascii.eqb c dquote then
            match scan_string rest with
            | Some (str, r) => Some (PStr str, r)
            | None => None
            end
          else if Ascii.eqb c "{" then
            match skip_ws rest with
            | String "}" r => Some (PDict [], r)
            | body =>
                match parse_members fuel' [] body with
                | Some (d, r) => Some (PDict d, r)
                | None => None
                end
            end
          else if Ascii.eqb c "[" then
            match skip_ws rest with
            | String "]" r => Some (PList [], r)
            | body =>
                match parse_elements fuel' body with
                | Some (l, r) => Some (PList l, r)
                | None => None
                end
            end
          else if Ascii.eqb c "-" then
            match scan_natural rest with
            | Some (n, r) => Some (PInt (- n), r)
            | None => None
            end
          else
            match strip_prefix "null" s, strip_prefix "true" s, strip_prefix "false" s with
            | Some r, _, _ => Some (PNone, r)
            | _, Some r, _ => Some (PBool true, r)
            | _, _, Some r => Some (PBool false, r)
            | _, _, _ =>
                match scan_natural s with
                | Some (n, r) => Some (PInt n, r)
                | None => None
                end
            end
      end
  end

(** The elements of an array, from the first one to the closing bracket. *)
with parse_elements (fuel : nat) (s : string) : option (list pyval * string) :=
  match fuel with
  | O => None
  | S fuel' =>
      match parse_value fuel' s with
      | Some (v, r) =>
          match skip_ws r with
          | String "," r' =>
              match parse_elements fuel' (skip_ws r') with
              | Some (l, r'') => Some (v :: l, r'')
              | None => None
              end
          | String "]" r' => Some ([v], r')
          | _ => None
          end
      | None => None
      end
  end

(** The members of an object, from the first key to the closing brace;
    [d] holds the members read so far. *)
with parse_members (fuel : nat) (d : list (string * pyval)) (s : string)
  : option (list (string * pyval) * string) :=
  match fuel with
  | O => None
  | S fuel' =>
      match s with
      | String c rest =>
          match (if Ascii.eqb c dquote then scan_string rest else None) with
          | Some (key, r) =>
              match skip_ws r with
              | String ":" r' =>
                  match parse_value fuel' (skip_ws r') with
                  | Some (v, r'') =>
                      match skip_ws r'' with
                      | String "," r3 => parse_members fuel' (dict_set key v d) (skip_ws r3)
                      | String "}" r3 => Some (dict_set key v d, r3)
                      | _ => None
                      end
                  | None => None
                  end
              | _ => None
              end
          | None => None
          end
      | EmptyString => None
      end
  end.

Definition decode (s : string) : option pyval :=
  match parse_value (2 * String.length s + 2) (skip_ws s) with
  | Some (v, rest) =>
      match skip_ws rest with
      | EmptyString => Some v
      | _ => None
      end
  | None => None
  end.

(** [json.loads] on the texts of the scenarios.  The malformed payloads
    used there have no value at their first character, for which the
    library's message is the one below. *)
Definition loads (s : string) : result pyval :=
  match decode s with
  | Some v => Ok v
  | None => Raise (Exn "JSONDecodeError" "Expecting value: line 1 column 1 (char 0)")
  end.

End Json.

(* ================================================================== *)
(** * Scenarios: the clients run against scripted collaborators        *)
(* ================================================================== *)

(** Each scenario fills the variables of a client with a small concrete
    world: an LLM endpoint that replays a script of responses (and
    refuses the connection once the script is used up), tools with fixed
    answers, and [Json.loads] for [json.loads]. *)

Module Script.

(** The first value stored under [key]. *)
Fixpoint assoc {A} (key : string) (l : list (string * A)) : option A :=
  match l with
  | [] => None
  | (k, v) :: rest => if String.eqb k key then Some v else assoc key rest
  end.

(** A response that asks for [calls], with no text. *)
Definition asks (calls : list tool_call) : llm_message := LlmMessage None (Some calls).

(** A response that is a plain answer. *)
Definition answers (text : string) : llm_message := LlmMessage (Some text) None.

Definition connection_error : exn := Exn "APIConnectionError" "Connection error.".

(** [{"key": "text"}] *)
Definition object1 (key text : string) : string :=
  "{" +:+ json_quote key +:+ ": " +:+ json_quote text +:+ "}".

End Script.

Module ArxivScenario.

Import Script.

Record world : Type := World {
  script : list llm_message;
  invocations : list (string * list (string * pyval))
}.

Definition completions_create (messages : list message) : M world llm_message :=
  fun w => match script w with
           | [] => (w, Raise connection_error)
           | r :: rest => (World rest (invocations w), Ok r)
           end.

Definition record (name : string) (kwargs : list (string * pyval)) : M world unit :=
  modify (fun w => World (script w) (invocations w ++ [(name, kwargs)])).

(** What the arXiv service has on every topic but [unmatched_topic],
    on which it has nothing. *)
Definition arxiv_ids : list string := ["2401.00001v1"; "2401.00002v1"; "2401.00003v1"].
Definition unmatched_topic : string := "qzxv jkwq".

Definition found_on (topic : pyval) : list string :=
  match topic with
  | PStr t => if String.eqb t unmatched_topic then [] else arxiv_ids
  | _ => arxiv_ids
  end.

(** [client.results(search)]: the first [max_results] entries, and all
    of them when [max_results] is 0, which the arxiv client takes for
    no limit. *)
Definition limited (max_results : Z) (found : list string) : list string :=
  if (max_results =? 0)%Z then found else take (Z.to_nat max_results) found.

Definition search_papers : L3.handler world := fun kwargs =>
  match assoc "topic" kwargs with
  | None => raise (TypeError
      "search_papers() missing 1 required positional argument: 'topic'")
  | Some topic =>
      let max_results := match assoc "max_results" kwargs with
                         | Some (PInt n) => n
                         | _ => 5%Z
                         end in
      run record "search_papers" kwargs;
      ret (PList (map PStr (limited max_results (found_on topic))))
  end.

(** Nothing is saved under [papers]. *)
Definition extract_info : L3.handler world := fun kwargs =>
  match assoc "paper_id" kwargs with
  | Some (PStr paper_id) =>
      run record "extract_info" kwargs;
      ret (PStr ("There's no saved information related to paper " +:+ paper_id +:+ "."))
  | _ => raise (TypeError
      "extract_info() missing 1 required positional argument: 'paper_id'")
  end.

Definition execute_tool := L3.execute_tool world search_papers extract_info.
Definition run_tool_call := L3.run_tool_call world search_papers extract_info Json.loads.
Definition loop_body :=
  L3.loop_body world search_papers extract_info Json.loads completions_create.
Definition process_query :=
  L3.process_query world search_papers extract_info Json.loads completions_create.

Definition search_call : tool_call :=
  ToolCall "call_1" "search_papers"
    (Some ("{" +:+ json_quote "topic" +:+ ": " +:+ json_quote "LLM interpretability"
               +:+ ", " +:+ json_quote "max_results" +:+ ": 2}")).

Definition extract_call : tool_call :=
  ToolCall "call_2" "extract_info" (Some (object1 "paper_id" "2401.00001v1")).

(** Two tool rounds, then the answer. *)
Definition two_rounds : world :=
  World [asks [search_call]; asks [extract_call]; answers "Two papers were found."] [].

(** One response asking for a tool nobody registered, then [search_papers]. *)
Definition unknown_call : tool_call := ToolCall "call_1" "summarize" (Some "{}").
Definition asks_unknown : world :=
  World [asks [unknown_call; ToolCall "call_2" "search_papers" (Some (object1 "topic" "x"))];
         answers "done"] [].


(** One response whose arguments are not JSON. *)
Definition malformed_call : tool_call := ToolCall "call_1" "search_papers" (Some "topic=x").
Definition asks_malformed : world := World [asks [malformed_call]; answers "done"] [].

(** A plain answer at once. *)
Definition answers_at_once : world := World [answers "Hello."] [].

(** The store of [process_query] when it enters its loop. *)
Definition entering (w : world) (query : string) : L3.state world :=
  L3.State w [User query].

(** A search asked for without its topic. *)
Definition asks_without_topic : world :=
  World [asks [ToolCall "call_1" "search_papers" (Some "{}")]; answers "done"] [].

(** A request that carries no arguments. *)
Definition bare_call : tool_call := ToolCall "call_1" "search_papers" None.

(** A search on a topic the service has nothing on. *)
Definition empty_search : list (string * pyval) := [("topic", PStr unmatched_topic)].

End ArxivScenario.

Module AgentScenario.

Import Script.

(** The MCP server answers [get_project_overview]; the transport to it
    is closed for every other call. *)
Record world : Type := World {
  script : list llm_message;
  requests : list (option (list tool_descriptor));
  invocations : list (string * pyval)
}.

Definition completions_create (messages : list message)
    (tools : option (list tool_descriptor)) : M world llm_message :=
  fun w => match script w with
           | [] => (World [] (requests w ++ [tools]) (invocations w),
                    Raise connection_error)
           | r :: rest => (World rest (requests w ++ [tools]) (invocations w), Ok r)
           end.

Definition overview : string := object1 "project_id" "TRN-2024-001".

Definition session_call_tool (name : string) (args : pyval)
  : M world (list Azure.content_item) :=
  fun w =>
    if String.eqb name "get_project_overview"
    then (World (script w) (requests w) (invocations w ++ [(name, args)]),
          Ok [Azure.ContentItem (Some overview)])
    else (w, Raise (Exn "McpError" "Connection closed")).

Definition available_tools : list tool_descriptor :=
  [ToolDescriptor "get_project_overview"
     "Get basic information about a project including phase count, train count, and commitments"
     (PDict [("type", PStr "object")])].

(** The standard output takes every line; what it shows is no part of
    this world. *)
Definition print (line : Azure.progress_line) : M world unit := ret tt.

Definition _execute_tool := Azure._execute_tool world session_call_tool.
Definition chat :=
  Azure.chat world Json.loads session_call_tool print completions_create available_tools.

Definition overview_call : tool_call :=
  ToolCall "call_1" "get_project_overview" (Some overview).


Definition second_call : tool_call :=
  ToolCall "call_2" "get_project_overview" (Some "id=1").

(** The arguments of the second request of the turn are not JSON. *)
Definition asks_malformed : world :=
  World [asks [overview_call; second_call]; answers "done"] [] [].

(** The endpoint is unreachable. *)
Definition unreachable : world := World [] [] [].

(** The transcript of an earlier turn. *)
Definition earlier : list message := [User "hello"; Assistant (Some "Hi.") None].

(** One request, then a plain answer. *)
Definition asks_once : world :=
  World [asks [overview_call]; answers "The project has 12 phases."] [] [].

(** A plain answer at once. *)
Definition answers_at_once : world := World [answers "Hello."] [] [].

End AgentScenario.

Module DatabaseScenario.

(** The database as the list of the tools that queried it. *)
Record world : Type := World { queries : list string }.

Definition tool (name : string) : McpServer.tool_impl world := fun args w =>
  (World (queries w ++ [name]),
   Ok [McpServer.TextContent (json_dumps_indent2 (PDict [("tool", PStr name)]))]).

Definition call_tool :=
  McpServer.call_tool world
    (tool "get_project_overview") (tool "get_project_phases")
    (tool "search_similar_projects") (tool "get_phase_statistics")
    (tool "build_project_skeleton") (tool "get_commitments_summary").

Definition fresh : world := World [].

End DatabaseScenario.

Module ServersScenario.

Import Script.

Inductive provider : Type :=
| Unreachable (e : exn)
| Serving (tools : list tool_descriptor).

Record world : Type := World {
  script : list llm_message;
  providers : list (string * provider);
  config_file : result pyval;
  invocations : list (string * string * pyval)
}.

Definition open_session (server_name : string) (server_config : pyval) : M world unit :=
  fun w => match assoc server_name (providers w) with
           | Some (Serving _) => (w, Ok tt)
           | Some (Unreachable e) => (w, Raise e)
           | None => (w, Raise (Exn "FileNotFoundError" "[Errno 2] No such file or directory"))
           end.

Definition list_tools (s : L6.session) : M world (list tool_descriptor) :=
  fun w => match assoc s (providers w) with
           | Some (Serving tools) => (w, Ok tools)
           | _ => (w, Raise (Exn "McpError" "Connection closed"))
           end.

(** [result.content] as the texts of its items. *)
Definition content : Type := list string.

Definition str_content (c : content) : string :=
  "[" +:+ join ", " (map (fun t => "TextContent(type='text', text=" +:+ repr_str t
                                     +:+ ", annotations=None)") c) +:+ "]".

Definition call_tool (s : L6.session) (name : string) (args : pyval) : M world content :=
  fun w => (World (script w) (providers w) (config_file w)
                  (invocations w ++ [(s, name, args)]),
            Ok [name +:+ " answered by " +:+ s]).

Definition load_config : M world pyval := fun w => (w, config_file w).

Definition completions_create (messages : list message) (tools : list tool_descriptor)
  : M world llm_message :=
  fun w => match script w with
           | [] => (w, Raise connection_error)
           | r :: rest =>
               (World rest (providers w) (config_file w) (invocations w), Ok r)
           end.

Definition connect_to_server := L6.connect_to_server world open_session list_tools.
Definition connect_to_servers :=
  L6.connect_to_servers world open_session list_tools load_config.
Definition loop_body :=
  L6.loop_body world Json.loads content str_content call_tool completions_create.
Definition process_query :=
  L6.process_query world Json.loads content str_content call_tool completions_create.

Definition schema : pyval := PDict [("type", PStr "object")].
Definition command (c : string) : pyval := PDict [("command", PStr c)].

Definition search_of (s : string) : tool_descriptor :=
  ToolDescriptor "search" ("Search with " +:+ s) schema.
Definition fetch : tool_descriptor := ToolDescriptor "fetch" "Fetch a page" schema.

Definition start (w : world) : L6.state world := L6.State w [] [] ∅ [].


(** The second of three servers cannot be started. *)
Definition one_down : world :=
  World [asks [ToolCall "call_1" "search" (Some (object1 "query" "x"));
               ToolCall "call_2" "fetch" (Some (object1 "url" "y"))];
         answers "done"]
        [("alpha", Serving [search_of "alpha"]);
         ("broken", Unreachable (Exn "FileNotFoundError"
                                     "[Errno 2] No such file or directory: 'nope'"));
         ("gamma", Serving [fetch])]
        (Ok (PDict [("mcpServers", PDict [("alpha", command "uvx");
                                          ("broken", command "nope");
                                          ("gamma", command "npx")])]))
        [].


(** The chatbot after [connect_to_servers]. *)
Definition connected (w : world) : L6.state world := fst (connect_to_servers (start w)).


End ServersScenario.

(* ================================================================== *)
(** * Text methods, loops and transcripts used by the callers          *)
(* ================================================================== *)

Module Text.

(** [c.isspace()] for a code point below 256. *)
Definition is_space (c : ascii) : bool :=
  let n := N_of_ascii c in
  (((9 <=? n) && (n <=? 13)) || ((28 <=? n) && (n <=? 32))
   || (n =? 133) || (n =? 160))%N.

Fixpoint lstrip (s : string) : string :=
  match s with
  | String c rest => if is_space c then lstrip rest else s
  | EmptyString => EmptyString
  end.

Fixpoint rstrip (s : string) : string :=
  match s with
  | EmptyString => EmptyString
  | String c rest =>
      match rstrip rest with
      | EmptyString => if is_space c then EmptyString else String c EmptyString
      | kept => String c kept
      end
  end.

(** [s.strip()] *)
Definition strip (s : string) : string := rstrip (lstrip s).

(** [c.lower()] for a code point below 256: the letters A-Z and the
    capital letters of the upper half, which leaves the multiplication
    sign alone. *)
Definition lower_char (c : ascii) : ascii :=
  let n := N_of_ascii c in
  if (((65 <=? n) && (n <=? 90))
      || ((192 <=? n) && (n <=? 222) && negb (n =? 215)))%N
  then ascii_of_N (n + 32) else c.

(** [s.lower()] *)
Fixpoint lower (s : string) : string :=
  match s with
  | EmptyString => EmptyString
  | String c rest => String (lower_char c) (lower rest)
  end.

End Text.

Module Loop.

(** How an iteration of [while True] ends: at [break], or at the end of
    the body (also through [continue]). *)
Inductive step : Type := Break | Continue.

(** [while True: body], for a body that can wait forever ([None]);
    [fuel] bounds the number of iterations and [None] also means that
    the bound was reached with the loop still running. *)
Fixpoint while_true {T} (body : T -> option (T * step)) (fuel : nat) (t : T) : option T :=
  match fuel with
  | O => None
  | S fuel' =>
      match body t with
      | None => None
      | Some (t1, Break) => Some t1
      | Some (t1, Continue) => while_true body fuel' t1
      end
  end.

(** The store after [n] iterations none of which reached [break]. *)
Fixpoint iterations {T} (body : T -> option (T * step)) (n : nat) (t : T) : option T :=
  match n with
  | O => Some t
  | S n' =>
      match body t with
      | Some (t1, Continue) => iterations body n' t1
      | _ => None
      end
  end.

(** [line.strip().lower() == 'quit'] *)
Definition is_quit (line : string) : Prop := Text.lower (Text.strip line) = "quit".

End Loop.

Module Transcript.

(** The requests of the latest assistant message that no tool message
    has answered yet, after [msgs] was read with [pending] still open;
    [None] when [msgs] breaks the order the chat-completions endpoint
    asks for: a tool message that does not answer the first open
    request, or any other message while a request is open. *)
Fixpoint pending_after (pending : list string) (msgs : list message)
  : option (list string) :=
  match msgs with
  | [] => Some pending
  | Tool id _ :: rest =>
      match pending with
      | p :: ps => if String.eqb id p then pending_after ps rest else None
      | [] => None
      end
  | Assistant _ calls :: rest =>
      match pending with
      | [] => pending_after (map tc_id (default [] calls)) rest
      | _ :: _ => None
      end
  | System _ :: rest | User _ :: rest =>
      match pending with
      | [] => pending_after [] rest
      | _ :: _ => None
      end
  end.

(** Every tool message answers a request, in order. *)
Definition well_formed (msgs : list message) : bool :=
  match pending_after [] msgs with Some _ => true | None => false end.

(** Well formed, and every request is answered. *)
Definition complete (msgs : list message) : bool :=
  match pending_after [] msgs with Some [] => true | _ => false end.

End Transcript.

(* ================================================================== *)
(** * The chat loops of L3.openai.py and of the multi-server chatbot   *)
(* ================================================================== *)

Module L3Chat.

Section ChatLoop.

Variable world : Type.
Variables search_papers extract_info : L3.handler world.
Variable json_loads : string -> result pyval.
Variable completions_create : list message -> M world llm_message.

(** The world, the lines the user will type and what was written to the
    terminal: one entry for each [print] (without the line break it
    adds) and for each prompt of [input].  What the two tools print
    belongs to the world. *)
Record terminal : Type := Terminal {
  st_world : world;
  stdin : list string;
  stdout : list string
}.

(** [print(line)] *)
Definition print (line : string) (t : terminal) : terminal :=
  Terminal (st_world t) (stdin t) (stdout t ++ [line]).

(** [input(prompt)]: the prompt is written, then a line is read;
    [EOFError] once the input is used up. *)
Definition input (prompt : string) : M terminal string :=
  fun t =>
    match stdin t with
    | [] => (Terminal (st_world t) [] (stdout t ++ [prompt]),
             Raise (Exn "EOFError" "EOF when reading a line"))
    | line :: rest => (Terminal (st_world t) rest (stdout t ++ [prompt]), Ok line)
    end.

(** [process_query(query)] as the loop sees it: what [L3.process_query]
    does to the world and the [print(msg.content)] of its last lines;
    the transcript is dropped. *)
Definition run_query (query_fuel : nat) (query : string) (t : terminal)
  : option (terminal * result unit) :=
  match L3.process_query world search_papers extract_info json_loads
          completions_create query_fuel query (st_world t) with
  | None => None
  | Some (st, Ok answer) =>
      Some (Terminal (L3.st_world st) (stdin t)
                     (stdout t ++ [L6.str_optional answer]), Ok tt)
  | Some (st, Raise e) => Some (Terminal (L3.st_world st) (stdin t) (stdout t), Raise e)
  end.

(** [print(f"\nError: {str(e)}")] *)
Definition print_error (e : exn) (t : terminal) : terminal :=
  print (String newline ("Error: " +:+ exn_str e)) t.

(** The body of [while True] in [chat_loop] (lines 264-272). *)
Definition iteration (query_fuel : nat) (t : terminal) : option (terminal * Loop.step) :=
  match input (String newline "Query: ") t with
  | (t1, Raise e) => Some (print_error e t1, Loop.Continue)
  | (t1, Ok line) =>
      let query := Text.strip line in
      if String.eqb (Text.lower query) "quit" then Some (t1, Loop.Break)
      else
        match run_query query_fuel query t1 with
        | None => None
        | Some (t2, Ok _) => Some (print (str1 newline) t2, Loop.Continue)
        | Some (t2, Raise e) => Some (print_error e t2, Loop.Continue)
        end
  end.

Definition chat_loop (query_fuel fuel : nat) (t : terminal) : option terminal :=
  Loop.while_true (iteration query_fuel) fuel
    (print "Type your queries or 'quit' to exit." t).

End ChatLoop.

Arguments Terminal {world} _ _ _.
Arguments st_world {world} _.
Arguments stdin {world} _.
Arguments stdout {world} _.

End L3Chat.

Module L6Chat.

Section ChatLoop.

Variable world : Type.
Variable json_loads : string -> result pyval.
Variable open_session : string -> pyval -> M world unit.
Variable list_tools : L6.session -> M world (list tool_descriptor).
Variable content : Type.
Variable str_content : content -> string.
Variable call_tool : L6.session -> string -> pyval -> M world content.
Variable load_config : M world pyval.
Variable completions_create :
  list message -> list tool_descriptor -> M world llm_message.

(** [self.exit_stack.aclose()] *)
Variable aclose : M world unit.

(** The chatbot and the lines the user will type. *)
Record terminal : Type := Terminal {
  bot : L6.state world;
  stdin : list string
}.

Definition print (line : string) (t : terminal) : terminal :=
  Terminal (fst (L6.print world line (bot t))) (stdin t).

(** [input(prompt)] *)
Definition input (prompt : string) : M terminal string :=
  fun t =>
    match stdin t with
    | [] => (Terminal (bot (print prompt t)) [],
             Raise (Exn "EOFError" "EOF when reading a line"))
    | line :: rest => (Terminal (bot (print prompt t)) rest, Ok line)
    end.

(** [await self.process_query(query)]: the transcript is dropped. *)
Definition run_query (query_fuel : nat) (query : string) (t : terminal)
  : option (terminal * result unit) :=
  match L6.process_query world json_loads content str_content call_tool
          completions_create query_fuel query (bot t) with
  | None => None
  | Some (q, r) => Some (Terminal (L6.bot q) (stdin t), r)
  end.

Definition print_error (e : exn) (t : terminal) : terminal :=
  print (String newline ("Error: " +:+ exn_str e)) t.

(** The body of [while True] in [chat_loop] (lines 133-143). *)
Definition iteration (query_fuel : nat) (t : terminal) : option (terminal * Loop.step) :=
  match input (String newline "Query: ") t with
  | (t1, Raise e) => Some (print_error e t1, Loop.Continue)
  | (t1, Ok line) =>
      let query := Text.strip line in
      if String.eqb (Text.lower query) "quit" then Some (t1, Loop.Break)
      else
        match run_query query_fuel query t1 with
        | None => None
        | Some (t2, Ok _) => Some (print (str1 newline) t2, Loop.Continue)
        | Some (t2, Raise e) => Some (print_error e t2, Loop.Continue)
        end
  end.

Definition chat_loop (query_fuel fuel : nat) (t : terminal) : option terminal :=
  Loop.while_true (iteration query_fuel) fuel
    (print "Type your queries or 'quit' to exit."
       (print (String newline "MCP Chatbot Started!") t)).

(** [await self.exit_stack.aclose()] *)
Definition cleanup (t : terminal) : terminal * result unit :=
  let (b, r) := L6.on_world world aclose (bot t) in (Terminal b (stdin t), r).

(** [try: ... finally: cleanup()]: when [cleanup] raises, its exception
    is the one that leaves. *)
Definition finally_cleanup (body : terminal * result unit) : terminal * result unit :=
  match cleanup (fst body) with
  | (t, Ok _) => (t, snd body)
  | (t, Raise e) => (t, Raise e)
  end.

(** [main], once the constructor of the chatbot has returned: the
    connections, the chat loop, and [cleanup] whatever happened. *)
Definition main (query_fuel fuel : nat) (w : world) (lines : list string)
  : option (terminal * result unit) :=
  let chatbot := Terminal (L6.State w [] [] ∅ []) lines in
  match L6.connect_to_servers world open_session list_tools load_config (bot chatbot) with
  | (b, Raise e) => Some (finally_cleanup (Terminal b lines, Raise e))
  | (b, Ok _) =>
      match chat_loop query_fuel fuel (Terminal b lines) with
      | None => None
      | Some t => Some (finally_cleanup (t, Ok tt))
      end
  end.

End ChatLoop.

Arguments Terminal {world} _ _.
Arguments bot {world} _.
Arguments stdin {world} _.

End L6Chat.

Module EdgeScenario.

(** A world that counts the tool calls made in it. *)
Definition world : Type := nat.

(** A tool that returns a string and a number. *)
Definition mixed : L3.handler world := fun kwargs w =>
  (S w, Ok (PList [PStr "2401.00001v1"; PInt 3])).

(** A tool that returns what it is given. *)
Definition echo : L3.handler world := fun kwargs w => (S w, Ok (PDict kwargs)).

Definition execute_tool := L3.execute_tool world mixed echo.
Definition run_tool_call := L3.run_tool_call world mixed echo Json.loads.

(** A request whose arguments are a JSON array. *)
Definition array_call : tool_call := ToolCall "call_1" "extract_info" (Some "[1]").

End EdgeScenario.

Module TurnScenario.

(** The agent after a turn that failed on the payload of its second
    request. *)
Definition after_failed_turn : Azure.state AgentScenario.world :=
  fst (AgentScenario.chat "q"
         (Azure.State AgentScenario.asks_malformed AgentScenario.earlier)).

(** The agent before a turn that answers its one request. *)
Definition before_good_turn : Azure.state AgentScenario.world :=
  Azure.State AgentScenario.asks_once AgentScenario.earlier.

End TurnScenario.

Module ChatScenario.

(** What the user types: two queries, the word that ends the chat, and
    a line after it. *)
Definition lines : list string :=
  ["  first question "; "second"; " QUIT "; "never read"].

(** The first query asks for an unregistered tool, the second one is
    answered at once. *)
Definition arxiv_start : L3Chat.terminal ArxivScenario.world :=
  L3Chat.Terminal ArxivScenario.asks_unknown lines [].

Definition arxiv_iteration :=
  L3Chat.iteration ArxivScenario.world ArxivScenario.search_papers
    ArxivScenario.extract_info Json.loads ArxivScenario.completions_create.
Definition arxiv_chat_loop :=
  L3Chat.chat_loop ArxivScenario.world ArxivScenario.search_papers
    ArxivScenario.extract_info Json.loads ArxivScenario.completions_create.

(** The same chat at the end of the input. *)
Definition arxiv_at_eof : L3Chat.terminal ArxivScenario.world :=
  L3Chat.Terminal ArxivScenario.asks_unknown [] [].

(** Closing the exit stack stops every server. *)
Definition aclose : M ServersScenario.world unit :=
  fun w => (ServersScenario.World (ServersScenario.script w) []
              (ServersScenario.config_file w) (ServersScenario.invocations w),
            Ok tt).

Definition servers_chat_loop :=
  L6Chat.chat_loop ServersScenario.world Json.loads ServersScenario.content
    ServersScenario.str_content ServersScenario.call_tool
    ServersScenario.completions_create.
Definition servers_main :=
  L6Chat.main ServersScenario.world Json.loads ServersScenario.open_session
    ServersScenario.list_tools ServersScenario.content ServersScenario.str_content
    ServersScenario.call_tool ServersScenario.load_config
    ServersScenario.completions_create aclose.

Definition servers_start : L6Chat.terminal ServersScenario.world :=
  L6Chat.Terminal (ServersScenario.connected ServersScenario.one_down) lines.

Definition servers_at_eof : L6Chat.terminal ServersScenario.world :=
  L6Chat.Terminal (ServersScenario.connected ServersScenario.one_down) [].

(** A world whose configuration file cannot be read. *)
Definition no_config : ServersScenario.world :=
  ServersScenario.World [Script.answers "done"] []
    (Raise (Exn "FileNotFoundError"
              "[Errno 2] No such file or directory: 'L6-multi-client-server/server_config.json'"))
    [].

(** A configuration file that holds a JSON array. *)
Definition array_config : ServersScenario.world :=
  ServersScenario.World [Script.answers "done"] [] (Ok (PList [])) [].

(** A configuration file that spells the key of the servers [servers]. *)
Definition other_key : ServersScenario.world :=
  ServersScenario.World [Script.answers "done"]
    [("alpha", ServersScenario.Serving [ServersScenario.fetch])]
    (Ok (PDict [("servers", PDict [("alpha", ServersScenario.command "uvx")])]))
    [].

End ChatScenario.

Module L6Registry.

(** The routing table agrees with the tool list and with the sessions:
    the names that have an owner are the names of the tools offered to
    the LLM, and every owner is one of [self.sessions]. *)
Definition routable {world} (st : L6.state world) : Prop :=
  (forall name, is_Some (L6.tool_to_session st !! name)
                <-> In name (map tool_name (L6.available_tools st)))
  /\ (forall name s, L6.tool_to_session st !! name = Some s -> In s (L6.sessions st)).

(** What [process_query] must leave alone. *)
Definition same_registry {world} (b b' : L6.state world) : Prop :=
  L6.sessions b' = L6.sessions b
  /\ L6.available_tools b' = L6.available_tools b
  /\ L6.tool_to_session b' = L6.tool_to_session b
  /\ exists printed, L6.stdout b' = (L6.stdout b ++ printed)%list.

End L6Registry.

(* ================================================================== *)
(** * The web wrapper of ai-azure-client.py                            *)
(* ================================================================== *)

Module AzureApi.

(** [class QueryRequest(BaseModel)]: [query: str], [session_id: str = None] *)
Record QueryRequest : Type := {
  query : string;
  session_id : option string
}.

(** [class QueryResponse(BaseModel)]: [response: str], [session_id: str] *)
Record QueryResponse : Type := {
  response : string;
  response_session_id : string
}.

(** What an endpoint does: it returns its response model, or raises
    [HTTPException(status_code=..., detail=...)]. *)
Inductive reply : Type :=
| Returns (r : QueryResponse)
| HTTPException (status_code : nat) (detail : string).

(** [request.session_id or "default"] *)
Definition session_or_default (request : QueryRequest) : string :=
  match session_id request with
  | None => "default"
  | Some EmptyString => "default"
  | Some s => s
  end.

(** The f-string of [handle_complex_query]. *)
Definition decomposition_prompt (query : string) : string :=
  String newline ("The user has asked: " +:+ str1 dquote +:+ query +:+ str1 dquote +:+ "

This appears to be a complex query that may require multiple steps. 
Please analyze what needs to be done and execute the necessary tools in sequence.

For building project skeletons based on similar projects, follow this pattern:
1. First, use search_similar_projects to find relevant past projects
2. Then, use get_phase_statistics to understand typical durations and costs
3. Finally, use build_project_skeleton to create the prefilled skeleton
4. Synthesize the results into actionable recommendations

Break down the query and execute each step thoughtfully.
").

Section Api.

Variable world : Type.
Variable json_loads : string -> result pyval.
Variable session_call_tool : string -> pyval -> M world (list Azure.content_item).
Variable print : Azure.progress_line -> M world unit.
Variable completions_create :
  list message -> option (list tool_descriptor) -> M world llm_message.
Variable available_tools : list tool_descriptor.

(** What [QueryResponse(response=None, ...)] raises: [response] is
    declared a [str]. *)
Variable response_not_a_string : exn.

Definition chat :=
  Azure.chat world json_loads session_call_tool print completions_create available_tools.

Definition handle_complex_query (query : string)
  : M (Azure.state world) (option string) :=
  chat (decomposition_prompt query).

(** [global_agent]: [None] until [startup_event] has run. *)
Definition global_agent : Type := option (Azure.state world).

(** [QueryResponse(response=response, session_id=...)] inside the [try]
    of an endpoint, and its [except Exception]. *)
Definition reply_of (request : QueryRequest) (r : result (option string)) : reply :=
  match r with
  | Ok (Some text) => Returns {| response := text;
                                 response_session_id := session_or_default request |}
  | Ok None => HTTPException 500 (exn_str response_not_a_string)
  | Raise e => HTTPException 500 (exn_str e)
  end.

(** [@app.post("/query")] *)
Definition process_query (request : QueryRequest) (agent : global_agent)
  : global_agent * reply :=
  match agent with
  | None => (None, HTTPException 500 "'NoneType' object has no attribute 'chat'")
  | Some a =>
      let (a', r) := chat (query request) a in (Some a', reply_of request r)
  end.

(** [@app.post("/complex-query")] *)
Definition process_complex_query (request : QueryRequest) (agent : global_agent)
  : global_agent * reply :=
  match agent with
  | None => (None, HTTPException 500
                     "'NoneType' object has no attribute 'handle_complex_query'")
  | Some a =>
      let (a', r) := handle_complex_query (query request) a in
      (Some a', reply_of request r)
  end.

End Api.

End AzureApi.

Module ApiScenario.

Definition validation_error : exn :=
  Exn "ValidationError" "1 validation error for QueryResponse".

Definition process_query :=
  AzureApi.process_query AgentScenario.world Json.loads AgentScenario.session_call_tool
    AgentScenario.print AgentScenario.completions_create AgentScenario.available_tools
    validation_error.
Definition process_complex_query :=
  AzureApi.process_complex_query AgentScenario.world Json.loads
    AgentScenario.session_call_tool AgentScenario.print
    AgentScenario.completions_create AgentScenario.available_tools validation_error.

(** Two users, each with a session id of their own. *)
Definition first_request : AzureApi.QueryRequest :=
  {| AzureApi.query := "How many phases has TRN-2024-001?";
     AzureApi.session_id := Some "alice" |}.
Definition second_request : AzureApi.QueryRequest :=
  {| AzureApi.query := "And what did I ask before?";
     AzureApi.session_id := Some "bob" |}.

(** The agent after start-up, with an LLM that answers both. *)
Definition started : AzureApi.global_agent AgentScenario.world :=
  Some (Azure.State
          (AgentScenario.World [Script.answers "Twelve."; Script.answers "Nothing."] [] [])
          []).

End ApiScenario.

Module ContentScenario.

(** An MCP server that answers [get_chart] with an image, [get_report]
    with two texts around an image, and every other tool with no
    content; the world is the list of the tools called. *)
Definition world : Type := list string.

Definition image : Azure.content_item := Azure.ContentItem None.
Definition text (t : string) : Azure.content_item := Azure.ContentItem (Some t).

Definition session_call_tool (name : string) (args : pyval)
  : M world (list Azure.content_item) :=
  fun w =>
    (w ++ [name],
     Ok (if String.eqb name "get_chart" then [image]
         else if String.eqb name "get_report"
              then [text "Phases: 12"; image; text "Trains: 8"]
              else []))%list.

Definition _execute_tool := Azure._execute_tool world session_call_tool.

End ContentScenario.

Module FailingToolsScenario.

(** Two requests with well-formed arguments; the server fails on the
    second one. *)
Definition calls : list tool_call :=
  [AgentScenario.overview_call; ToolCall "call_2" "get_project_phases" (Some "{}")].

Definition run_tool_call :=
  Azure.run_tool_call AgentScenario.world Json.loads AgentScenario.session_call_tool
    AgentScenario.print.

Definition before : Azure.state AgentScenario.world :=
  Azure.State AgentScenario.asks_once AgentScenario.earlier.

(** The turn that fails on the payload of its second request. *)
Definition failing_turn : Azure.state AgentScenario.world :=
  Azure.State AgentScenario.asks_malformed AgentScenario.earlier.

(** A standard output encoded in cp1252, which has no wrench sign. *)
Definition cp1252_error : exn :=
  Exn "UnicodeEncodeError"
      "'charmap' codec can't encode character '\U0001f527' in position 0: character maps to <undefined>".

Definition cp1252_print (line : Azure.progress_line) : M AgentScenario.world unit :=
  match line with
  | Azure.Executing _ => raise cp1252_error
  | Azure.Args _ => ret tt
  end.

Definition cp1252_chat :=
  Azure.chat AgentScenario.world Json.loads AgentScenario.session_call_tool cp1252_print
    AgentScenario.completions_create AgentScenario.available_tools.

End FailingToolsScenario.

Module WebScenario.

(** The agent after the first and after the second request. *)
Definition after_first : AzureApi.global_agent AgentScenario.world :=
  fst (ApiScenario.process_query ApiScenario.first_request ApiScenario.started).
Definition after_second : AzureApi.global_agent AgentScenario.world :=
  fst (ApiScenario.process_query ApiScenario.second_request after_first).

(** An agent whose LLM endpoint cannot be reached. *)
Definition offline : Azure.state AgentScenario.world :=
  Azure.State AgentScenario.unreachable AgentScenario.earlier.

(** The status of a reply as the caller sees it. *)
Definition status_of (rep : AzureApi.reply) : nat :=
  match rep with
  | AzureApi.Returns _ => 200
  | AzureApi.HTTPException status_code _ => status_code
  end.

End WebScenario.

Module RoutingScenario.


Definition search_call : tool_call :=
  ToolCall "call_1" "search" (Some (Script.object1 "query" "x")).

(** A request for a tool that no server published. *)
Definition unknown_call : tool_call := ToolCall "call_2" "summarize" (Some "{}").

Definition run_tool_call :=
  L6.run_tool_call ServersScenario.world Json.loads ServersScenario.content
    ServersScenario.str_content ServersScenario.call_tool.

End RoutingScenario.

(* ================================================================== *)
(** * Facts about the loops shared by the clients                      *)
(* ================================================================== *)

Ltac unfold_monad :=
  unfold bind, ret, raise, of_result, modify, try_except, get in *.

Ltac invert H := inversion H; subst; clear H.

Local Open Scope list_scope.

Lemma tool_messages_nil_l texts : tool_messages [] texts = [].
Proof. reflexivity. Qed.

Lemma tool_messages_cons tc calls text texts :
  tool_messages (tc :: calls) (text :: texts)
  = Tool (tc_id tc) text :: tool_messages calls texts.
Proof. reflexivity. Qed.

Lemma tool_ids_app l1 l2 : tool_ids (l1 ++ l2) = tool_ids l1 ++ tool_ids l2.
Proof.
  induction l1 as [|m l1 IH]; simpl; [reflexivity|].
  destruct m; simpl; rewrite ?IH; reflexivity.
Qed.


Lemma tool_messages_all_tool calls texts :
  Forall (fun m => exists id text, m = Tool id text) (tool_messages calls texts).
Proof.
  revert texts. induction calls as [|tc calls IH]; intros [|t texts];
    unfold tool_messages; simpl; constructor; eauto.
Qed.


Section ToolLoop.

(** A loop over the requests of a turn whose body appends the answer to
    its request when it succeeds and leaves the transcript alone when it
    raises. *)
Context {S : Type} (msgs : S -> list message) (body : tool_call -> M S unit).

Hypothesis body_ok : forall tc s s',
  body tc s = (s', Ok tt) -> exists text, msgs s' = msgs s ++ [Tool (tc_id tc) text].
Hypothesis body_raise : forall tc s s' e,
  body tc s = (s', Raise e) -> msgs s' = msgs s.

Lemma for_each_tool_messages calls : forall s s' r,
  for_each body calls s = (s', r) ->
  exists texts,
    msgs s' = msgs s ++ tool_messages calls texts
    /\ length texts <= length calls
    /\ (r = Ok tt -> length texts = length calls)
    /\ (forall e, r = Raise e -> length texts < length calls).
Proof.
  induction calls as [|tc calls IH]; intros s s' r Hrun; simpl in Hrun.
  - unfold ret in Hrun. invert Hrun. exists []. rewrite app_nil_r.
    split; [reflexivity|]. split; [reflexivity|]. split; [reflexivity|].
    intros e He. discriminate.
  - unfold bind in Hrun. destruct (body tc s) as [s1 [[]|e1]] eqn:Hbody.
    + destruct (body_ok _ _ _ Hbody) as [text Htext].
      destruct (IH _ _ _ Hrun) as (texts & Hmsgs & Hle & Hok & Hraise).
      exists (text :: texts). rewrite tool_messages_cons, Hmsgs, Htext, <- app_assoc.
      simpl. split; [reflexivity|]. split; [lia|]. split.
      * intros Hr. rewrite (Hok Hr). reflexivity.
      * intros e He. specialize (Hraise e He). lia.
    + invert Hrun. exists []. rewrite (body_raise _ _ _ _ Hbody), app_nil_r.
      simpl. split; [reflexivity|]. split; [lia|]. split.
      * intros Hr. discriminate.
      * intros e He. lia.
Qed.

(** The loop stops at the first request whose body raises. *)
Lemma for_each_raises pre tc post : forall s s1 s2 e,
  for_each body pre s = (s1, Ok tt) ->
  body tc s1 = (s2, Raise e) ->
  for_each body (pre ++ tc :: post) s = (s2, Raise e).
Proof.
  induction pre as [|x pre IH]; intros s s1 s2 e Hpre Hbody; simpl in *.
  - unfold ret in Hpre. invert Hpre. unfold bind. rewrite Hbody. reflexivity.
  - unfold bind in *. destruct (body x s) as [s0 [[]|e0]]; [|discriminate].
    eapply IH; eauto.
Qed.


End ToolLoop.

(* ================================================================== *)
(** * Facts about L3.openai.py                                         *)
(* ================================================================== *)

Lemma str_items_strings ss : forall i, str_items i (map PStr ss) = Ok ss.
Proof.
  induction ss as [|s ss IH]; intros i; simpl; [reflexivity|].
  rewrite IH. reflexivity.
Qed.

Lemma join_values_strings sep ss : join_values sep (map PStr ss) = Ok (join sep ss).
Proof. unfold join_values. rewrite str_items_strings. reflexivity. Qed.

Section L3Facts.

Variable world : Type.
Variables search_papers extract_info : L3.handler world.
Variable json_loads : string -> result pyval.
Variable completions_create : list message -> M world llm_message.

Local Abbreviation mapping_tool_function :=
  (L3.mapping_tool_function world search_papers extract_info).
Local Abbreviation execute_tool := (L3.execute_tool world search_papers extract_info).
Local Abbreviation run_tool_call :=
  (L3.run_tool_call world search_papers extract_info json_loads).
Local Abbreviation tool_round :=
  (L3.tool_round world search_papers extract_info json_loads).
Local Abbreviation loop_body :=
  (L3.loop_body world search_papers extract_info json_loads completions_create).
Local Abbreviation process_query_loop :=
  (L3.process_query_loop world search_papers extract_info json_loads completions_create).
Local Abbreviation tool_rounds :=
  (L3.tool_rounds world search_papers extract_info json_loads completions_create).

Lemma L3_registered name (f : L3.handler world) :
  mapping_tool_function !! name = Some f <->
  (name = "search_papers" /\ f = search_papers)
  \/ (name = "extract_info" /\ f = extract_info).
Proof.
  unfold L3.mapping_tool_function. split.
  - intros H. apply lookup_insert_Some in H as [[<- <-]|[Hne H]]; [left; auto|].
    apply lookup_insert_Some in H as [[<- <-]|[Hne' H]]; [right; auto|].
    rewrite lookup_empty in H. discriminate.
  - intros [[-> ->]|[-> ->]].
    + apply lookup_insert_eq.
    + rewrite lookup_insert_ne by discriminate. apply lookup_insert_eq.
Qed.

Lemma L3_unregistered name :
  name <> "search_papers" -> name <> "extract_info" ->
  mapping_tool_function !! name = None.
Proof.
  intros H1 H2. unfold L3.mapping_tool_function.
  rewrite !lookup_insert_ne by congruence. apply lookup_empty.
Qed.

(** A registered tool called with a mapping: the handler runs on the
    keyword arguments and its value goes through the [if]/[elif] chain. *)
Lemma L3_execute_tool_registered name (f : L3.handler world) kwargs w :
  mapping_tool_function !! name = Some f ->
  execute_tool name (PDict kwargs) w
  = match f kwargs w with
    | (w1, Ok v) => (w1, L3.text_of_result v)
    | (w1, Raise e) => (w1, Raise e)
    end.
Proof.
  intros Hf. unfold L3.execute_tool, L3.handler in *. rewrite Hf. unfold_monad.
  destruct (f kwargs w) as [w1 [v|e]]; reflexivity.
Qed.

Lemma L3_execute_tool_unregistered name args w :
  mapping_tool_function !! name = None ->
  execute_tool name args w = (w, Raise (KeyError name)).
Proof.
  intros Hf. unfold L3.execute_tool, L3.handler in *. rewrite Hf. reflexivity.
Qed.

Lemma L3_run_tool_call_ok tc st st' :
  run_tool_call tc st = (st', Ok tt) ->
  exists text, L3.st_messages st' = L3.st_messages st ++ [Tool (tc_id tc) text].
Proof.
  unfold L3.run_tool_call, L3.on_world, L3.append. unfold_monad.
  destruct (json_loads _) as [args|e]; [|discriminate].
  destruct (execute_tool _ _ _) as [w [text|e]]; [|discriminate].
  intros H. invert H. simpl. eauto.
Qed.

Lemma L3_run_tool_call_raise tc st st' e :
  run_tool_call tc st = (st', Raise e) ->
  L3.st_messages st' = L3.st_messages st.
Proof.
  unfold L3.run_tool_call, L3.on_world, L3.append. unfold_monad.
  destruct (json_loads _) as [args|e0].
  - destruct (execute_tool _ _ _) as [w [text|e1]]; intros H; invert H. reflexivity.
  - intros H. invert H. reflexivity.
Qed.

(** A payload [json.loads] rejects: the request is not answered and the
    exception leaves the loop body. *)
Lemma L3_run_tool_call_malformed tc st e :
  json_loads (L3.arguments_or_empty (tc_arguments tc)) = Raise e ->
  run_tool_call tc st = (st, Raise e).
Proof.
  intros H. unfold L3.run_tool_call. unfold_monad. rewrite H. reflexivity.
Qed.



Lemma L3_tool_round_messages msg st st' r :
  tool_round msg st = (st', r) ->
  exists texts,
    L3.st_messages st'
    = L3.st_messages st
        ++ Assistant (Some (default EmptyString (msg_content msg))) (Some (calls_of msg))
        :: tool_messages (calls_of msg) texts
    /\ length texts <= length (calls_of msg)
    /\ (r = Ok tt -> length texts = length (calls_of msg))
    /\ (forall e, r = Raise e -> length texts < length (calls_of msg)).
Proof.
  unfold L3.tool_round, L3.append. unfold_monad. intros Hrun.
  destruct (for_each_tool_messages L3.st_messages run_tool_call
              L3_run_tool_call_ok L3_run_tool_call_raise _ _ _ _ Hrun)
    as (texts & Hmsgs & Hrest).
  exists texts. split; [|exact Hrest].
  rewrite Hmsgs. simpl. rewrite <- app_assoc. reflexivity.
Qed.

(** An iteration whose response asks for tools is the tool round run on
    the transcript the completion was asked with. *)
Lemma L3_loop_body_tools st w1 msg :
  completions_create (L3.st_messages st) (L3.st_world st) = (w1, Ok msg) ->
  requests_tools msg = true ->
  loop_body st
  = match tool_round msg (L3.State w1 (L3.st_messages st)) with
    | (st', Ok _) => (st', Ok None)
    | (st', Raise e) => (st', Raise e)
    end.
Proof.
  intros Hllm Htools. unfold L3.loop_body, L3.on_world. unfold_monad.
  rewrite Hllm, Htools.
  destruct (tool_round msg _) as [st' [[]|e]]; reflexivity.
Qed.

Lemma L3_loop_body_answer st w1 msg :
  completions_create (L3.st_messages st) (L3.st_world st) = (w1, Ok msg) ->
  requests_tools msg = false ->
  loop_body st = (L3.State w1 (L3.st_messages st), Ok (Some (msg_content msg))).
Proof.
  intros Hllm Htools. unfold L3.loop_body, L3.on_world. unfold_monad.
  rewrite Hllm, Htools. reflexivity.
Qed.

Lemma L3_loop_body_llm_failure st w1 e :
  completions_create (L3.st_messages st) (L3.st_world st) = (w1, Raise e) ->
  loop_body st = (L3.State w1 (L3.st_messages st), Raise e).
Proof.
  intros Hllm. unfold L3.loop_body, L3.on_world. unfold_monad.
  rewrite Hllm. reflexivity.
Qed.

(** After [n] iterations that reached [continue], the loop behaves as if
    started from the store they left, with [n] less fuel. *)
Lemma L3_loop_after_rounds n : forall st st_n fuel,
  tool_rounds n st = Some st_n ->
  process_query_loop (n + fuel) st = process_query_loop fuel st_n.
Proof.
  induction n as [|n IH]; intros st st_n fuel Hn; simpl in *.
  - invert Hn. reflexivity.
  - destruct (loop_body st) as [st1 [[a|]|e]]; try discriminate.
    apply IH. exact Hn.
Qed.

(** Fewer than [n + 1] iterations do not finish a query that goes
    through [n] tool rounds. *)
Lemma L3_loop_needs_fuel n : forall st st_n fuel,
  tool_rounds n st = Some st_n -> fuel <= n ->
  process_query_loop fuel st = None.
Proof.
  induction n as [|n IH]; intros st st_n fuel Hn Hle; simpl in *.
  - assert (fuel = 0) as -> by lia. reflexivity.
  - destruct fuel as [|fuel]; [reflexivity|]. simpl.
    destruct (loop_body st) as [st1 [[a|]|e]]; try discriminate.
    eapply IH; eauto. lia.
Qed.

End L3Facts.

(* ================================================================== *)
(** * Facts about mcp-server.py and ai-azure-client.py                 *)
(* ================================================================== *)

Section McpServerFacts.

Variable world : Type.
Variables get_project_overview get_project_phases search_similar_projects
  get_phase_statistics build_project_skeleton get_commitments_summary
  : McpServer.tool_impl world.

Local Abbreviation call_tool :=
  (McpServer.call_tool world get_project_overview get_project_phases
     search_similar_projects get_phase_statistics build_project_skeleton
     get_commitments_summary).

(** A name [list_tools] does not publish reaches the final [else]. *)
Lemma McpServer_call_tool_unknown name arguments w :
  ~ In name McpServer.tool_names ->
  call_tool name arguments w = (w, Raise (ValueError ("Unknown tool: " +:+ name))).
Proof.
  intros Hnot. unfold McpServer.call_tool.
  repeat match goal with
  | |- context [String.eqb name ?s] =>
      destruct (String.eqb_spec name s) as [->|_];
      [exfalso; apply Hnot; simpl; tauto|]
  end.
  reflexivity.
Qed.

End McpServerFacts.

Section AzureFacts.

Variable world : Type.
Variable json_loads : string -> result pyval.
Variable session_call_tool : string -> pyval -> M world (list Azure.content_item).
Variable print : Azure.progress_line -> M world unit.
Variable completions_create :
  list message -> option (list tool_descriptor) -> M world llm_message.
Variable available_tools : list tool_descriptor.

Local Abbreviation _execute_tool := (Azure._execute_tool world session_call_tool).
Local Abbreviation run_tool_call :=
  (Azure.run_tool_call world json_loads session_call_tool print).
Local Abbreviation tools := (Azure._convert_tools_to_openai_format available_tools).
Local Abbreviation chat :=
  (Azure.chat world json_loads session_call_tool print completions_create
     available_tools).

Lemma Azure_execute_tool_failure name args w w1 e :
  session_call_tool name args w = (w1, Raise e) ->
  _execute_tool name args w
  = (w1, Ok ("Error executing tool " +:+ name +:+ ": " +:+ exn_str e)).
Proof.
  intros H. unfold Azure._execute_tool. unfold_monad. rewrite H. reflexivity.
Qed.

Lemma Azure_execute_tool_content name args w w1 content :
  session_call_tool name args w = (w1, Ok content) ->
  _execute_tool name args w
  = (w1, Ok (match content with
             | [] => "Tool executed but returned no content"
             | _ => join (str1 newline) (Azure.texts_of content)
             end)).
Proof.
  intros H. unfold Azure._execute_tool. unfold_monad. rewrite H.
  destruct content; reflexivity.
Qed.

(** [_execute_tool] always returns a text. *)
Lemma Azure_execute_tool_total name args w :
  exists w1 text, _execute_tool name args w = (w1, Ok text).
Proof.
  destruct (session_call_tool name args w) as [w1 [content|e]] eqn:H.
  - rewrite (Azure_execute_tool_content _ _ _ _ _ H). eauto.
  - rewrite (Azure_execute_tool_failure _ _ _ _ _ H). eauto.
Qed.

Lemma Azure_run_tool_call_ok tc st st' :
  run_tool_call tc st = (st', Ok tt) ->
  exists text,
    Azure.conversation_history st'
    = Azure.conversation_history st ++ [Tool (tc_id tc) text].
Proof.
  unfold Azure.run_tool_call, Azure.on_world, Azure.append. unfold_monad.
  destruct (loads_optional _ _) as [args|e]; [|discriminate]. simpl.
  destruct (print (Azure.Executing _) _) as [w1 [[]|e]]; [|discriminate]. simpl.
  destruct (print (Azure.Args _) _) as [w2 [[]|e]]; [|discriminate]. simpl.
  destruct (_execute_tool _ _ _) as [w [text|e]]; [|discriminate].
  intros H. invert H. simpl. eauto.
Qed.

Lemma Azure_run_tool_call_raise tc st st' e :
  run_tool_call tc st = (st', Raise e) ->
  Azure.conversation_history st' = Azure.conversation_history st.
Proof.
  unfold Azure.run_tool_call, Azure.on_world, Azure.append. unfold_monad.
  destruct (loads_optional _ _) as [args|e0]; [|intros H; invert H; reflexivity].
  simpl.
  destruct (print (Azure.Executing _) _) as [w1 [[]|e1]];
    [|intros H; invert H; reflexivity].
  simpl.
  destruct (print (Azure.Args _) _) as [w2 [[]|e2]];
    [|intros H; invert H; reflexivity].
  simpl.
  destruct (_execute_tool _ _ _) as [w [text|e3]]; intros H; invert H. reflexivity.
Qed.

Lemma Azure_run_tool_call_malformed tc st e :
  loads_optional json_loads (tc_arguments tc) = Raise e ->
  run_tool_call tc st = (st, Raise e).
Proof.
  intros H. unfold Azure.run_tool_call. unfold_monad. rewrite H. reflexivity.
Qed.

(** What makes the body raise: the payload, or one of the two progress
    lines.  The tool call itself is wrapped by [_execute_tool]. *)
Lemma Azure_run_tool_call_raise_cause tc st st' e :
  run_tool_call tc st = (st', Raise e) ->
  loads_optional json_loads (tc_arguments tc) = Raise e
  \/ exists args,
      loads_optional json_loads (tc_arguments tc) = Ok args
      /\ exists line w w1,
          (line = Azure.Executing (tc_name tc)
           \/ line = Azure.Args (json_dumps_indent2 args))
          /\ print line w = (w1, Raise e).
Proof.
  unfold Azure.run_tool_call, Azure.on_world, Azure.append. unfold_monad.
  destruct (loads_optional _ _) as [args|e0]; [|intros H; invert H; left; reflexivity].
  simpl.
  destruct (print (Azure.Executing _) _) as [w1 [[]|e1]] eqn:Hfirst.
  - simpl. destruct (print (Azure.Args _) _) as [w2 [[]|e2]] eqn:Hsecond.
    + simpl.
      destruct (Azure_execute_tool_total (tc_name tc) args w2) as (w3 & text & ->).
      intros H. invert H.
    + intros H. invert H. right. exists args. split; [reflexivity|].
      exists (Azure.Args (json_dumps_indent2 args)), w1, w2. split; [right; reflexivity|].
      exact Hsecond.
  - intros H. invert H. right. exists args. split; [reflexivity|].
    exists (Azure.Executing (tc_name tc)), (Azure.st_world st), w1.
    split; [left; reflexivity|]. exact Hfirst.
Qed.

(** [chat], one step after the other. *)
Lemma Azure_chat_unfold user_message st :
  chat user_message st
  = let h1 := Azure.conversation_history st ++ [User user_message] in
    match completions_create (Azure.system_message :: h1) (Some tools)
                             (Azure.st_world st) with
    | (w1, Raise e) => (Azure.State w1 h1, Raise e)
    | (w1, Ok am) =>
        if requests_tools am then
          match for_each run_tool_call (calls_of am)
                  (Azure.State w1 (h1 ++ [Assistant (msg_content am)
                                                    (Some (calls_of am))])) with
          | (st2, Raise e) => (st2, Raise e)
          | (st2, Ok _) =>
              match completions_create
                      (Azure.system_message :: Azure.conversation_history st2)
                      None (Azure.st_world st2) with
              | (w3, Raise e) =>
                  (Azure.State w3 (Azure.conversation_history st2), Raise e)
              | (w3, Ok fr) =>
                  (Azure.State w3 (Azure.conversation_history st2
                                     ++ [Assistant (msg_content fr) None]),
                   Ok (msg_content fr))
              end
          end
        else (Azure.State w1 (h1 ++ [Assistant (msg_content am) None]),
              Ok (msg_content am))
    end.
Proof.
  unfold Azure.chat, Azure.append, Azure.history, Azure.on_world. unfold_monad.
  simpl. destruct (completions_create _ _ _) as [w1 [am|e]]; [|reflexivity].
  destruct (requests_tools am); [|reflexivity]. simpl.
  destruct (for_each _ _ _) as [st2 [[]|e]]; [|reflexivity].
  destruct (completions_create _ _ _) as [w3 [fr|e]]; reflexivity.
Qed.

Lemma Azure_tool_loop_messages calls st st' r :
  for_each run_tool_call calls st = (st', r) ->
  exists texts,
    Azure.conversation_history st'
    = Azure.conversation_history st ++ tool_messages calls texts
    /\ length texts <= length calls
    /\ (r = Ok tt -> length texts = length calls)
    /\ (forall e, r = Raise e -> length texts < length calls).
Proof.
  apply (for_each_tool_messages Azure.conversation_history run_tool_call
           Azure_run_tool_call_ok Azure_run_tool_call_raise).
Qed.

(** Whatever happens in a turn, the transcript it started from is a
    prefix of the transcript it leaves, followed by the user message. *)
Lemma Azure_chat_extends user_message st st' r :
  chat user_message st = (st', r) ->
  exists suffix,
    Azure.conversation_history st'
    = Azure.conversation_history st ++ User user_message :: suffix.
Proof.
  rewrite Azure_chat_unfold. cbv zeta.
  destruct (completions_create _ _ _) as [w1 [am|e]].
  - destruct (requests_tools am).
    + destruct (for_each _ _ _) as [st2 [[]|e]] eqn:Hloop;
        destruct (Azure_tool_loop_messages _ _ _ _ Hloop) as (texts & Hmsgs & _);
        simpl in Hmsgs.
      * destruct (completions_create _ _ _) as [w3 [fr|e]]; intros H; invert H;
          simpl; rewrite Hmsgs, <- !app_assoc; simpl; eauto.
      * intros H. invert H. rewrite Hmsgs, <- !app_assoc. simpl. eauto.
    + intros H. invert H. simpl. rewrite <- app_assoc. simpl. eauto.
  - intros H. invert H. simpl. eauto.
Qed.

End AzureFacts.

(* ================================================================== *)
(** * Facts about L6-multi-client-server/mcp_chatbot.py                *)
(* ================================================================== *)

(** The registry after the tools of one session were registered. *)
Lemma registry_fold_lookup (s : L6.session) (tools : list tool_descriptor) :
  forall (reg : gmap string L6.session) (name : string),
    foldl (fun m t => <[tool_name t := s]> m) reg tools !! name
    = if decide (name ∈ map tool_name tools) then Some s else reg !! name.
Proof.
  induction tools as [|t tools IH]; intros reg name; cbn [foldl map].
  - destruct (decide (name ∈ [])) as [Hin|_]; [|reflexivity].
    apply elem_of_nil in Hin. contradiction.
  - rewrite IH. destruct (decide (name ∈ map tool_name tools)) as [Hin|Hnot].
    + destruct (decide (name ∈ tool_name t :: map tool_name tools)) as [_|Hno];
        [reflexivity|]. exfalso. apply Hno. right. exact Hin.
    + destruct (decide (name ∈ tool_name t :: map tool_name tools)) as [Hin|Hno].
      * apply elem_of_cons in Hin as [->|Hin]; [|contradiction].
        apply lookup_insert_eq.
      * apply lookup_insert_ne. intros <-. apply Hno. left.
Qed.

Section L6Facts.

Variable world : Type.
Variable json_loads : string -> result pyval.
Variable open_session : string -> pyval -> M world unit.
Variable list_tools : L6.session -> M world (list tool_descriptor).
Variable content : Type.
Variable str_content : content -> string.
Variable call_tool : L6.session -> string -> pyval -> M world content.
Variable load_config : M world pyval.
Variable completions_create :
  list message -> list tool_descriptor -> M world llm_message.

Local Abbreviation register_tool := (L6.register_tool world).
Local Abbreviation connect_to_server :=
  (L6.connect_to_server world open_session list_tools).
Local Abbreviation connect_to_servers :=
  (L6.connect_to_servers world open_session list_tools load_config).
Local Abbreviation connect_each :=
  (for_each (fun server : string * pyval => connect_to_server (fst server) (snd server))).
Local Abbreviation run_tool_call :=
  (L6.run_tool_call world json_loads content str_content call_tool).
Local Abbreviation loop_body :=
  (L6.loop_body world json_loads content str_content call_tool completions_create).

(** Registering the tools of a session never raises; every name takes
    the session as its owner, whoever owned it before. *)
Lemma L6_register_tools (s : L6.session) tools : forall st,
  for_each (register_tool s) tools st
  = (L6.State (L6.st_world st) (L6.sessions st)
       (L6.available_tools st ++ tools)
       (foldl (fun m t => <[tool_name t := s]> m) (L6.tool_to_session st) tools)
       (L6.stdout st),
     Ok tt).
Proof.
  induction tools as [|t tools IH]; intros st; simpl.
  - rewrite app_nil_r. destruct st. reflexivity.
  - unfold bind at 1. unfold L6.register_tool at 1. unfold modify.
    rewrite IH. simpl. rewrite <- app_assoc. destruct t. reflexivity.
Qed.

(** A server that cannot be opened: the failure is printed and nothing
    else of the chatbot changes. *)
Lemma L6_connect_failure server_name server_config st w1 e :
  open_session server_name server_config (L6.st_world st) = (w1, Raise e) ->
  connect_to_server server_name server_config st
  = (L6.State w1 (L6.sessions st) (L6.available_tools st) (L6.tool_to_session st)
       (L6.stdout st
          ++ ["Failed to connect to " +:+ server_name +:+ ": " +:+ exn_str e]),
     Ok tt).
Proof.
  intros H. unfold L6.connect_to_server, L6.on_world, L6.print. unfold_monad.
  rewrite H. reflexivity.
Qed.

(** A server that opens and lists its tools. *)
Lemma L6_connect_success server_name server_config st w1 w2 tools :
  open_session server_name server_config (L6.st_world st) = (w1, Ok tt) ->
  list_tools server_name w1 = (w2, Ok tools) ->
  connect_to_server server_name server_config st
  = (L6.State w2 (L6.sessions st ++ [server_name])
       (L6.available_tools st ++ tools)
       (foldl (fun m t => <[tool_name t := server_name]> m)
              (L6.tool_to_session st) tools)
       (L6.stdout st
          ++ [String newline ("Connected to " +:+ server_name +:+ " with tools: "
                                +:+ L6.repr_names (map tool_name tools))]),
     Ok tt).
Proof.
  intros Hopen Hlist.
  unfold L6.connect_to_server, L6.on_world, L6.print, L6.add_session. unfold_monad.
  rewrite Hopen. simpl. rewrite Hlist. simpl.
  rewrite L6_register_tools. reflexivity.
Qed.





Lemma L6_run_tool_call_ok tc q q' :
  run_tool_call tc q = (q', Ok tt) ->
  exists text, L6.messages q' = L6.messages q ++ [Tool (tc_id tc) text].
Proof.
  unfold L6.run_tool_call, L6.on_bot, L6.on_world, L6.print, L6.append,
    L6.session_of. unfold_monad. simpl.
  destruct (loads_optional _ _) as [args|e]; [|discriminate].
  destruct (L6.tool_to_session _ !! _) as [s|]; [|discriminate]. simpl.
  destruct (call_tool _ _ _ _) as [w [c|e]]; [|discriminate].
  intros H. invert H. simpl. eauto.
Qed.

Lemma L6_run_tool_call_raise tc q q' e :
  run_tool_call tc q = (q', Raise e) ->
  L6.messages q' = L6.messages q.
Proof.
  unfold L6.run_tool_call, L6.on_bot, L6.on_world, L6.print, L6.append,
    L6.session_of. unfold_monad. simpl.
  destruct (loads_optional _ _) as [args|e0].
  - destruct (L6.tool_to_session _ !! _) as [s|]; simpl.
    + destruct (call_tool _ _ _ _) as [w [c|e1]]; intros H; invert H. reflexivity.
    + intros H. invert H. reflexivity.
  - intros H. invert H. reflexivity.
Qed.

Lemma L6_loop_body_messages response q q' r :
  requests_tools response = true ->
  loop_body response q = (q', r) ->
  exists texts,
    L6.messages q'
    = L6.messages q
        ++ Assistant (msg_content response) (msg_tool_calls response)
        :: tool_messages (calls_of response) texts
    /\ length texts <= length (calls_of response)
    /\ ((forall e, r <> Raise e) -> length texts = length (calls_of response)).
Proof.
  intros Htools. unfold L6.loop_body. rewrite Htools.
  unfold L6.on_bot at 1. unfold L6.print, L6.append, L6.create_completion,
    L6.on_bot, L6.on_world. unfold_monad. simpl.
  match goal with |- context [for_each _ _ ?q0] => set (q1 := q0) end.
  destruct (for_each run_tool_call (calls_of response) q1) as [q2 r2] eqn:Hloop.
  destruct (for_each_tool_messages L6.messages run_tool_call
              L6_run_tool_call_ok L6_run_tool_call_raise _ _ _ _ Hloop)
    as (texts & Hmsgs & Hle & Hok & Hraise).
  subst q1. simpl in Hmsgs. rewrite <- app_assoc in Hmsgs. simpl in Hmsgs.
  destruct r2 as [[]|e2].
  - destruct (completions_create _ _ _) as [w3 [resp|e3]]; intros H; invert H;
      simpl; exists texts; (split; [exact Hmsgs|]); (split; [exact Hle|]);
      intros _; apply Hok; reflexivity.
  - intros H. invert H. exists texts. split; [exact Hmsgs|]. split; [exact Hle|].
    intros Hno. exfalso. eapply Hno. reflexivity.
Qed.



End L6Facts.

Section L3Transcript.

Variable world : Type.
Variables search_papers extract_info : L3.handler world.
Variable json_loads : string -> result pyval.
Variable completions_create : list message -> M world llm_message.

Local Abbreviation loop_body :=
  (L3.loop_body world search_papers extract_info json_loads completions_create).
Local Abbreviation process_query_loop :=
  (L3.process_query_loop world search_papers extract_info json_loads completions_create).

(** An iteration only appends to [messages]. *)
Lemma L3_loop_body_extends st st' r :
  loop_body st = (st', r) ->
  exists suffix, L3.st_messages st' = L3.st_messages st ++ suffix.
Proof.
  destruct (completions_create (L3.st_messages st) (L3.st_world st))
    as [w1 [msg|e]] eqn:Hllm.
  - destruct (requests_tools msg) eqn:Htools.
    + rewrite (L3_loop_body_tools _ _ _ _ _ _ _ _ Hllm Htools).
      destruct (L3.tool_round _ _ _ _ _ _) as [st2 r2] eqn:Hround.
      destruct (L3_tool_round_messages _ _ _ _ _ _ _ _ Hround) as (texts & Hmsgs & _).
      simpl in Hmsgs. destruct r2; intros H; invert H; eauto.
    + rewrite (L3_loop_body_answer _ _ _ _ _ _ _ _ Hllm Htools).
      intros H. invert H. exists []. simpl. rewrite app_nil_r. reflexivity.
  - rewrite (L3_loop_body_llm_failure _ _ _ _ _ _ _ _ Hllm).
    intros H. invert H. exists []. simpl. rewrite app_nil_r. reflexivity.
Qed.

Lemma L3_loop_extends fuel : forall st st' r,
  process_query_loop fuel st = Some (st', r) ->
  exists suffix, L3.st_messages st' = L3.st_messages st ++ suffix.
Proof.
  induction fuel as [|fuel IH]; intros st st' r Hrun; simpl in Hrun; [discriminate|].
  destruct (loop_body st) as [st1 r1] eqn:Hbody.
  destruct (L3_loop_body_extends _ _ _ Hbody) as [suffix1 H1].
  destruct r1 as [[a|]|e].
  - invert Hrun. eauto.
  - destruct (IH _ _ _ Hrun) as [suffix2 H2].
    exists (suffix1 ++ suffix2). rewrite H2, H1, app_assoc. reflexivity.
  - invert Hrun. eauto.
Qed.

End L3Transcript.

(* ================================================================== *)
(** * The properties of the orchestration loop                         *)
(* ================================================================== *)

Section Properties.

(** [json.loads], the same library function in every client. *)
Variable json_loads : string -> result pyval.

(** The collaborators of L3.openai.py. *)
Variable arxiv_world : Type.
Variables search_papers extract_info : L3.handler arxiv_world.
Variable arxiv_llm : list message -> M arxiv_world llm_message.

(** The collaborators of the multi-server chatbot. *)
Variable servers_world : Type.
Variable open_session : string -> pyval -> M servers_world unit.
Variable list_tools : L6.session -> M servers_world (list tool_descriptor).
Variable content : Type.
Variable str_content : content -> string.
Variable call_tool : L6.session -> string -> pyval -> M servers_world content.
Variable load_config : M servers_world pyval.
Variable servers_llm :
  list message -> list tool_descriptor -> M servers_world llm_message.

(** The collaborators of the train-production agent. *)
Variable agent_world : Type.
Variable session_call_tool : string -> pyval -> M agent_world (list Azure.content_item).
Variable agent_print : Azure.progress_line -> M agent_world unit.
Variable agent_llm :
  list message -> option (list tool_descriptor) -> M agent_world llm_message.
Variable available_tools : list tool_descriptor.

(** The tool implementations of the train-production server. *)
Variable db_world : Type.
Variables get_project_overview get_project_phases search_similar_projects
  get_phase_statistics build_project_skeleton get_commitments_summary
  : McpServer.tool_impl db_world.

Local Abbreviation l3_registry :=
  (L3.mapping_tool_function arxiv_world search_papers extract_info).
Local Abbreviation l3_execute_tool :=
  (L3.execute_tool arxiv_world search_papers extract_info).
Local Abbreviation l3_run_tool_call :=
  (L3.run_tool_call arxiv_world search_papers extract_info json_loads).
Local Abbreviation l3_loop_body :=
  (L3.loop_body arxiv_world search_papers extract_info json_loads arxiv_llm).
Local Abbreviation l3_process_query_loop :=
  (L3.process_query_loop arxiv_world search_papers extract_info json_loads arxiv_llm).
Local Abbreviation l3_process_query :=
  (L3.process_query arxiv_world search_papers extract_info json_loads arxiv_llm).
Local Abbreviation l3_tool_rounds :=
  (L3.tool_rounds arxiv_world search_papers extract_info json_loads arxiv_llm).

Local Abbreviation l6_connect_to_server :=
  (L6.connect_to_server servers_world open_session list_tools).
Local Abbreviation l6_connect_to_servers :=
  (L6.connect_to_servers servers_world open_session list_tools load_config).
Local Abbreviation l6_connect_each :=
  (for_each (fun server : string * pyval =>
               l6_connect_to_server (fst server) (snd server))).
Local Abbreviation l6_run_tool_call :=
  (L6.run_tool_call servers_world json_loads content str_content call_tool).
Local Abbreviation l6_loop_body :=
  (L6.loop_body servers_world json_loads content str_content call_tool servers_llm).

Local Abbreviation agent_execute_tool :=
  (Azure._execute_tool agent_world session_call_tool).
Local Abbreviation agent_run_tool_call :=
  (Azure.run_tool_call agent_world json_loads session_call_tool agent_print).
Local Abbreviation agent_chat :=
  (Azure.chat agent_world json_loads session_call_tool agent_print agent_llm
     available_tools).

Local Abbreviation server_call_tool :=
  (McpServer.call_tool db_world get_project_overview get_project_phases
     search_similar_projects get_phase_statistics build_project_skeleton
     get_commitments_summary).


(** C2, as amended.  [_execute_tool] of ai-azure-client.py always
    returns a text: a failure of the tool call is caught and becomes
    [Error executing tool <name>: <str(e)>].  [execute_tool] of
    L3.openai.py has no handler: when the tool raises, the same
    exception leaves [execute_tool] and the loop body of
    [process_query], and no tool message is appended for the request. *)
Theorem C2_tool_failure_caught_by_agent_only :
  (forall name args w, exists w1 text, agent_execute_tool name args w = (w1, Ok text))
  /\ (forall name args w w1 e,
      session_call_tool name args w = (w1, Raise e) ->
      agent_execute_tool name args w
      = (w1, Ok ("Error executing tool " +:+ name +:+ ": " +:+ exn_str e)))
  /\ (forall name (f : L3.handler arxiv_world) kwargs w w1 e,
      l3_registry !! name = Some f ->
      f kwargs w = (w1, Raise e) ->
      l3_execute_tool name (PDict kwargs) w = (w1, Raise e))
  /\ (forall tc (f : L3.handler arxiv_world) kwargs st w1 e,
      json_loads (L3.arguments_or_empty (tc_arguments tc)) = Ok (PDict kwargs) ->
      l3_registry !! tc_name tc = Some f ->
      f kwargs (L3.st_world st) = (w1, Raise e) ->
      l3_run_tool_call tc st = (L3.State w1 (L3.st_messages st), Raise e)).
Proof.
  split; [|split; [|split]].
  - intros name args w. apply Azure_execute_tool_total.
  - intros name args w w1 e H. apply Azure_execute_tool_failure. exact H.
  - intros name f kwargs w w1 e Hf Hraise.
    rewrite (L3_execute_tool_registered _ _ _ _ _ _ _ Hf), Hraise. reflexivity.
  - intros tc f kwargs st w1 e Hloads Hf Hraise.
    unfold L3.run_tool_call, L3.on_world. unfold_monad. rewrite Hloads.
    rewrite (L3_execute_tool_registered _ _ _ _ _ _ _ Hf), Hraise. reflexivity.
Qed.

(** C3, as amended.  For a name that is not registered, [execute_tool]
    of L3.openai.py raises [KeyError] to its caller, and [call_tool] of
    mcp-server.py raises [ValueError] with the text
    [Unknown tool: <name>]; neither returns a text.  When the session of
    the agent passes that failure on, [_execute_tool] returns a text
    that carries the marker. *)
Theorem C3_unknown_tool_raises :
  (forall name args w,
      name <> "search_papers" -> name <> "extract_info" ->
      l3_execute_tool name args w = (w, Raise (KeyError name)))
  /\ (forall name arguments w,
      ~ In name McpServer.tool_names ->
      server_call_tool name arguments w
      = (w, Raise (ValueError ("Unknown tool: " +:+ name))))
  /\ (forall name args w w1,
      session_call_tool name args w
      = (w1, Raise (ValueError ("Unknown tool: " +:+ name))) ->
      agent_execute_tool name args w
      = (w1, Ok ("Error executing tool " +:+ name +:+ ": Unknown tool: " +:+ name))).
Proof.
  split; [|split].
  - intros name args w H1 H2. apply L3_execute_tool_unregistered.
    apply L3_unregistered; assumption.
  - intros name arguments w Hnot. apply McpServer_call_tool_unknown. exact Hnot.
  - intros name args w w1 H.
    rewrite (Azure_execute_tool_failure _ _ _ _ _ _ _ H). reflexivity.
Qed.

(** C4, as amended.  [execute_tool] turns the value a registered tool
    returns into text as follows: [None] gives the fixed placeholder; a
    list of strings gives its items joined by a comma and a space, so
    the empty list gives the empty text; a dictionary gives
    [json.dumps(result, indent=2)], so the empty dictionary gives [{}];
    a string, an integer or a boolean gives [str(result)]. *)
Theorem C4_result_normalization :
  forall name (f : L3.handler arxiv_world) kwargs w w1 v,
    l3_registry !! name = Some f ->
    f kwargs w = (w1, Ok v) ->
    l3_execute_tool name (PDict kwargs) w = (w1, L3.text_of_result v)
    /\ (v = PNone -> L3.text_of_result v = Ok L3.no_results)
    /\ (forall ss, v = PList (map PStr ss) -> L3.text_of_result v = Ok (join ", " ss))
    /\ (v = PList [] -> L3.text_of_result v = Ok EmptyString)
    /\ (forall d, v = PDict d -> L3.text_of_result v = Ok (json_dumps_indent2 (PDict d)))
    /\ (v = PDict [] -> L3.text_of_result v = Ok "{}")
    /\ (forall s, v = PStr s -> L3.text_of_result v = Ok s)
    /\ (forall z, v = PInt z -> L3.text_of_result v = Ok (str_int z))
    /\ (forall b, v = PBool b -> L3.text_of_result v = Ok (str_bool b)).
Proof.
  intros name f kwargs w w1 v Hf Hret.
  split.
  { rewrite (L3_execute_tool_registered _ _ _ _ _ _ _ Hf), Hret. reflexivity. }
  repeat split; intros; subst; try reflexivity.
  simpl. apply join_values_strings.
Qed.

(** C5, as amended.  A request whose payload [json.loads] rejects gets
    no tool-result message.  In L3.openai.py and in ai-azure-client.py
    the decoding error leaves the loop over the requests and then
    [process_query], respectively [chat]; the transcript keeps the
    assistant message and the answers to the requests before the
    rejected one, and nothing for it or the requests after it. *)
Theorem C5_malformed_arguments_raise :
  (forall st w1 msg pre tc post st1 e,
      arxiv_llm (L3.st_messages st) (L3.st_world st) = (w1, Ok msg) ->
      requests_tools msg = true ->
      calls_of msg = pre ++ tc :: post ->
      for_each l3_run_tool_call pre
        (L3.State w1 (L3.st_messages st
                        ++ [Assistant (Some (default EmptyString (msg_content msg)))
                                      (Some (calls_of msg))]))
      = (st1, Ok tt) ->
      json_loads (L3.arguments_or_empty (tc_arguments tc)) = Raise e ->
      (forall fuel, l3_process_query_loop (S fuel) st = Some (st1, Raise e))
      /\ exists texts,
          length texts = length pre
          /\ L3.st_messages st1
             = L3.st_messages st
                 ++ Assistant (Some (default EmptyString (msg_content msg))) (Some (calls_of msg))
                 :: tool_messages pre texts)
  /\ (forall user_message st w1 msg pre tc post st1 e,
      agent_llm (Azure.system_message
                   :: Azure.conversation_history st ++ [User user_message])
                (Some (Azure._convert_tools_to_openai_format available_tools))
                (Azure.st_world st)
      = (w1, Ok msg) ->
      requests_tools msg = true ->
      calls_of msg = pre ++ tc :: post ->
      for_each agent_run_tool_call pre
        (Azure.State w1 (Azure.conversation_history st ++ [User user_message]
                           ++ [Assistant (msg_content msg) (Some (calls_of msg))]))
      = (st1, Ok tt) ->
      loads_optional json_loads (tc_arguments tc) = Raise e ->
      agent_chat user_message st = (st1, Raise e)
      /\ exists texts,
          length texts = length pre
          /\ Azure.conversation_history st1
             = Azure.conversation_history st
                 ++ User user_message
                 :: Assistant (msg_content msg) (Some (calls_of msg))
                 :: tool_messages pre texts).
Proof.
  split.
  - intros st w1 msg pre tc post st1 e Hllm Htools Hcalls Hpre Hloads.
    assert (Hround : L3.tool_round arxiv_world search_papers extract_info json_loads
                       msg (L3.State w1 (L3.st_messages st)) = (st1, Raise e)).
    { pose proof (for_each_raises l3_run_tool_call pre tc post _ st1 st1 e Hpre
                    (L3_run_tool_call_malformed _ _ _ _ _ _ _ Hloads)) as Hloop.
      rewrite <- Hcalls in Hloop.
      unfold L3.tool_round, L3.append. unfold_monad. simpl. exact Hloop. }
    split.
    + intros fuel. simpl.
      rewrite (L3_loop_body_tools _ _ _ _ _ _ _ _ Hllm Htools), Hround. reflexivity.
    + destruct (for_each_tool_messages L3.st_messages l3_run_tool_call
                  (L3_run_tool_call_ok _ _ _ _) (L3_run_tool_call_raise _ _ _ _)
                  _ _ _ _ Hpre) as (texts & Hmsgs & _ & Hok & _).
      exists texts. split; [auto|]. rewrite Hmsgs. simpl.
      rewrite <- app_assoc. reflexivity.
  - intros user_message st w1 msg pre tc post st1 e Hllm Htools Hcalls Hpre Hloads.
    split.
    + pose proof (for_each_raises agent_run_tool_call pre tc post _ st1 st1 e Hpre
                    (Azure_run_tool_call_malformed _ _ _ _ _ _ _ Hloads)) as Hloop.
      rewrite <- Hcalls in Hloop.
      rewrite Azure_chat_unfold. cbv zeta. rewrite Hllm, Htools.
      rewrite <- app_assoc, Hloop. reflexivity.
    + destruct (Azure_tool_loop_messages _ _ _ _ _ _ _ _ Hpre)
        as (texts & Hmsgs & _ & Hok & _).
      exists texts. split; [auto|]. rewrite Hmsgs. simpl.
      rewrite <- !app_assoc. reflexivity.
Qed.



(** C8, as amended.  The agent of ai-azure-client.py does not restore
    its transcript when a turn fails.  Whatever a turn does, the
    transcript it leaves is the one it found followed by the user
    message and by what the turn appended.  When the first completion
    fails that is the user message alone; when the loop over the
    requests raises, the assistant message with its requests stays,
    followed by answers to fewer requests than it carries.  In
    L3.openai.py the transcript of [process_query] starts anew from the
    query at every call. *)
Theorem C8_failed_turn_keeps_appended_messages :
  (forall user_message st st' r,
      agent_chat user_message st = (st', r) ->
      exists suffix,
        Azure.conversation_history st'
        = Azure.conversation_history st ++ User user_message :: suffix)
  /\ (forall user_message st w1 e,
      agent_llm (Azure.system_message
                   :: Azure.conversation_history st ++ [User user_message])
                (Some (Azure._convert_tools_to_openai_format available_tools))
                (Azure.st_world st)
      = (w1, Raise e) ->
      agent_chat user_message st
      = (Azure.State w1 (Azure.conversation_history st ++ [User user_message]),
         Raise e))
  /\ (forall user_message st w1 msg st1 e,
      agent_llm (Azure.system_message
                   :: Azure.conversation_history st ++ [User user_message])
                (Some (Azure._convert_tools_to_openai_format available_tools))
                (Azure.st_world st)
      = (w1, Ok msg) ->
      requests_tools msg = true ->
      for_each agent_run_tool_call (calls_of msg)
        (Azure.State w1 (Azure.conversation_history st ++ [User user_message]
                           ++ [Assistant (msg_content msg) (Some (calls_of msg))]))
      = (st1, Raise e) ->
      agent_chat user_message st = (st1, Raise e)
      /\ exists texts,
          length texts < length (calls_of msg)
          /\ Azure.conversation_history st1
             = Azure.conversation_history st
                 ++ User user_message
                 :: Assistant (msg_content msg) (Some (calls_of msg))
                 :: tool_messages (calls_of msg) texts)
  /\ (forall fuel query w st r,
      l3_process_query fuel query w = Some (st, r) ->
      exists suffix, L3.st_messages st = User query :: suffix).
Proof.
  split; [|split; [|split]].
  - intros user_message st st' r H.
    eapply Azure_chat_extends. exact H.
  - intros user_message st w1 e Hllm.
    rewrite Azure_chat_unfold. cbv zeta. rewrite Hllm. reflexivity.
  - intros user_message st w1 msg st1 e Hllm Htools Hloop. split.
    + rewrite Azure_chat_unfold. cbv zeta. rewrite Hllm, Htools.
      rewrite <- app_assoc, Hloop. reflexivity.
    + destruct (Azure_tool_loop_messages _ _ _ _ _ _ _ _ Hloop)
        as (texts & Hmsgs & _ & _ & Hlt).
      exists texts. split; [eapply Hlt; reflexivity|].
      rewrite Hmsgs. simpl. rewrite <- !app_assoc. reflexivity.
  - intros fuel query w st r H. unfold L3.process_query in H.
    destruct (L3_loop_extends _ _ _ _ _ _ _ _ _ H) as [suffix Hmsgs].
    simpl in Hmsgs. eauto.
Qed.


(** C10.  A request whose arguments are absent or the empty string is
    not a decoding error: [process_query] decodes [{}] in their place
    and runs [execute_tool] on the empty mapping, so a registered tool
    is called with no keyword argument and its result is appended as
    the answer to the request. *)
Theorem C10_absent_arguments_are_empty_mapping :
  forall tc st,
    (tc_arguments tc = None \/ tc_arguments tc = Some EmptyString) ->
    json_loads "{}" = Ok (PDict []) ->
    l3_run_tool_call tc st
    = (do result <- L3.on_world arxiv_world (l3_execute_tool (tc_name tc) (PDict []));
       L3.append arxiv_world (Tool (tc_id tc) result)) st
    /\ forall (f : L3.handler arxiv_world),
        l3_registry !! tc_name tc = Some f ->
        l3_execute_tool (tc_name tc) (PDict []) (L3.st_world st)
        = match f [] (L3.st_world st) with
          | (w1, Ok v) => (w1, L3.text_of_result v)
          | (w1, Raise e) => (w1, Raise e)
          end.
Proof.
  intros tc st Hargs Hloads. split.
  - unfold L3.run_tool_call. unfold bind at 1. unfold of_result.
    destruct Hargs as [-> | ->]; simpl; rewrite Hloads; reflexivity.
  - intros f Hf. apply L3_execute_tool_registered. exact Hf.
Qed.

End Properties.

(* ================================================================== *)
(** * The properties on the scenarios                                  *)
(* ================================================================== *)



(** C2, counterexample to the claim as stated: [search_papers] called
    without its topic raises [TypeError]; [execute_tool] returns no text
    but raises it in turn, and [process_query] ends with it. *)
Lemma C2_tool_failure_leaves_execute_tool :
  ArxivScenario.execute_tool "search_papers" (PDict []) ArxivScenario.asks_without_topic
  = (ArxivScenario.asks_without_topic,
     Raise (TypeError "search_papers() missing 1 required positional argument: 'topic'"))
  /\ (~ exists w text,
        ArxivScenario.execute_tool "search_papers" (PDict [])
          ArxivScenario.asks_without_topic = (w, Ok text))
  /\ exists st,
      ArxivScenario.process_query 5 "q" ArxivScenario.asks_without_topic
      = Some (st, Raise (TypeError
                "search_papers() missing 1 required positional argument: 'topic'")).
Proof.
  split; [reflexivity|]. split.
  - intros (w & text & H). vm_compute in H. discriminate.
  - eexists. vm_compute. reflexivity.
Qed.

(** C2 on a tool call the session of the agent cannot deliver, and on
    [search_papers] called without its topic. *)
Lemma C2_tool_failure_witness :
  AgentScenario._execute_tool "get_phase_statistics" (PDict []) AgentScenario.asks_once
  = (AgentScenario.asks_once,
     Ok "Error executing tool get_phase_statistics: Connection closed")
  /\ ArxivScenario.execute_tool "search_papers" (PDict []) ArxivScenario.asks_without_topic
     = (ArxivScenario.asks_without_topic,
        Raise (TypeError "search_papers() missing 1 required positional argument: 'topic'"))
  /\ ArxivScenario.run_tool_call ArxivScenario.bare_call
       (ArxivScenario.entering ArxivScenario.asks_without_topic "q")
     = (ArxivScenario.entering ArxivScenario.asks_without_topic "q",
        Raise (TypeError "search_papers() missing 1 required positional argument: 'topic'")).
Proof.
  destruct (C2_tool_failure_caught_by_agent_only
              Json.loads ArxivScenario.world
              ArxivScenario.search_papers ArxivScenario.extract_info
              AgentScenario.world AgentScenario.session_call_tool)
    as (_ & Hagent & Hexecute & Hcall).
  split; [|split].
  - apply (Hagent "get_phase_statistics" (PDict []) AgentScenario.asks_once
                  AgentScenario.asks_once (Exn "McpError" "Connection closed")).
    reflexivity.
  - apply (Hexecute "search_papers" ArxivScenario.search_papers []).
    + reflexivity.
    + reflexivity.
  - apply (Hcall ArxivScenario.bare_call ArxivScenario.search_papers []
                 (ArxivScenario.entering ArxivScenario.asks_without_topic "q")).
    + reflexivity.
    + reflexivity.
    + reflexivity.
Defined.

(** C3, counterexample to the claim as stated: nobody registered
    [summarize]; [execute_tool] returns no text but raises [KeyError]. *)
Lemma C3_unknown_tool_is_key_error :
  ArxivScenario.execute_tool "summarize" (PDict []) ArxivScenario.asks_unknown
  = (ArxivScenario.asks_unknown, Raise (KeyError "summarize"))
  /\ ~ exists w text,
         ArxivScenario.execute_tool "summarize" (PDict []) ArxivScenario.asks_unknown
         = (w, Ok text).
Proof.
  split; [reflexivity|].
  intros (w & text & H). vm_compute in H. discriminate.
Qed.

(** C3 on the name [summarize], which neither the chatbot nor the
    server knows. *)
Lemma C3_unknown_tool_witness :
  ArxivScenario.execute_tool "summarize" (PDict []) ArxivScenario.asks_unknown
  = (ArxivScenario.asks_unknown, Raise (KeyError "summarize"))
  /\ DatabaseScenario.call_tool "summarize" (PDict []) DatabaseScenario.fresh
     = (DatabaseScenario.fresh, Raise (ValueError "Unknown tool: summarize")).
Proof.
  destruct (C3_unknown_tool_raises
              ArxivScenario.world ArxivScenario.search_papers ArxivScenario.extract_info
              AgentScenario.world AgentScenario.session_call_tool
              DatabaseScenario.world
              (DatabaseScenario.tool "get_project_overview")
              (DatabaseScenario.tool "get_project_phases")
              (DatabaseScenario.tool "search_similar_projects")
              (DatabaseScenario.tool "get_phase_statistics")
              (DatabaseScenario.tool "build_project_skeleton")
              (DatabaseScenario.tool "get_commitments_summary"))
    as (Hchatbot & Hserver & _).
  split.
  - apply Hchatbot; discriminate.
  - apply (Hserver "summarize" (PDict []) DatabaseScenario.fresh).
    simpl. intros H. repeat destruct H as [H|H]; try discriminate H. exact H.
Defined.

(** C4, counterexample to the claim as stated: [search_papers] on a
    topic without a hit returns the empty list, and [execute_tool]
    gives the empty text for it, not the placeholder. *)
Lemma C4_empty_list_is_empty_text :
  snd (ArxivScenario.execute_tool "search_papers" (PDict ArxivScenario.empty_search)
         ArxivScenario.two_rounds)
  = Ok EmptyString
  /\ Ok EmptyString <> Ok L3.no_results.
Proof. split; [vm_compute; reflexivity|discriminate]. Qed.

(** C4 on a search for two papers. *)
Lemma C4_result_normalization_witness :
  snd (ArxivScenario.execute_tool "search_papers"
         (PDict [("topic", PStr "LLM interpretability"); ("max_results", PInt 2)])
         ArxivScenario.two_rounds)
  = Ok "2401.00001v1, 2401.00002v1".
Proof.
  destruct (C4_result_normalization
              ArxivScenario.world ArxivScenario.search_papers ArxivScenario.extract_info
              "search_papers" ArxivScenario.search_papers
              [("topic", PStr "LLM interpretability"); ("max_results", PInt 2)]
              ArxivScenario.two_rounds
              (fst (ArxivScenario.search_papers
                      [("topic", PStr "LLM interpretability"); ("max_results", PInt 2)]
                      ArxivScenario.two_rounds))
              (PList (map PStr ["2401.00001v1"; "2401.00002v1"])))
    as (Hexecute & _ & Hlist & _).
  - reflexivity.
  - reflexivity.
  - unfold ArxivScenario.execute_tool. rewrite Hexecute.
    exact (Hlist _ eq_refl).
Defined.

(** C5, counterexample to the claim as stated: the arguments of the
    request are not JSON; [process_query] ends with the decoding error
    and its transcript holds no tool message. *)
Lemma C5_malformed_arguments_end_the_query :
  exists st e,
    ArxivScenario.process_query 5 "q" ArxivScenario.asks_malformed = Some (st, Raise e)
    /\ exn_class e = "JSONDecodeError"
    /\ tool_ids (L3.st_messages st) = [].
Proof.
  eexists. eexists. split; [vm_compute; reflexivity|].
  split; reflexivity.
Qed.

(** C5 on a first request that is not JSON (L3.openai.py) and on a
    second request that is not JSON (ai-azure-client.py). *)
Lemma C5_malformed_arguments_witness :
  (exists st,
      ArxivScenario.process_query 1 "q" ArxivScenario.asks_malformed
      = Some (st, Raise (Exn "JSONDecodeError" "Expecting value: line 1 column 1 (char 0)"))
      /\ L3.st_messages st
         = [User "q"; Assistant (Some EmptyString) (Some [ArxivScenario.malformed_call])])
  /\ (exists st,
      AgentScenario.chat "q" (Azure.State AgentScenario.asks_malformed [])
      = (st, Raise (Exn "JSONDecodeError" "Expecting value: line 1 column 1 (char 0)"))
      /\ exists text,
          Azure.conversation_history st
          = [User "q";
             Assistant None (Some [AgentScenario.overview_call; AgentScenario.second_call]);
             Tool "call_1" text]).
Proof.
  destruct (C5_malformed_arguments_raise
              Json.loads ArxivScenario.world
              ArxivScenario.search_papers ArxivScenario.extract_info
              ArxivScenario.completions_create
              AgentScenario.world AgentScenario.session_call_tool
              AgentScenario.print
              AgentScenario.completions_create AgentScenario.available_tools)
    as [H3 Hagent].
  split.
  - edestruct (H3 (ArxivScenario.entering ArxivScenario.asks_malformed "q")
                  (ArxivScenario.World [Script.answers "done"] [])
                  (Script.asks [ArxivScenario.malformed_call])
                  [] ArxivScenario.malformed_call [])
      as [Hraise (texts & Hlen & Hmsgs)].
    + reflexivity.
    + reflexivity.
    + reflexivity.
    + reflexivity.
    + reflexivity.
    + eexists. split; [apply (Hraise 0)|].
      destruct texts; [exact Hmsgs|discriminate Hlen].
  - edestruct (Hagent "q" (Azure.State AgentScenario.asks_malformed [])
                  (AgentScenario.World [Script.answers "done"]
                     [Some AgentScenario.available_tools] [])
                  (Script.asks [AgentScenario.overview_call; AgentScenario.second_call])
                  [AgentScenario.overview_call] AgentScenario.second_call [])
      as [Hraise (texts & Hlen & Hmsgs)].
    + reflexivity.
    + reflexivity.
    + reflexivity.
    + vm_compute. reflexivity.
    + reflexivity.
    + eexists. split; [exact Hraise|].
      destruct texts as [|text [|? ?]]; try discriminate Hlen.
      exists text. exact Hmsgs.
Defined.




(** C8, counterexample to the claim as stated: the turn fails on the
    payload of its second request; the transcript the agent keeps is not
    the one it had before the turn, and its last assistant message
    carries [call_2], which no tool message answers. *)
Lemma C8_dangling_request_after_failed_turn :
  exists st e,
    AgentScenario.chat "q" (Azure.State AgentScenario.asks_malformed AgentScenario.earlier)
    = (st, Raise e)
    /\ Azure.conversation_history st
       = AgentScenario.earlier
           ++ [User "q";
               Assistant None (Some [AgentScenario.overview_call; AgentScenario.second_call]);
               Tool "call_1" AgentScenario.overview]
    /\ Azure.conversation_history st <> AgentScenario.earlier
    /\ tool_ids (Azure.conversation_history st) = ["call_1"].
Proof.
  eexists. eexists. split; [vm_compute; reflexivity|].
  split; [reflexivity|]. split; [discriminate|reflexivity].
Qed.

(** C8 on a turn that cannot reach the endpoint, on a turn that fails
    on a payload, and on a query of L3.openai.py. *)
Lemma C8_failed_turn_witness :
  AgentScenario.chat "q" (Azure.State AgentScenario.unreachable AgentScenario.earlier)
  = (Azure.State (AgentScenario.World [] [Some AgentScenario.available_tools] [])
       (AgentScenario.earlier ++ [User "q"]),
     Raise Script.connection_error)
  /\ (exists st texts,
      AgentScenario.chat "q" (Azure.State AgentScenario.asks_malformed AgentScenario.earlier)
      = (st, Raise (Exn "JSONDecodeError" "Expecting value: line 1 column 1 (char 0)"))
      /\ length texts < 2
      /\ Azure.conversation_history st
         = AgentScenario.earlier
             ++ User "q"
             :: Assistant None (Some [AgentScenario.overview_call; AgentScenario.second_call])
             :: tool_messages [AgentScenario.overview_call; AgentScenario.second_call] texts)
  /\ (exists st suffix,
      ArxivScenario.process_query 5 "q" ArxivScenario.two_rounds
      = Some (st, Ok (Some "Two papers were found."))
      /\ L3.st_messages st = User "q" :: suffix).
Proof.
  destruct (C8_failed_turn_keeps_appended_messages
              Json.loads ArxivScenario.world
              ArxivScenario.search_papers ArxivScenario.extract_info
              ArxivScenario.completions_create
              AgentScenario.world AgentScenario.session_call_tool
              AgentScenario.print
              AgentScenario.completions_create AgentScenario.available_tools)
    as (_ & Hfirst & Hloop & Hquery).
  split; [|split].
  - apply (Hfirst "q" (Azure.State AgentScenario.unreachable AgentScenario.earlier)).
    reflexivity.
  - edestruct (Hloop "q"
                 (Azure.State AgentScenario.asks_malformed AgentScenario.earlier)
                 (AgentScenario.World [Script.answers "done"]
                    [Some AgentScenario.available_tools] [])
                 (Script.asks [AgentScenario.overview_call; AgentScenario.second_call]))
      as [Hraise (texts & Hlt & Hmsgs)].
    + reflexivity.
    + reflexivity.
    + vm_compute. reflexivity.
    + eexists. exists texts. split; [exact Hraise|]. split; [exact Hlt|exact Hmsgs].
  - destruct (ArxivScenario.process_query 5 "q" ArxivScenario.two_rounds)
      as [[st r]|] eqn:Hrun; [|vm_compute in Hrun; discriminate Hrun].
    destruct (Hquery 5 "q" ArxivScenario.two_rounds st r Hrun) as [suffix Hmsgs].
    exists st, suffix. split; [|exact Hmsgs].
    vm_compute in Hrun. injection Hrun as <- <-. reflexivity.
Defined.



(** One tool round of the scripted chatbot, whatever follows in the
    script. *)
Lemma ArxivScenario_search_round rest inv msgs :
  ArxivScenario.loop_body
    (L3.State (ArxivScenario.World (Script.asks [ArxivScenario.search_call] :: rest) inv)
              msgs)
  = (L3.State
       (ArxivScenario.World rest
          (inv ++ [("search_papers",
                    [("topic", PStr "LLM interpretability"); ("max_results", PInt 2)])]))
       ((msgs ++ [Assistant (Some EmptyString) (Some [ArxivScenario.search_call])])
          ++ [Tool "call_1" "2401.00001v1, 2401.00002v1"]),
     Ok None).
Proof. vm_compute. reflexivity. Qed.

Lemma ArxivScenario_rounds_for_every_n n : forall rest inv msgs,
  exists st,
    L3.tool_rounds ArxivScenario.world ArxivScenario.search_papers
      ArxivScenario.extract_info Json.loads ArxivScenario.completions_create n
      (L3.State (ArxivScenario.World
                   (repeat (Script.asks [ArxivScenario.search_call]) n ++ rest) inv)
                msgs)
    = Some st
    /\ ArxivScenario.script (L3.st_world st) = rest
    /\ exists suffix, L3.st_messages st = msgs ++ suffix.
Proof.
  induction n as [|n IH]; intros rest inv msgs.
  - eexists. split; [reflexivity|]. split; [reflexivity|].
    exists []. simpl. rewrite app_nil_r. reflexivity.
  - cbn [repeat app L3.tool_rounds].
    change (L3.loop_body ArxivScenario.world ArxivScenario.search_papers
              ArxivScenario.extract_info Json.loads ArxivScenario.completions_create)
      with ArxivScenario.loop_body.
    rewrite ArxivScenario_search_round.
    destruct (IH rest
                (inv ++ [("search_papers",
                          [("topic", PStr "LLM interpretability");
                           ("max_results", PInt 2)])])
                ((msgs ++ [Assistant (Some EmptyString)
                                     (Some [ArxivScenario.search_call])])
                   ++ [Tool "call_1" "2401.00001v1, 2401.00002v1"]))
      as (st & Hrounds & Hscript & suffix & Hmsgs).
    exists st. split; [exact Hrounds|]. split; [exact Hscript|].
    eexists. rewrite Hmsgs, <- !app_assoc. reflexivity.
Qed.

(** The loop of L3.openai.py has no bound: for every [n] there is a
    script on which [process_query] answers after [n + 1] completions
    and not before. *)
Lemma ArxivScenario_query_of_n_rounds n :
  (exists st,
      ArxivScenario.process_query (S n) "q"
        (ArxivScenario.World
           (repeat (Script.asks [ArxivScenario.search_call]) n ++ [Script.answers "done"])
           [])
      = Some (st, Ok (Some "done")))
  /\ ArxivScenario.process_query n "q"
       (ArxivScenario.World
          (repeat (Script.asks [ArxivScenario.search_call]) n ++ [Script.answers "done"])
          [])
     = None.
Proof.
  destruct (ArxivScenario_rounds_for_every_n n [Script.answers "done"] [] [User "q"])
    as (st & Hrounds & Hscript & _).
  unfold ArxivScenario.process_query, L3.process_query. split.
  - replace (S n) with (n + 1) by lia.
    rewrite (L3_loop_after_rounds _ _ _ _ _ _ _ _ _ Hrounds).
    destruct st as [[script inv] msgs]. simpl in Hscript. subst script.
    eexists. reflexivity.
  - eapply L3_loop_needs_fuel; [exact Hrounds|lia].
Qed.

(** C10 on a request for [search_papers] that carries no arguments:
    the tool is called with no keyword argument. *)
Lemma C10_absent_arguments_witness :
  ArxivScenario.run_tool_call ArxivScenario.bare_call
    (ArxivScenario.entering ArxivScenario.two_rounds "q")
  = (do result <- L3.on_world ArxivScenario.world
                    (ArxivScenario.execute_tool "search_papers" (PDict []));
     L3.append ArxivScenario.world (Tool "call_1" result))
      (ArxivScenario.entering ArxivScenario.two_rounds "q")
  /\ ArxivScenario.execute_tool "search_papers" (PDict []) ArxivScenario.two_rounds
     = match ArxivScenario.search_papers [] ArxivScenario.two_rounds with
       | (w1, Ok v) => (w1, L3.text_of_result v)
       | (w1, Raise e) => (w1, Raise e)
       end.
Proof.
  destruct (C10_absent_arguments_are_empty_mapping
              Json.loads ArxivScenario.world
              ArxivScenario.search_papers ArxivScenario.extract_info
              ArxivScenario.bare_call
              (ArxivScenario.entering ArxivScenario.two_rounds "q"))
    as [Hrun Hcall].
  - left. reflexivity.
  - reflexivity.
  - split; [exact Hrun|]. apply (Hcall ArxivScenario.search_papers). reflexivity.
Defined.

(* ================================================================== *)
(** * Further properties of L3.openai.py                               *)
(* ================================================================== *)

Lemma str_items_first_other ss v rest : forall i,
  (forall s, v <> PStr s) ->
  str_items i (map PStr ss ++ v :: rest)
  = Raise (Exn "TypeError"
             ("sequence item " +:+ pretty (i + length ss)
                +:+ ": expected str instance, " +:+ type_name v +:+ " found")).
Proof.
  induction ss as [|s ss IH]; intros i Hv; simpl.
  - rewrite Nat.add_0_r. destruct v; try reflexivity. exfalso. eapply Hv. reflexivity.
  - rewrite (IH (S i) Hv). replace (S i + length ss) with (i + S (length ss)) by lia.
    reflexivity.
Qed.

Section L3Edges.

Variable world : Type.
Variables search_papers extract_info : L3.handler world.
Variable json_loads : string -> result pyval.

Local Abbreviation registry := (L3.mapping_tool_function world search_papers extract_info).
Local Abbreviation execute_tool := (L3.execute_tool world search_papers extract_info).
Local Abbreviation run_tool_call :=
  (L3.run_tool_call world search_papers extract_info json_loads).

(** X1.  Arguments that are valid JSON but not an object: [execute_tool]
    raises [TypeError] when it unpacks them, so a registered tool is not
    run and the world stays as it was; the request gets no tool message
    and the transcript is unchanged.  For a name that is not registered
    the lookup fails first, with [KeyError], whatever the arguments. *)
Theorem X1_arguments_must_be_a_mapping :
  forall name (f : L3.handler world) args,
    registry !! name = Some f ->
    (forall kwargs, args <> PDict kwargs) ->
    (forall w, exists e,
        execute_tool name args w = (w, Raise e) /\ exn_class e = "TypeError")
    /\ (forall tc st,
        tc_name tc = name ->
        json_loads (L3.arguments_or_empty (tc_arguments tc)) = Ok args ->
        exists e, run_tool_call tc st = (st, Raise e) /\ exn_class e = "TypeError")
    /\ (forall other w,
        registry !! other = None ->
        execute_tool other args w = (w, Raise (KeyError other))).
Proof.
  intros name f args Hf Hargs.
  assert (Hexec : forall w, exists e,
             execute_tool name args w = (w, Raise e) /\ exn_class e = "TypeError").
  { intros w. unfold L3.execute_tool, L3.handler in *. rewrite Hf.
    destruct args; try (eexists; split; reflexivity).
    exfalso. eapply Hargs. reflexivity. }
  split; [exact Hexec|]. split.
  - intros tc st Hname Hloads.
    destruct (Hexec (L3.st_world st)) as (e & He & Hclass).
    exists e. split; [|exact Hclass].
    unfold L3.run_tool_call, L3.on_world. unfold_monad.
    rewrite Hloads, Hname, He. destruct st. reflexivity.
  - intros other w Hnone. apply L3_execute_tool_unregistered. exact Hnone.
Qed.

(** X2.  A tool that returns a list whose items are not all strings:
    [execute_tool] raises the [TypeError] of [', '.join], which names
    the position of the first item that is not a string and its type;
    the tool has run, and the world is the one it left. *)
Theorem X2_list_items_must_be_strings :
  forall name (f : L3.handler world) kwargs w w1 ss v rest,
    registry !! name = Some f ->
    f kwargs w = (w1, Ok (PList (map PStr ss ++ v :: rest))) ->
    (forall s, v <> PStr s) ->
    execute_tool name (PDict kwargs) w
    = (w1, Raise (Exn "TypeError"
                    ("sequence item " +:+ pretty (length ss)
                       +:+ ": expected str instance, " +:+ type_name v +:+ " found"))).
Proof.
  intros name f kwargs w w1 ss v rest Hf Hret Hv.
  rewrite (L3_execute_tool_registered _ _ _ _ _ _ _ Hf), Hret.
  simpl. unfold join_values. rewrite (str_items_first_other ss v rest 0 Hv).
  reflexivity.
Qed.

End L3Edges.

(** X1 on a request for [extract_info] whose arguments are [[1]]. *)
Lemma X1_arguments_witness :
  (exists e,
      EdgeScenario.execute_tool "extract_info" (PList [PInt 1]) 0 = (0, Raise e)
      /\ exn_class e = "TypeError")
  /\ (exists e,
      EdgeScenario.run_tool_call EdgeScenario.array_call (L3.State 0 [User "q"])
      = (L3.State 0 [User "q"], Raise e)
      /\ exn_class e = "TypeError").
Proof.
  destruct (X1_arguments_must_be_a_mapping EdgeScenario.world
              EdgeScenario.mixed EdgeScenario.echo Json.loads
              "extract_info" EdgeScenario.echo (PList [PInt 1]))
    as (Hexec & Hcall & _).
  - reflexivity.
  - intros kwargs H. discriminate H.
  - split; [apply Hexec|]. apply Hcall; reflexivity.
Defined.

(** X2 on a tool that returns a string and a number. *)
Lemma X2_list_items_witness :
  EdgeScenario.execute_tool "search_papers" (PDict []) 0
  = (1, Raise (Exn "TypeError" "sequence item 1: expected str instance, int found")).
Proof.
  apply (X2_list_items_must_be_strings EdgeScenario.world
           EdgeScenario.mixed EdgeScenario.echo
           "search_papers" EdgeScenario.mixed [] 0 1 ["2401.00001v1"] (PInt 3) []).
  - reflexivity.
  - reflexivity.
  - intros s H. discriminate H.
Defined.

(* ================================================================== *)
(** * The order of requests and answers in the transcripts             *)
(* ================================================================== *)

Lemma pending_after_app a : forall pending b,
  Transcript.pending_after pending (a ++ b)
  = match Transcript.pending_after pending a with
    | Some p => Transcript.pending_after p b
    | None => None
    end.
Proof.
  induction a as [|m a IH]; intros pending b; simpl; [reflexivity|].
  destruct m as [c|c|c calls|id c]; destruct pending as [|p ps]; try reflexivity;
    try apply IH.
  destruct (String.eqb id p); [apply IH|reflexivity].
Qed.

(** Answers to the first requests close them, in order, and leave the
    later ones open. *)
Lemma pending_after_tool_messages calls : forall texts,
  length texts <= length calls ->
  Transcript.pending_after (map tc_id calls) (tool_messages calls texts)
  = Some (map tc_id (drop (length texts) calls)).
Proof.
  induction calls as [|tc calls IH]; intros [|t texts] Hlen; simpl in *;
    try reflexivity; try lia.
  rewrite String.eqb_refl. apply IH. lia.
Qed.

(** A complete transcript followed by an assistant message and answers
    to its first requests. *)
Lemma pending_after_round msgs content calls texts :
  Transcript.complete msgs = true ->
  length texts <= length calls ->
  Transcript.pending_after []
    (msgs ++ Assistant content (Some calls) :: tool_messages calls texts)
  = Some (map tc_id (drop (length texts) calls)).
Proof.
  unfold Transcript.complete. intros Hcomplete Hlen.
  rewrite pending_after_app.
  destruct (Transcript.pending_after [] msgs) as [[|p ps]|]; try discriminate.
  simpl. apply pending_after_tool_messages. exact Hlen.
Qed.

Lemma complete_well_formed msgs :
  Transcript.complete msgs = true -> Transcript.well_formed msgs = true.
Proof.
  unfold Transcript.complete, Transcript.well_formed.
  destruct (Transcript.pending_after [] msgs) as [[|p ps]|]; congruence.
Qed.

Lemma round_well_formed msgs content calls texts :
  Transcript.complete msgs = true ->
  length texts <= length calls ->
  Transcript.well_formed
    (msgs ++ Assistant content (Some calls) :: tool_messages calls texts) = true.
Proof.
  intros Hc Hlen. unfold Transcript.well_formed.
  rewrite (pending_after_round _ _ _ _ Hc Hlen). reflexivity.
Qed.

Lemma round_complete msgs content calls texts :
  Transcript.complete msgs = true ->
  length texts = length calls ->
  Transcript.complete
    (msgs ++ Assistant content (Some calls) :: tool_messages calls texts) = true.
Proof.
  intros Hc Hlen. unfold Transcript.complete.
  rewrite (pending_after_round _ _ _ _ Hc) by lia.
  rewrite Hlen, drop_all. reflexivity.
Qed.

(** A plain message after a complete transcript keeps it complete. *)
Lemma complete_snoc_plain msgs m :
  Transcript.complete msgs = true ->
  (exists c, m = User c) \/ (exists c, m = Assistant c None) ->
  Transcript.complete (msgs ++ [m]) = true.
Proof.
  unfold Transcript.complete. intros Hc Hm. rewrite pending_after_app.
  destruct (Transcript.pending_after [] msgs) as [[|p ps]|]; try discriminate.
  destruct Hm as [[c ->]|[c ->]]; reflexivity.
Qed.

(** Nothing that follows a user message can make up for a transcript
    that was not complete before it. *)
Lemma complete_before_user msgs content suffix :
  Transcript.complete (msgs ++ User content :: suffix) = true ->
  Transcript.complete msgs = true.
Proof.
  unfold Transcript.complete. rewrite pending_after_app.
  destruct (Transcript.pending_after [] msgs) as [[|p ps]|]; simpl;
    intros H; try discriminate; reflexivity.
Qed.

Lemma calls_of_requests msg :
  requests_tools msg = true -> msg_tool_calls msg = Some (calls_of msg).
Proof.
  unfold requests_tools, calls_of.
  destruct (msg_tool_calls msg) as [[|tc calls]|]; try discriminate. reflexivity.
Qed.

Section TranscriptOrder.

Variable json_loads : string -> result pyval.

Variable arxiv_world : Type.
Variables search_papers extract_info : L3.handler arxiv_world.
Variable arxiv_llm : list message -> M arxiv_world llm_message.

Variable servers_world : Type.
Variable content : Type.
Variable str_content : content -> string.
Variable call_tool : L6.session -> string -> pyval -> M servers_world content.
Variable servers_llm :
  list message -> list tool_descriptor -> M servers_world llm_message.

Variable agent_world : Type.
Variable session_call_tool : string -> pyval -> M agent_world (list Azure.content_item).
Variable agent_print : Azure.progress_line -> M agent_world unit.
Variable agent_llm :
  list message -> option (list tool_descriptor) -> M agent_world llm_message.
Variable available_tools : list tool_descriptor.

Local Abbreviation l3_loop_body :=
  (L3.loop_body arxiv_world search_papers extract_info json_loads arxiv_llm).
Local Abbreviation l3_process_query_loop :=
  (L3.process_query_loop arxiv_world search_papers extract_info json_loads arxiv_llm).
Local Abbreviation l3_process_query :=
  (L3.process_query arxiv_world search_papers extract_info json_loads arxiv_llm).
Local Abbreviation l3_tool_rounds :=
  (L3.tool_rounds arxiv_world search_papers extract_info json_loads arxiv_llm).
Local Abbreviation l6_loop_body :=
  (L6.loop_body servers_world json_loads content str_content call_tool servers_llm).
Local Abbreviation l6_process_query_loop :=
  (L6.process_query_loop servers_world json_loads content str_content call_tool
     servers_llm).
Local Abbreviation l6_process_query :=
  (L6.process_query servers_world json_loads content str_content call_tool servers_llm).
Local Abbreviation agent_chat :=
  (Azure.chat agent_world json_loads session_call_tool agent_print agent_llm
     available_tools).

(** One iteration of L3.openai.py from a complete transcript. *)
Lemma L3_loop_body_order st st' r :
  Transcript.complete (L3.st_messages st) = true ->
  l3_loop_body st = (st', r) ->
  Transcript.well_formed (L3.st_messages st') = true
  /\ ((forall e, r <> Raise e) -> Transcript.complete (L3.st_messages st') = true).
Proof.
  intros Hc.
  destruct (arxiv_llm (L3.st_messages st) (L3.st_world st)) as [w1 [msg|e]] eqn:Hllm.
  - destruct (requests_tools msg) eqn:Htools.
    + rewrite (L3_loop_body_tools _ _ _ _ _ _ _ _ Hllm Htools).
      destruct (L3.tool_round _ _ _ _ _ _) as [st2 r2] eqn:Hround.
      destruct (L3_tool_round_messages _ _ _ _ _ _ _ _ Hround)
        as (texts & Hmsgs & Hle & Hok & _).
      simpl in Hmsgs. intros Hbody.
      assert (L3.st_messages st' = L3.st_messages st2) as ->
        by (destruct r2; invert Hbody; reflexivity).
      rewrite Hmsgs. split.
      * apply round_well_formed; assumption.
      * intros Hno. apply round_complete; [assumption|].
        destruct r2 as [[]|e]; [auto|]. invert Hbody. exfalso. eapply Hno. reflexivity.
    + rewrite (L3_loop_body_answer _ _ _ _ _ _ _ _ Hllm Htools).
      intros H. invert H. simpl. split; [apply complete_well_formed|]; auto.
  - rewrite (L3_loop_body_llm_failure _ _ _ _ _ _ _ _ Hllm).
    intros H. invert H. simpl. split; [apply complete_well_formed|]; auto.
Qed.

Lemma L3_tool_rounds_complete n : forall st st_n,
  Transcript.complete (L3.st_messages st) = true ->
  l3_tool_rounds n st = Some st_n ->
  Transcript.complete (L3.st_messages st_n) = true.
Proof.
  induction n as [|n IH]; intros st st_n Hc Hn; simpl in Hn.
  - invert Hn. exact Hc.
  - destruct (l3_loop_body st) as [st1 [[a|]|e]] eqn:Hbody; try discriminate.
    apply (IH st1); [|exact Hn].
    apply (L3_loop_body_order _ _ _ Hc Hbody). intros e He. discriminate.
Qed.

Lemma L3_loop_order fuel : forall st st' r,
  Transcript.complete (L3.st_messages st) = true ->
  l3_process_query_loop fuel st = Some (st', r) ->
  Transcript.well_formed (L3.st_messages st') = true
  /\ ((forall e, r <> Raise e) -> Transcript.complete (L3.st_messages st') = true).
Proof.
  induction fuel as [|fuel IH]; intros st st' r Hc Hrun; simpl in Hrun; [discriminate|].
  destruct (l3_loop_body st) as [st1 r1] eqn:Hbody.
  destruct (L3_loop_body_order _ _ _ Hc Hbody) as [Hwf Hcomplete].
  destruct r1 as [[a|]|e].
  - invert Hrun. split; [exact Hwf|]. intros _. apply Hcomplete. intros e He. discriminate.
  - apply (IH st1); [|exact Hrun]. apply Hcomplete. intros e He. discriminate.
  - invert Hrun. split; [exact Hwf|]. intros Hno. exfalso. eapply Hno. reflexivity.
Qed.

(** One iteration of the multi-server chatbot from a complete
    transcript. *)
Lemma L6_loop_body_order response q q' r :
  Transcript.complete (L6.messages q) = true ->
  l6_loop_body response q = (q', r) ->
  Transcript.well_formed (L6.messages q') = true
  /\ ((forall e, r <> Raise e) -> Transcript.complete (L6.messages q') = true).
Proof.
  intros Hc Hbody. destruct (requests_tools response) eqn:Htools.
  - destruct (L6_loop_body_messages _ _ _ _ _ _ _ _ _ _ Htools Hbody)
      as (texts & Hmsgs & Hle & Hok).
    rewrite Hmsgs, (calls_of_requests _ Htools). split.
    + apply round_well_formed; assumption.
    + intros Hno. apply round_complete; auto.
  - unfold L6.loop_body in Hbody. rewrite Htools in Hbody.
    unfold L6.on_bot, L6.print in Hbody. unfold_monad. simpl in Hbody.
    invert Hbody. simpl. split; [apply complete_well_formed|]; auto.
Qed.

Lemma L6_loop_order fuel : forall response q q' r,
  Transcript.complete (L6.messages q) = true ->
  l6_process_query_loop fuel response q = Some (q', r) ->
  Transcript.well_formed (L6.messages q') = true
  /\ ((forall e, r <> Raise e) -> Transcript.complete (L6.messages q') = true).
Proof.
  induction fuel as [|fuel IH]; intros response q q' r Hc Hrun; simpl in Hrun;
    [discriminate|].
  destruct (l6_loop_body response q) as [q1 r1] eqn:Hbody.
  destruct (L6_loop_body_order _ _ _ _ Hc Hbody) as [Hwf Hcomplete].
  destruct r1 as [[response'|]|e].
  - apply (IH response' q1); [|exact Hrun]. apply Hcomplete. intros e He. discriminate.
  - invert Hrun. split; [exact Hwf|]. intros _. apply Hcomplete. intros e He. discriminate.
  - invert Hrun. split; [exact Hwf|]. intros Hno. exfalso. eapply Hno. reflexivity.
Qed.

(** X3.  The transcripts of [process_query] keep the order the
    chat-completions endpoint asks for.  In L3.openai.py every
    transcript a completion is asked with has all its requests answered,
    each tool message answering the next open request of the latest
    assistant message; the transcript a query ends with is in that
    order too, with requests left open only when the query ended with
    an exception.  The same holds for the transcript a query of the
    multi-server chatbot ends with. *)
Theorem X3_transcripts_answer_requests_in_order :
  (forall n query w st_n,
      l3_tool_rounds n (L3.State w [User query]) = Some st_n ->
      Transcript.complete (L3.st_messages st_n) = true)
  /\ (forall fuel query w st r,
      l3_process_query fuel query w = Some (st, r) ->
      Transcript.well_formed (L3.st_messages st) = true
      /\ ((forall e, r <> Raise e) -> Transcript.complete (L3.st_messages st) = true))
  /\ (forall fuel query b q r,
      l6_process_query fuel query b = Some (q, r) ->
      Transcript.well_formed (L6.messages q) = true
      /\ ((forall e, r <> Raise e) -> Transcript.complete (L6.messages q) = true)).
Proof.
  split; [|split].
  - intros n query w st_n Hn.
    apply (L3_tool_rounds_complete n (L3.State w [User query]) st_n); [reflexivity|exact Hn].
  - intros fuel query w st r Hrun.
    apply (L3_loop_order fuel (L3.State w [User query]) st r); [reflexivity|exact Hrun].
  - intros fuel query b q r Hrun. unfold L6.process_query in Hrun.
    destruct (L6.create_completion _ _ _) as [q0 [response|e]] eqn:Hfirst.
    + assert (L6.messages q0 = [User query]) as Hq0.
      { unfold L6.create_completion, L6.on_bot, L6.on_world in Hfirst. simpl in Hfirst.
        destruct (servers_llm _ _ _) as [w1 r1]. invert Hfirst. reflexivity. }
      apply (L6_loop_order fuel response q0); [rewrite Hq0; reflexivity|exact Hrun].
    + invert Hrun.
      assert (L6.messages q = [User query]) as ->.
      { unfold L6.create_completion, L6.on_bot, L6.on_world in Hfirst. simpl in Hfirst.
        destruct (servers_llm _ _ _) as [w1 r1]. invert Hfirst. reflexivity. }
      split; [reflexivity|]. intros _. reflexivity.
Qed.

(** X4.  A turn of the agent of ai-azure-client.py that starts from a
    transcript with every request answered leaves a transcript in
    order, and one with every request answered unless the turn ended
    with an exception.  A turn never repairs a transcript: if requests
    were left open before the turn, the transcript after it is out of
    order, whatever the turn did. *)
Theorem X4_turn_keeps_order_and_never_repairs :
  (forall user_message st st' r,
      Transcript.complete (Azure.conversation_history st) = true ->
      agent_chat user_message st = (st', r) ->
      Transcript.well_formed (Azure.conversation_history st') = true
      /\ ((forall e, r <> Raise e) ->
          Transcript.complete (Azure.conversation_history st') = true))
  /\ (forall user_message st st' r,
      agent_chat user_message st = (st', r) ->
      Transcript.complete (Azure.conversation_history st) = false ->
      Transcript.complete (Azure.conversation_history st') = false).
Proof.
  split.
  - intros user_message st st' r Hc. rewrite Azure_chat_unfold. cbv zeta.
    pose proof (complete_snoc_plain _ (User user_message) Hc
                  (or_introl (ex_intro _ user_message eq_refl))) as Hc1.
    destruct (agent_llm _ _ _) as [w1 [am|e]].
    + destruct (requests_tools am) eqn:Htools.
      * destruct (for_each _ _ _) as [st2 r2] eqn:Hloop.
        destruct (Azure_tool_loop_messages _ _ _ _ _ _ _ _ Hloop)
          as (texts & Hmsgs & Hle & Hok & _).
        simpl in Hmsgs. rewrite <- app_assoc in Hmsgs. simpl in Hmsgs.
        destruct r2 as [[]|e2].
        -- assert (Hc2 : Transcript.complete (Azure.conversation_history st2) = true).
           { rewrite Hmsgs.
             apply (round_complete (Azure.conversation_history st ++ [User user_message]));
               auto. }
           destruct (agent_llm _ _ _) as [w3 [fr|e3]]; intros H; invert H; simpl.
           ++ assert (Hc3 := complete_snoc_plain _ (Assistant (msg_content fr) None) Hc2
                               (or_intror (ex_intro _ (msg_content fr) eq_refl))).
              split; [apply complete_well_formed|]; auto.
           ++ split; [apply complete_well_formed|]; auto.
        -- intros H. invert H. split.
           ++ rewrite Hmsgs.
              apply (round_well_formed
                       (Azure.conversation_history st ++ [User user_message])); auto.
           ++ intros Hno. exfalso. eapply Hno. reflexivity.
      * intros H. invert H. simpl.
        assert (Hc3 := complete_snoc_plain _ (Assistant (msg_content am) None) Hc1
                         (or_intror (ex_intro _ (msg_content am) eq_refl))).
        split; [apply complete_well_formed|]; auto.
    + intros H. invert H. simpl. split; [apply complete_well_formed|]; auto.
  - intros user_message st st' r Hchat Hnot.
    destruct (Azure_chat_extends _ _ _ _ _ _ _ _ _ _ Hchat) as [suffix Hmsgs].
    destruct (Transcript.complete (Azure.conversation_history st')) eqn:Hc';
      [|reflexivity].
    rewrite Hmsgs in Hc'. apply complete_before_user in Hc'. congruence.
Qed.

End TranscriptOrder.

(** X3 on the query of [two_rounds], on the query that asks for an
    unregistered tool, and on the query of [one_down]. *)
Lemma X3_transcripts_witness :
  (exists st,
      ArxivScenario.process_query 3 "q" ArxivScenario.two_rounds
      = Some (st, Ok (Some "Two papers were found."))
      /\ Transcript.complete (L3.st_messages st) = true)
  /\ (exists st,
      ArxivScenario.process_query 3 "q" ArxivScenario.asks_unknown
      = Some (st, Raise (KeyError "summarize"))
      /\ Transcript.well_formed (L3.st_messages st) = true)
  /\ (exists q,
      ServersScenario.process_query 3 "q"
        (ServersScenario.connected ServersScenario.one_down)
      = Some (q, Ok tt)
      /\ Transcript.complete (L6.messages q) = true).
Proof.
  destruct (X3_transcripts_answer_requests_in_order
              Json.loads ArxivScenario.world
              ArxivScenario.search_papers ArxivScenario.extract_info
              ArxivScenario.completions_create
              ServersScenario.world ServersScenario.content
              ServersScenario.str_content ServersScenario.call_tool
              ServersScenario.completions_create) as (_ & H3 & H6).
  split; [|split].
  - eexists. split; [vm_compute; reflexivity|].
    refine (proj2 (H3 3 "q" ArxivScenario.two_rounds _
                      (Ok (Some "Two papers were found.")) _) _).
    + vm_compute. reflexivity.
    + intros e He. discriminate He.
  - eexists. split; [vm_compute; reflexivity|].
    refine (proj1 (H3 3 "q" ArxivScenario.asks_unknown _
                      (Raise (KeyError "summarize")) _)).
    vm_compute. reflexivity.
  - eexists. split; [vm_compute; reflexivity|].
    refine (proj2 (H6 3 "q" (ServersScenario.connected ServersScenario.one_down) _
                      (Ok tt) _) _).
    + vm_compute. reflexivity.
    + intros e He. discriminate He.
Defined.

(** X4 on a turn that answers its request, and on the turn that follows
    a turn which failed on a payload. *)
Lemma X4_turn_order_witness :
  Transcript.complete
    (Azure.conversation_history
       (fst (AgentScenario.chat "q" TurnScenario.before_good_turn)))
  = true
  /\ Transcript.complete
       (Azure.conversation_history
          (fst (AgentScenario.chat "again" TurnScenario.after_failed_turn)))
     = false.
Proof.
  destruct (X4_turn_keeps_order_and_never_repairs
              Json.loads AgentScenario.world AgentScenario.session_call_tool
              AgentScenario.print
              AgentScenario.completions_create AgentScenario.available_tools)
    as [Hkeep Hnever].
  split.
  - refine (proj2 (Hkeep "q" TurnScenario.before_good_turn
                     (fst (AgentScenario.chat "q" TurnScenario.before_good_turn))
                     (Ok (Some "The project has 12 phases.")) _ _) _).
    + reflexivity.
    + vm_compute. reflexivity.
    + intros e He. discriminate He.
  - refine (Hnever "again" TurnScenario.after_failed_turn
              (fst (AgentScenario.chat "again" TurnScenario.after_failed_turn))
              (Ok (Some "done")) _ _).
    + vm_compute. reflexivity.
    + vm_compute. reflexivity.
Defined.

(* ================================================================== *)
(** * The chat loops                                                   *)
(* ================================================================== *)

Lemma while_true_after_iterations {T} (body : T -> option (T * Loop.step)) n :
  forall t t_n fuel,
    Loop.iterations body n t = Some t_n ->
    Loop.while_true body (n + fuel) t = Loop.while_true body fuel t_n.
Proof.
  induction n as [|n IH]; intros t t_n fuel Hn; simpl in *.
  - invert Hn. reflexivity.
  - destruct (body t) as [[t1 []]|]; try discriminate. apply IH. exact Hn.
Qed.

Lemma while_true_needs_fuel {T} (body : T -> option (T * Loop.step)) n :
  forall t t_n fuel,
    Loop.iterations body n t = Some t_n -> fuel <= n ->
    Loop.while_true body fuel t = None.
Proof.
  induction n as [|n IH]; intros t t_n fuel Hn Hle; simpl in *.
  - assert (fuel = 0) as -> by lia. reflexivity.
  - destruct fuel as [|fuel]; [reflexivity|]. simpl.
    destruct (body t) as [[t1 []]|]; try discriminate. eapply IH; eauto. lia.
Qed.

Section ReadLoop.

(** A loop that reads one line per iteration, stops at the line [quit]
    and goes on after every other line and when no line is left. *)
Context {T : Type} (stdin_of : T -> list string) (body : T -> option (T * Loop.step)).

Hypothesis body_break : forall t t1,
  body t = Some (t1, Loop.Break) ->
  exists line, stdin_of t = line :: stdin_of t1 /\ Loop.is_quit line.
Hypothesis body_continue : forall t t1,
  body t = Some (t1, Loop.Continue) ->
  (stdin_of t = [] /\ stdin_of t1 = [])
  \/ (exists line, stdin_of t = line :: stdin_of t1 /\ ~ Loop.is_quit line).

Lemma while_true_ends_at_quit fuel : forall t t',
  Loop.while_true body fuel t = Some t' ->
  exists lines line,
    stdin_of t = lines ++ line :: stdin_of t'
    /\ Forall (fun l => ~ Loop.is_quit l) lines
    /\ Loop.is_quit line.
Proof.
  induction fuel as [|fuel IH]; intros t t' Hrun; simpl in Hrun; [discriminate|].
  destruct (body t) as [[t1 []]|] eqn:Hbody; try discriminate.
  - invert Hrun. destruct (body_break _ _ Hbody) as (line & Hin & Hquit).
    exists [], line. simpl. auto.
  - destruct (IH _ _ Hrun) as (lines & line & Hin & Hnot & Hquit).
    destruct (body_continue _ _ Hbody) as [[_ Hempty]|(l & Hl & Hnq)].
    + rewrite Hempty in Hin. destruct lines; discriminate Hin.
    + exists (l :: lines), line. rewrite Hl, Hin. simpl. auto.
Qed.

Lemma while_true_never_ends_at_eof fuel t :
  stdin_of t = [] -> Loop.while_true body fuel t = None.
Proof.
  intros Hempty. destruct (Loop.while_true body fuel t) as [t'|] eqn:Hrun; [|reflexivity].
  destruct (while_true_ends_at_quit _ _ _ Hrun) as (lines & line & Hin & _).
  rewrite Hempty in Hin. destruct lines; discriminate Hin.
Qed.

End ReadLoop.

Section ChatLoops.

Variable json_loads : string -> result pyval.

Variable arxiv_world : Type.
Variables search_papers extract_info : L3.handler arxiv_world.
Variable arxiv_llm : list message -> M arxiv_world llm_message.

Variable servers_world : Type.
Variable content : Type.
Variable str_content : content -> string.
Variable call_tool : L6.session -> string -> pyval -> M servers_world content.
Variable servers_llm :
  list message -> list tool_descriptor -> M servers_world llm_message.

Local Abbreviation l3_iteration :=
  (L3Chat.iteration arxiv_world search_papers extract_info json_loads arxiv_llm).
Local Abbreviation l3_chat_loop :=
  (L3Chat.chat_loop arxiv_world search_papers extract_info json_loads arxiv_llm).
Local Abbreviation l6_iteration :=
  (L6Chat.iteration servers_world json_loads content str_content call_tool servers_llm).
Local Abbreviation l6_chat_loop :=
  (L6Chat.chat_loop servers_world json_loads content str_content call_tool servers_llm).

Lemma L3Chat_iteration_break query_fuel t t1 :
  l3_iteration query_fuel t = Some (t1, Loop.Break) ->
  exists line, L3Chat.stdin t = line :: L3Chat.stdin t1 /\ Loop.is_quit line.
Proof.
  unfold L3Chat.iteration, L3Chat.input, L3Chat.run_query, L3Chat.print_error,
    L3Chat.print.
  destruct (L3Chat.stdin t) as [|line rest] eqn:Hin; [discriminate|].
  destruct (String.eqb_spec (Text.lower (Text.strip line)) "quit") as [Hq|Hq].
  - intros H. invert H. exists line. simpl. auto.
  - simpl. destruct (L3.process_query _ _ _ _ _ _ _ _) as [[st [a|e]]|]; discriminate.
Qed.

Lemma L3Chat_iteration_continue query_fuel t t1 :
  l3_iteration query_fuel t = Some (t1, Loop.Continue) ->
  (L3Chat.stdin t = [] /\ L3Chat.stdin t1 = [])
  \/ (exists line, L3Chat.stdin t = line :: L3Chat.stdin t1 /\ ~ Loop.is_quit line).
Proof.
  unfold L3Chat.iteration, L3Chat.input, L3Chat.run_query, L3Chat.print_error,
    L3Chat.print.
  destruct (L3Chat.stdin t) as [|line rest] eqn:Hin.
  - intros H. invert H. left. auto.
  - destruct (String.eqb_spec (Text.lower (Text.strip line)) "quit") as [Hq|Hq];
      [discriminate|].
    simpl. destruct (L3.process_query _ _ _ _ _ _ _ _) as [[st [a|e]]|];
      intros H; invert H; right; exists line; simpl; auto.
Qed.

Lemma L6Chat_iteration_break query_fuel t t1 :
  l6_iteration query_fuel t = Some (t1, Loop.Break) ->
  exists line, L6Chat.stdin t = line :: L6Chat.stdin t1 /\ Loop.is_quit line.
Proof.
  unfold L6Chat.iteration, L6Chat.input, L6Chat.run_query, L6Chat.print_error,
    L6Chat.print.
  destruct (L6Chat.stdin t) as [|line rest] eqn:Hin; [discriminate|].
  destruct (String.eqb_spec (Text.lower (Text.strip line)) "quit") as [Hq|Hq].
  - intros H. invert H. exists line. simpl. auto.
  - simpl. destruct (L6.process_query _ _ _ _ _ _ _ _ _) as [[q [a|e]]|]; discriminate.
Qed.

Lemma L6Chat_iteration_continue query_fuel t t1 :
  l6_iteration query_fuel t = Some (t1, Loop.Continue) ->
  (L6Chat.stdin t = [] /\ L6Chat.stdin t1 = [])
  \/ (exists line, L6Chat.stdin t = line :: L6Chat.stdin t1 /\ ~ Loop.is_quit line).
Proof.
  unfold L6Chat.iteration, L6Chat.input, L6Chat.run_query, L6Chat.print_error,
    L6Chat.print.
  destruct (L6Chat.stdin t) as [|line rest] eqn:Hin.
  - intros H. invert H. left. auto.
  - destruct (String.eqb_spec (Text.lower (Text.strip line)) "quit") as [Hq|Hq];
      [discriminate|].
    simpl. destruct (L6.process_query _ _ _ _ _ _ _ _ _) as [[q [a|e]]|];
      intros H; invert H; right; exists line; simpl; auto.
Qed.

(** X5.  The only way out of [chat_loop] is the line [quit]: whenever
    the loop returns, the lines it read are lines that are not [quit]
    (up to case and to the white space around them) followed by one
    that is, and what follows that line is left unread.  No exception
    of a query ends the loop, and neither does the end of the input:
    with no line left the loop never returns.  This holds in
    L3.openai.py and in the multi-server chatbot. *)
Theorem X5_chat_loop_ends_only_at_quit :
  (forall query_fuel fuel t t',
      l3_chat_loop query_fuel fuel t = Some t' ->
      exists lines line,
        L3Chat.stdin t = lines ++ line :: L3Chat.stdin t'
        /\ Forall (fun l => Text.lower (Text.strip l) <> "quit") lines
        /\ Text.lower (Text.strip line) = "quit")
  /\ (forall query_fuel fuel t,
      L3Chat.stdin t = [] -> l3_chat_loop query_fuel fuel t = None)
  /\ (forall query_fuel fuel t t',
      l6_chat_loop query_fuel fuel t = Some t' ->
      exists lines line,
        L6Chat.stdin t = lines ++ line :: L6Chat.stdin t'
        /\ Forall (fun l => Text.lower (Text.strip l) <> "quit") lines
        /\ Text.lower (Text.strip line) = "quit")
  /\ (forall query_fuel fuel t,
      L6Chat.stdin t = [] -> l6_chat_loop query_fuel fuel t = None).
Proof.
  split; [|split; [|split]].
  - intros query_fuel fuel t t' Hrun. unfold L3Chat.chat_loop in Hrun.
    apply (while_true_ends_at_quit L3Chat.stdin (l3_iteration query_fuel)
             (L3Chat_iteration_break query_fuel)
             (L3Chat_iteration_continue query_fuel)) in Hrun.
    exact Hrun.
  - intros query_fuel fuel t Hempty. unfold L3Chat.chat_loop.
    apply (while_true_never_ends_at_eof L3Chat.stdin (l3_iteration query_fuel)
             (L3Chat_iteration_break query_fuel)
             (L3Chat_iteration_continue query_fuel)).
    exact Hempty.
  - intros query_fuel fuel t t' Hrun. unfold L6Chat.chat_loop in Hrun.
    apply (while_true_ends_at_quit L6Chat.stdin (l6_iteration query_fuel)
             (L6Chat_iteration_break query_fuel)
             (L6Chat_iteration_continue query_fuel)) in Hrun.
    exact Hrun.
  - intros query_fuel fuel t Hempty. unfold L6Chat.chat_loop.
    apply (while_true_never_ends_at_eof L6Chat.stdin (l6_iteration query_fuel)
             (L6Chat_iteration_break query_fuel)
             (L6Chat_iteration_continue query_fuel)).
    exact Hempty.
Qed.

(** X6.  When, after [n] iterations, the next line is [quit] (up to case
    and to the white space around it), [chat_loop] of L3.openai.py
    returns at iteration [n + 1] and not before; that last iteration
    writes the prompt and nothing else, reads the line, leaves the lines
    after it unread and does not touch the world. *)
Theorem X6_chat_loop_returns_at_quit :
  forall query_fuel n t t_n line rest,
    Loop.iterations (l3_iteration query_fuel) n
      (L3Chat.print arxiv_world "Type your queries or 'quit' to exit." t)
    = Some t_n ->
    L3Chat.stdin t_n = line :: rest ->
    Text.lower (Text.strip line) = "quit" ->
    (forall fuel, n < fuel ->
       l3_chat_loop query_fuel fuel t
       = Some (L3Chat.Terminal (L3Chat.st_world t_n) rest
                 (L3Chat.stdout t_n ++ [String newline "Query: "])))
    /\ (forall fuel, fuel <= n -> l3_chat_loop query_fuel fuel t = None).
Proof.
  intros query_fuel n t t_n line rest Hn Hin Hquit. split.
  - intros fuel Hlt. unfold L3Chat.chat_loop.
    replace fuel with (n + S (fuel - S n)) by lia.
    rewrite (while_true_after_iterations _ _ _ _ _ Hn). simpl.
    unfold L3Chat.iteration, L3Chat.input. rewrite Hin.
    cbv zeta. rewrite Hquit. reflexivity.
  - intros fuel Hle. unfold L3Chat.chat_loop.
    eapply while_true_needs_fuel; eauto.
Qed.

End ChatLoops.

(** X5 on a chat of two queries, the first of which fails, and on the
    same chats at the end of the input. *)
Lemma X5_chat_loop_witness :
  (exists lines line,
      ChatScenario.lines = lines ++ line :: ["never read"]
      /\ Forall (fun l => Text.lower (Text.strip l) <> "quit") lines
      /\ Text.lower (Text.strip line) = "quit")
  /\ ChatScenario.arxiv_chat_loop 5 10 ChatScenario.arxiv_at_eof = None
  /\ (exists lines line,
      ChatScenario.lines = lines ++ line :: ["never read"]
      /\ Forall (fun l => Text.lower (Text.strip l) <> "quit") lines
      /\ Text.lower (Text.strip line) = "quit")
  /\ ChatScenario.servers_chat_loop 5 10 ChatScenario.servers_at_eof = None.
Proof.
  destruct (X5_chat_loop_ends_only_at_quit
              Json.loads ArxivScenario.world
              ArxivScenario.search_papers ArxivScenario.extract_info
              ArxivScenario.completions_create
              ServersScenario.world ServersScenario.content
              ServersScenario.str_content ServersScenario.call_tool
              ServersScenario.completions_create)
    as (H3 & H3eof & H6 & H6eof).
  split; [|split; [|split]].
  - let r := eval vm_compute in (ChatScenario.arxiv_chat_loop 5 10 ChatScenario.arxiv_start) in
    match r with Some ?t => pose (t' := t) end.
    assert (Hrun : L3Chat.chat_loop ArxivScenario.world ArxivScenario.search_papers
                     ArxivScenario.extract_info Json.loads
                     ArxivScenario.completions_create 5 10 ChatScenario.arxiv_start
                   = Some t') by (vm_compute; reflexivity).
    exact (H3 5 10 ChatScenario.arxiv_start t' Hrun).
  - apply (H3eof 5 10 ChatScenario.arxiv_at_eof). reflexivity.
  - let r := eval vm_compute in
             (ChatScenario.servers_chat_loop 5 10 ChatScenario.servers_start) in
    match r with Some ?t => pose (t' := t) end.
    assert (Hrun : L6Chat.chat_loop ServersScenario.world Json.loads
                     ServersScenario.content ServersScenario.str_content
                     ServersScenario.call_tool ServersScenario.completions_create
                     5 10 ChatScenario.servers_start
                   = Some t') by (vm_compute; reflexivity).
    exact (H6 5 10 ChatScenario.servers_start t' Hrun).
  - apply (H6eof 5 10 ChatScenario.servers_at_eof). reflexivity.
Defined.

(** X6 on the chat of two queries followed by [QUIT]. *)
Lemma X6_chat_loop_witness :
  ChatScenario.arxiv_chat_loop 5 2 ChatScenario.arxiv_start = None
  /\ exists t,
      ChatScenario.arxiv_chat_loop 5 3 ChatScenario.arxiv_start = Some t
      /\ L3Chat.stdin t = ["never read"]
      /\ L3Chat.st_world t = ArxivScenario.World [] [].
Proof.
  let r := eval vm_compute in
           (Loop.iterations (ChatScenario.arxiv_iteration 5) 2
              (L3Chat.print ArxivScenario.world "Type your queries or 'quit' to exit."
                 ChatScenario.arxiv_start)) in
  match r with Some ?t => pose (t_n := t) end.
  destruct (X6_chat_loop_returns_at_quit
              Json.loads ArxivScenario.world
              ArxivScenario.search_papers ArxivScenario.extract_info
              ArxivScenario.completions_create
              5 2 ChatScenario.arxiv_start t_n " QUIT " ["never read"])
    as [Hreturns Hnot_before].
  - vm_compute. reflexivity.
  - reflexivity.
  - reflexivity.
  - split.
    + apply (Hnot_before 2). lia.
    + eexists. split; [apply (Hreturns 3); lia|]. split; reflexivity.
Defined.

(* ================================================================== *)
(** * The registry of the multi-server chatbot                         *)
(* ================================================================== *)

Lemma dict_get_missing key d :
  Forall (fun kv : string * pyval => fst kv <> key) d ->
  L6.dict_get key d = PDict [].
Proof.
  induction 1 as [|[k v] d Hk _ IH]; simpl; [reflexivity|].
  simpl in Hk. destruct (String.eqb_spec k key); [contradiction|exact IH].
Qed.

Section Registry.

Variable world : Type.
Variable json_loads : string -> result pyval.
Variable open_session : string -> pyval -> M world unit.
Variable list_tools : L6.session -> M world (list tool_descriptor).
Variable content : Type.
Variable str_content : content -> string.
Variable call_tool : L6.session -> string -> pyval -> M world content.
Variable load_config : M world pyval.
Variable completions_create :
  list message -> list tool_descriptor -> M world llm_message.
Variable aclose : M world unit.

Local Abbreviation connect_to_server :=
  (L6.connect_to_server world open_session list_tools).
Local Abbreviation connect_to_servers :=
  (L6.connect_to_servers world open_session list_tools load_config).
Local Abbreviation connect_each :=
  (for_each (fun server : string * pyval => connect_to_server (fst server) (snd server))).
Local Abbreviation run_tool_call :=
  (L6.run_tool_call world json_loads content str_content call_tool).
Local Abbreviation create_completion := (L6.create_completion world completions_create).
Local Abbreviation loop_body :=
  (L6.loop_body world json_loads content str_content call_tool completions_create).
Local Abbreviation process_query_loop :=
  (L6.process_query_loop world json_loads content str_content call_tool
     completions_create).
Local Abbreviation process_query :=
  (L6.process_query world json_loads content str_content call_tool completions_create).
Local Abbreviation chat_loop :=
  (L6Chat.chat_loop world json_loads content str_content call_tool completions_create).
Local Abbreviation main :=
  (L6Chat.main world json_loads open_session list_tools content str_content call_tool
     load_config completions_create aclose).

(** A server whose session opens but whose tools cannot be listed. *)
Lemma L6_connect_list_failure server_name server_config st w1 w2 e :
  open_session server_name server_config (L6.st_world st) = (w1, Ok tt) ->
  list_tools server_name w1 = (w2, Raise e) ->
  connect_to_server server_name server_config st
  = (L6.State w2 (L6.sessions st ++ [server_name]) (L6.available_tools st)
       (L6.tool_to_session st)
       (L6.stdout st
          ++ ["Failed to connect to " +:+ server_name +:+ ": " +:+ exn_str e]),
     Ok tt).
Proof.
  intros Hopen Hlist.
  unfold L6.connect_to_server, L6.on_world, L6.print, L6.add_session. unfold_monad.
  rewrite Hopen. simpl. rewrite Hlist. reflexivity.
Qed.

Lemma routable_same_fields (st st' : L6.state world) :
  L6.sessions st' = L6.sessions st ->
  L6.available_tools st' = L6.available_tools st ->
  L6.tool_to_session st' = L6.tool_to_session st ->
  L6Registry.routable st -> L6Registry.routable st'.
Proof.
  unfold L6Registry.routable. intros -> -> ->. auto.
Qed.

Lemma routable_more_sessions (st st' : L6.state world) s :
  L6.sessions st' = L6.sessions st ++ [s] ->
  L6.available_tools st' = L6.available_tools st ->
  L6.tool_to_session st' = L6.tool_to_session st ->
  L6Registry.routable st -> L6Registry.routable st'.
Proof.
  unfold L6Registry.routable. intros -> -> -> [Hnames Howners]. split; [exact Hnames|].
  intros name s0 H. apply in_or_app. left. eauto.
Qed.

Lemma routable_after_listing (st st' : L6.state world) s tools :
  L6.sessions st' = L6.sessions st ++ [s] ->
  L6.available_tools st' = L6.available_tools st ++ tools ->
  L6.tool_to_session st'
  = foldl (fun m t => <[tool_name t := s]> m) (L6.tool_to_session st) tools ->
  L6Registry.routable st -> L6Registry.routable st'.
Proof.
  unfold L6Registry.routable. intros -> -> -> [Hnames Howners]. split.
  - intros name. rewrite registry_fold_lookup, map_app, in_app_iff.
    destruct (decide (name ∈ map tool_name tools)) as [Hin|Hnot].
    + split; [intros _; right; apply list_elem_of_In; exact Hin|eauto].
    + rewrite Hnames. split; [auto|]. intros [H|H]; [exact H|].
      exfalso. apply Hnot. apply list_elem_of_In. exact H.
  - intros name s0. rewrite registry_fold_lookup.
    destruct (decide (name ∈ map tool_name tools)) as [Hin|Hnot].
    + intros H. invert H. apply in_or_app. right. left. reflexivity.
    + intros H. apply in_or_app. left. eauto.
Qed.

Lemma L6_connect_routable server_name server_config st st' r :
  L6Registry.routable st ->
  connect_to_server server_name server_config st = (st', r) ->
  L6Registry.routable st'.
Proof.
  intros Hst.
  destruct (open_session server_name server_config (L6.st_world st))
    as [w1 [[]|e]] eqn:Hopen.
  - destruct (list_tools server_name w1) as [w2 [tools|e]] eqn:Hlist.
    + rewrite (L6_connect_success _ _ _ _ _ _ _ _ _ Hopen Hlist). intros H. invert H.
      eapply routable_after_listing; [| | |exact Hst]; reflexivity.
    + rewrite (L6_connect_list_failure _ _ _ _ _ _ Hopen Hlist). intros H. invert H.
      eapply routable_more_sessions; [| | |exact Hst]; reflexivity.
  - rewrite (L6_connect_failure _ _ _ _ _ _ _ _ Hopen). intros H. invert H.
    eapply routable_same_fields; [| | |exact Hst]; reflexivity.
Qed.

Lemma L6_connect_each_routable servers : forall st st' r,
  L6Registry.routable st ->
  connect_each servers st = (st', r) ->
  L6Registry.routable st'.
Proof.
  induction servers as [|[n c] servers IH]; intros st st' r Hst Hrun; simpl in Hrun.
  - unfold ret in Hrun. invert Hrun. exact Hst.
  - unfold bind in Hrun. simpl in Hrun.
    destruct (connect_to_server n c st) as [st1 r1] eqn:Hone.
    pose proof (L6_connect_routable _ _ _ _ _ Hst Hone) as Hst1.
    destruct r1 as [[]|e].
    + eapply IH; eauto.
    + invert Hrun. exact Hst1.
Qed.

Lemma L6_connect_to_servers_routable st st' r :
  L6Registry.routable st ->
  connect_to_servers st = (st', r) ->
  L6Registry.routable st'.
Proof.
  intros Hst. unfold L6.connect_to_servers, L6.on_world, L6.print. unfold_monad.
  destruct (load_config (L6.st_world st)) as [w1 [data|e]].
  - destruct (L6.servers_of data) as [servers|e].
    + destruct (connect_each servers _) as [st1 r1] eqn:Hrun.
      assert (Hst1 : L6Registry.routable st1).
      { eapply L6_connect_each_routable; [|exact Hrun].
        eapply routable_same_fields; [| | |exact Hst]; reflexivity. }
      destruct r1 as [[]|e]; intros H; invert H; [exact Hst1|].
      eapply routable_same_fields; [| | |exact Hst1]; reflexivity.
    + intros H. invert H. eapply routable_same_fields; [| | |exact Hst]; reflexivity.
  - intros H. invert H. eapply routable_same_fields; [| | |exact Hst]; reflexivity.
Qed.



(** X7.  [connect_to_servers] keeps the routing table, the tool list
    and the sessions in agreement, whatever the servers do: afterwards
    the names that have an owner are exactly the names of the tools
    offered to the LLM, and every owner is one of the sessions.  So,
    for a chatbot connected from scratch, every tool in
    [available_tools] has a session in [tool_to_session], and that
    session is in [sessions]. *)
Theorem X7_offered_tools_are_routable :
  (forall st st' r,
      L6Registry.routable st ->
      connect_to_servers st = (st', r) ->
      L6Registry.routable st')
  /\ (forall w st' r,
      connect_to_servers (L6.State w [] [] ∅ []) = (st', r) ->
      forall tool, In tool (L6.available_tools st') ->
        exists s, L6.tool_to_session st' !! tool_name tool = Some s
                  /\ In s (L6.sessions st')).
Proof.
  split.
  - intros st st' r. apply L6_connect_to_servers_routable.
  - intros w st' r Hrun tool Hin.
    assert (Hfresh : L6Registry.routable (L6.State w [] [] ∅ [])).
    { split; simpl.
      - intros name. rewrite lookup_empty. split; [intros [x Hx]; discriminate|tauto].
      - intros name s. rewrite lookup_empty. discriminate. }
    destruct (L6_connect_to_servers_routable _ _ _ Hfresh Hrun) as [Hnames Howners].
    destruct (proj2 (Hnames (tool_name tool)) (in_map tool_name _ _ Hin)) as [s Hs].
    exists s. split; [exact Hs|]. eapply Howners. exact Hs.
Qed.

(** Computations that leave the registry alone. *)
Local Abbreviation keeps_registry c :=
  (forall q q' r, c q = (q', r) -> L6Registry.same_registry (L6.bot q) (L6.bot q')).

Lemma same_registry_refl (b : L6.state world) : L6Registry.same_registry b b.
Proof.
  unfold L6Registry.same_registry. repeat split. exists []. rewrite app_nil_r. reflexivity.
Qed.

Lemma same_registry_trans (b1 b2 b3 : L6.state world) :
  L6Registry.same_registry b1 b2 -> L6Registry.same_registry b2 b3 ->
  L6Registry.same_registry b1 b3.
Proof.
  unfold L6Registry.same_registry.
  intros (Hs & Ha & Ht & p1 & Hp1) (Hs' & Ha' & Ht' & p2 & Hp2).
  repeat split; try congruence.
  exists (p1 ++ p2). rewrite Hp2, Hp1, app_assoc. reflexivity.
Qed.

Lemma keeps_registry_bind {A B} (c : M (L6.query_state world) A)
    (k : A -> M (L6.query_state world) B) :
  keeps_registry c -> (forall a, keeps_registry (k a)) -> keeps_registry (bind c k).
Proof.
  intros Hc Hk q q' r. unfold bind. destruct (c q) as [q1 [a|e]] eqn:Hcq.
  - intros H. eapply same_registry_trans; [eapply Hc; eauto|eapply Hk; eauto].
  - intros H. invert H. eapply Hc; eauto.
Qed.

Lemma keeps_registry_print line :
  keeps_registry (L6.on_bot world (L6.print world line)).
Proof.
  intros q q' r H. unfold L6.on_bot, L6.print, modify in H. invert H. simpl.
  unfold L6Registry.same_registry. simpl. repeat split. eauto.
Qed.

Lemma keeps_registry_world {A} (c : M world A) :
  keeps_registry (L6.on_bot world (L6.on_world world c)).
Proof.
  intros q q' r H. unfold L6.on_bot, L6.on_world in H.
  destruct (c (L6.st_world (L6.bot q))) as [w1 r1]. invert H. simpl.
  unfold L6Registry.same_registry. simpl. repeat split.
  exists []. rewrite app_nil_r. reflexivity.
Qed.

Lemma keeps_registry_pure {A} (c : M (L6.query_state world) A) :
  (forall q q' r, c q = (q', r) -> L6.bot q' = L6.bot q) -> keeps_registry c.
Proof.
  intros H q q' r Hc. rewrite (H _ _ _ Hc). apply same_registry_refl.
Qed.

Lemma keeps_registry_run_tool_call tc : keeps_registry (run_tool_call tc).
Proof.
  unfold L6.run_tool_call.
  apply keeps_registry_bind; [apply keeps_registry_print|intros _].
  apply keeps_registry_bind.
  { apply keeps_registry_pure. intros q q' r H. unfold of_result in H. invert H.
    reflexivity. }
  intros args. apply keeps_registry_bind.
  { apply keeps_registry_pure. intros q q' r H. unfold L6.session_of in H.
    destruct (L6.tool_to_session _ !! _); invert H; reflexivity. }
  intros s. apply keeps_registry_bind; [apply keeps_registry_world|intros c].
  apply keeps_registry_pure. intros q q' r H. unfold L6.append, modify in H.
  invert H. reflexivity.
Qed.

Lemma keeps_registry_for_each calls :
  keeps_registry (for_each run_tool_call calls).
Proof.
  induction calls as [|tc calls IH]; simpl.
  - apply keeps_registry_pure. intros q q' r H. unfold ret in H. invert H. reflexivity.
  - apply keeps_registry_bind; [apply keeps_registry_run_tool_call|intros _; exact IH].
Qed.

Lemma keeps_registry_completion : keeps_registry create_completion.
Proof.
  intros q q' r H. unfold L6.create_completion in H.
  eapply (keeps_registry_world (completions_create (L6.messages q)
                                  (L6.available_tools (L6.bot q)))).
  exact H.
Qed.

Lemma keeps_registry_loop_body response : keeps_registry (loop_body response).
Proof.
  unfold L6.loop_body.
  apply keeps_registry_bind; [apply keeps_registry_print|intros _].
  destruct (requests_tools response).
  - apply keeps_registry_bind.
    { apply keeps_registry_pure. intros q q' r H. unfold L6.append, modify in H.
      invert H. reflexivity. }
    intros _. apply keeps_registry_bind; [apply keeps_registry_for_each|intros _].
    apply keeps_registry_bind; [apply keeps_registry_completion|intros response'].
    apply keeps_registry_pure. intros q q' r H. unfold ret in H. invert H. reflexivity.
  - apply keeps_registry_pure. intros q q' r H. unfold ret in H. invert H. reflexivity.
Qed.

Lemma L6_loop_keeps_registry fuel : forall response q q' r,
  process_query_loop fuel response q = Some (q', r) ->
  L6Registry.same_registry (L6.bot q) (L6.bot q').
Proof.
  induction fuel as [|fuel IH]; intros response q q' r Hrun; simpl in Hrun;
    [discriminate|].
  destruct (loop_body response q) as [q1 r1] eqn:Hbody.
  pose proof (keeps_registry_loop_body _ _ _ _ Hbody) as H1.
  destruct r1 as [[response'|]|e].
  - eapply same_registry_trans; [exact H1|]. eapply IH. exact Hrun.
  - invert Hrun. exact H1.
  - invert Hrun. exact H1.
Qed.

(** X8.  A query never changes what the chatbot is connected to:
    whatever [process_query] does and however it ends, [sessions],
    [available_tools] and [tool_to_session] are afterwards what they
    were, and what was printed before is still there, followed by what
    the query printed.  In particular the agreement of the routing table
    with the tool list survives every query. *)
Theorem X8_queries_leave_the_registry_alone :
  forall fuel query b q r,
    process_query fuel query b = Some (q, r) ->
    L6Registry.same_registry b (L6.bot q)
    /\ (L6Registry.routable b -> L6Registry.routable (L6.bot q)).
Proof.
  intros fuel query b q r Hrun.
  assert (Hsame : L6Registry.same_registry b (L6.bot q)).
  { unfold L6.process_query in Hrun.
    destruct (create_completion (L6.QueryState b [User query])) as [q0 r0] eqn:Hfirst.
    pose proof (keeps_registry_completion _ _ _ Hfirst) as H0. simpl in H0.
    destruct r0 as [response|e].
    - eapply same_registry_trans; [exact H0|].
      eapply L6_loop_keeps_registry. exact Hrun.
    - invert Hrun. exact H0. }
  split; [exact Hsame|].
  destruct Hsame as (Hs & Ha & Ht & _). intros Hroutable.
  eapply routable_same_fields; eauto.
Qed.

(** X9.  The configuration of [connect_to_servers] at its edges.  A
    configuration that cannot be read is reported and its exception is
    raised again, with the chatbot otherwise as it was.  A configuration
    that is not an object, or whose [mcpServers] is not one, ends the
    same way with [AttributeError].  A configuration without the key
    [mcpServers] is not an error: no server is connected, nothing is
    printed and the call returns normally. *)
Theorem X9_configuration_edges :
  forall st,
    (forall w1 e,
        load_config (L6.st_world st) = (w1, Raise e) ->
        connect_to_servers st
        = (L6.State w1 (L6.sessions st) (L6.available_tools st) (L6.tool_to_session st)
             (L6.stdout st ++ ["Error loading server configuration: " +:+ exn_str e]),
           Raise e))
    /\ (forall w1 data e,
        load_config (L6.st_world st) = (w1, Ok data) ->
        L6.servers_of data = Raise e ->
        exn_class e = "AttributeError"
        /\ connect_to_servers st
           = (L6.State w1 (L6.sessions st) (L6.available_tools st)
                (L6.tool_to_session st)
                (L6.stdout st ++ ["Error loading server configuration: " +:+ exn_str e]),
              Raise e))
    /\ (forall w1 d,
        load_config (L6.st_world st) = (w1, Ok (PDict d)) ->
        Forall (fun kv : string * pyval => fst kv <> "mcpServers") d ->
        connect_to_servers st
        = (L6.State w1 (L6.sessions st) (L6.available_tools st) (L6.tool_to_session st)
             (L6.stdout st),
           Ok tt)).
Proof.
  intros st. split; [|split].
  - intros w1 e Hload.
    unfold L6.connect_to_servers, L6.on_world, L6.print. unfold_monad.
    rewrite Hload. reflexivity.
  - intros w1 data e Hload Hservers. split.
    + unfold L6.servers_of in Hservers.
      destruct data as [| | | | |d]; try (invert Hservers; reflexivity).
      destruct (L6.dict_get "mcpServers" d); invert Hservers; reflexivity.
    + unfold L6.connect_to_servers, L6.on_world, L6.print. unfold_monad.
      rewrite Hload, Hservers. reflexivity.
  - intros w1 d Hload Hmissing.
    unfold L6.connect_to_servers, L6.on_world, L6.print. unfold_monad.
    rewrite Hload. unfold L6.servers_of.
    rewrite (dict_get_missing _ _ Hmissing). reflexivity.
Qed.

(** X10.  [main] of the multi-server chatbot closes the exit stack on
    every path that ends.  Whenever [main] ends, [aclose] has run once,
    on the world that the connections and the chat loop left: after
    [connect_to_servers] raised, with no prompt written and no line
    read, or after [chat_loop] returned.  [main] then ends with the
    exception of the close when the close raises, and otherwise as its
    body did.  The connections raise when the configuration cannot be
    read and when it has not the shape of an object of servers: [main]
    prints the error, closes, and raises that exception (or the one of
    the close).  [main] returns normally only after the user typed
    [quit]: the lines read are lines other than [quit] followed by one
    that is, and the rest is left unread. *)
Theorem X10_main_closes_and_ends_at_quit :
  (forall query_fuel fuel w lines t r,
      main query_fuel fuel w lines = Some (t, r) ->
      exists t0 body w2 closed,
        ((exists b e,
             connect_to_servers (L6.State w [] [] ∅ []) = (b, Raise e)
             /\ t0 = L6Chat.Terminal b lines /\ body = Raise e)
         \/ (exists b,
               connect_to_servers (L6.State w [] [] ∅ []) = (b, Ok tt)
               /\ chat_loop query_fuel fuel (L6Chat.Terminal b lines) = Some t0
               /\ body = Ok tt))
        /\ aclose (L6.st_world (L6Chat.bot t0)) = (w2, closed)
        /\ t = L6Chat.Terminal
                 (L6.State w2 (L6.sessions (L6Chat.bot t0))
                    (L6.available_tools (L6Chat.bot t0))
                    (L6.tool_to_session (L6Chat.bot t0)) (L6.stdout (L6Chat.bot t0)))
                 (L6Chat.stdin t0)
        /\ r = match closed with Ok _ => body | Raise e' => Raise e' end)
  /\ (forall query_fuel fuel w lines w1 e w2 closed,
      load_config w = (w1, Raise e) ->
      aclose w1 = (w2, closed) ->
      main query_fuel fuel w lines
      = Some (L6Chat.Terminal
                (L6.State w2 [] [] ∅
                   ["Error loading server configuration: " +:+ exn_str e])
                lines,
              match closed with Ok _ => Raise e | Raise e' => Raise e' end))
  /\ (forall query_fuel fuel w lines w1 data e w2 closed,
      load_config w = (w1, Ok data) ->
      L6.servers_of data = Raise e ->
      aclose w1 = (w2, closed) ->
      main query_fuel fuel w lines
      = Some (L6Chat.Terminal
                (L6.State w2 [] [] ∅
                   ["Error loading server configuration: " +:+ exn_str e])
                lines,
              match closed with Ok _ => Raise e | Raise e' => Raise e' end))
  /\ (forall query_fuel fuel w lines t,
      main query_fuel fuel w lines = Some (t, Ok tt) ->
      exists read line,
        lines = read ++ line :: L6Chat.stdin t
        /\ Forall (fun l => Text.lower (Text.strip l) <> "quit") read
        /\ Text.lower (Text.strip line) = "quit").
Proof.
  split; [|split; [|split]].
  - intros query_fuel fuel w lines t r Hmain. unfold L6Chat.main in Hmain.
    simpl in Hmain.
    destruct (connect_to_servers _) as [b [[]|e]] eqn:Hconnect.
    + destruct (chat_loop query_fuel fuel (L6Chat.Terminal b lines)) as [t0|] eqn:Hloop;
        [|discriminate].
      unfold L6Chat.finally_cleanup, L6Chat.cleanup, L6.on_world in Hmain.
      simpl in Hmain.
      destruct (aclose (L6.st_world (L6Chat.bot t0))) as [w2 closed] eqn:Hclose.
      exists t0, (Ok tt), w2, closed.
      split; [right; exists b; auto|]. split; [exact Hclose|].
      destruct closed as [[]|e']; invert Hmain; split; reflexivity.
    + unfold L6Chat.finally_cleanup, L6Chat.cleanup, L6.on_world in Hmain.
      simpl in Hmain.
      destruct (aclose (L6.st_world b)) as [w2 closed] eqn:Hclose.
      exists (L6Chat.Terminal b lines), (Raise e), w2, closed.
      split; [left; exists b, e; auto|]. split; [exact Hclose|].
      destruct closed as [[]|e']; invert Hmain; split; reflexivity.
  - intros query_fuel fuel w lines w1 e w2 closed Hload Hclose.
    unfold L6Chat.main. simpl.
    unfold L6.connect_to_servers, L6.on_world, L6.print. unfold_monad. simpl.
    rewrite Hload. simpl.
    unfold L6Chat.finally_cleanup, L6Chat.cleanup, L6.on_world. simpl.
    rewrite Hclose. destruct closed as [[]|e']; reflexivity.
  - intros query_fuel fuel w lines w1 data e w2 closed Hload Hservers Hclose.
    unfold L6Chat.main. simpl.
    unfold L6.connect_to_servers, L6.on_world, L6.print. unfold_monad. simpl.
    rewrite Hload. simpl. rewrite Hservers. simpl.
    unfold L6Chat.finally_cleanup, L6Chat.cleanup, L6.on_world. simpl.
    rewrite Hclose. destruct closed as [[]|e']; reflexivity.
  - intros query_fuel fuel w lines t Hmain. unfold L6Chat.main in Hmain.
    simpl in Hmain.
    destruct (connect_to_servers _) as [b [[]|e]].
    + destruct (chat_loop query_fuel fuel (L6Chat.Terminal b lines)) as [t1|] eqn:Hloop;
        [|discriminate].
      unfold L6Chat.chat_loop in Hloop.
      apply (while_true_ends_at_quit L6Chat.stdin _
               (L6Chat_iteration_break _ _ _ _ _ _ query_fuel)
               (L6Chat_iteration_continue _ _ _ _ _ _ query_fuel)) in Hloop.
      simpl in Hloop.
      assert (L6Chat.stdin t = L6Chat.stdin t1) as ->.
      { unfold L6Chat.finally_cleanup, L6Chat.cleanup in Hmain. simpl in Hmain.
        destruct (L6.on_world world aclose (L6Chat.bot t1)) as [b2 [[]|e2]];
          invert Hmain. reflexivity. }
      exact Hloop.
    + unfold L6Chat.finally_cleanup, L6Chat.cleanup in Hmain. simpl in Hmain.
      destruct (L6.on_world world aclose b) as [b2 [[]|e2]]; invert Hmain.
Qed.

End Registry.

(** X7 on three servers, the second of which cannot be started. *)
Lemma X7_offered_tools_witness :
  L6Registry.routable (ServersScenario.connected ServersScenario.one_down)
  /\ exists s,
      L6.tool_to_session (ServersScenario.connected ServersScenario.one_down) !! "fetch"
      = Some s
      /\ In s (L6.sessions (ServersScenario.connected ServersScenario.one_down)).
Proof.
  destruct (X7_offered_tools_are_routable
              ServersScenario.world Json.loads ServersScenario.open_session
              ServersScenario.list_tools ServersScenario.content
              ServersScenario.call_tool ServersScenario.load_config)
    as [Hkeeps Hfresh].
  split.
  - refine (Hkeeps (ServersScenario.start ServersScenario.one_down)
              (ServersScenario.connected ServersScenario.one_down) (Ok tt) _ _).
    + split; simpl.
      * intros name. rewrite lookup_empty. split; [intros [x Hx]; discriminate|tauto].
      * intros name s. rewrite lookup_empty. discriminate.
    + vm_compute. reflexivity.
  - refine (Hfresh ServersScenario.one_down
              (ServersScenario.connected ServersScenario.one_down) (Ok tt) _
              ServersScenario.fetch _).
    + vm_compute. reflexivity.
    + vm_compute. right. left. reflexivity.
Defined.

(** X8 on the query of [one_down], which calls two tools. *)
Lemma X8_registry_witness :
  exists q,
    ServersScenario.process_query 3 "q"
      (ServersScenario.connected ServersScenario.one_down)
    = Some (q, Ok tt)
    /\ L6Registry.same_registry
         (ServersScenario.connected ServersScenario.one_down) (L6.bot q).
Proof.
  eexists. split; [vm_compute; reflexivity|].
  refine (proj1 (X8_queries_leave_the_registry_alone
                   ServersScenario.world Json.loads ServersScenario.content
                   ServersScenario.str_content ServersScenario.call_tool
                   ServersScenario.completions_create
                   3 "q" (ServersScenario.connected ServersScenario.one_down) _
                   (Ok tt) _)).
  vm_compute. reflexivity.
Defined.

(** X9 on a configuration file that is missing, on one that holds an
    array, and on one without the key [mcpServers]. *)
Lemma X9_configuration_witness :
  snd (ServersScenario.connect_to_servers (ServersScenario.start ChatScenario.no_config))
  = Raise (Exn "FileNotFoundError"
             "[Errno 2] No such file or directory: 'L6-multi-client-server/server_config.json'")
  /\ (exists e,
        snd (ServersScenario.connect_to_servers
               (ServersScenario.start ChatScenario.array_config))
        = Raise e
        /\ exn_class e = "AttributeError")
  /\ ServersScenario.connect_to_servers (ServersScenario.start ChatScenario.other_key)
     = (ServersScenario.start ChatScenario.other_key, Ok tt).
Proof.
  split; [|split].
  - destruct (X9_configuration_edges
                ServersScenario.world ServersScenario.open_session
                ServersScenario.list_tools ServersScenario.load_config
                (ServersScenario.start ChatScenario.no_config)) as (Hread & _ & _).
    unfold ServersScenario.connect_to_servers.
    rewrite (Hread ChatScenario.no_config
               (Exn "FileNotFoundError"
                  "[Errno 2] No such file or directory: 'L6-multi-client-server/server_config.json'")
               eq_refl).
    reflexivity.
  - destruct (X9_configuration_edges
                ServersScenario.world ServersScenario.open_session
                ServersScenario.list_tools ServersScenario.load_config
                (ServersScenario.start ChatScenario.array_config)) as (_ & Hshape & _).
    destruct (Hshape ChatScenario.array_config (PList [])
                (Exn "AttributeError" "'list' object has no attribute 'get'")
                eq_refl eq_refl) as [Hclass Hrun].
    eexists. split; [|exact Hclass].
    unfold ServersScenario.connect_to_servers. rewrite Hrun. reflexivity.
  - destruct (X9_configuration_edges
                ServersScenario.world ServersScenario.open_session
                ServersScenario.list_tools ServersScenario.load_config
                (ServersScenario.start ChatScenario.other_key)) as (_ & _ & Hkey).
    unfold ServersScenario.connect_to_servers.
    rewrite (Hkey ChatScenario.other_key
               [("servers", PDict [("alpha", ServersScenario.command "uvx")])] eq_refl).
    + reflexivity.
    + repeat constructor. simpl. discriminate.
Defined.

(** X10 on the chat of two queries followed by [QUIT], on a chatbot
    whose configuration file is missing, and on one whose configuration
    file holds an array. *)
Lemma X10_main_witness :
  (exists t,
      ChatScenario.servers_main 5 10 ServersScenario.one_down ChatScenario.lines
      = Some (t, Ok tt)
      /\ ServersScenario.providers (L6.st_world (L6Chat.bot t)) = [])
  /\ (exists t e,
      ChatScenario.servers_main 5 10 ChatScenario.no_config ChatScenario.lines
      = Some (t, Raise e)
      /\ L6Chat.stdin t = ChatScenario.lines
      /\ exn_class e = "FileNotFoundError")
  /\ (exists t e,
      ChatScenario.servers_main 5 10 ChatScenario.array_config ChatScenario.lines
      = Some (t, Raise e)
      /\ L6Chat.stdin t = ChatScenario.lines
      /\ exn_class e = "AttributeError")
  /\ (exists read line,
        ChatScenario.lines = read ++ line :: ["never read"]
        /\ Forall (fun l => Text.lower (Text.strip l) <> "quit") read
        /\ Text.lower (Text.strip line) = "quit").
Proof.
  destruct (X10_main_closes_and_ends_at_quit
              ServersScenario.world Json.loads ServersScenario.open_session
              ServersScenario.list_tools ServersScenario.content
              ServersScenario.str_content ServersScenario.call_tool
              ServersScenario.load_config ServersScenario.completions_create
              ChatScenario.aclose) as (Hclosed & Hunreadable & Hshape & Hquit).
  let r := eval vm_compute in
           (ChatScenario.servers_main 5 10 ServersScenario.one_down ChatScenario.lines) in
  match r with Some (?t, _) => pose (t' := t) end.
  assert (Hrun : L6Chat.main ServersScenario.world Json.loads
                   ServersScenario.open_session ServersScenario.list_tools
                   ServersScenario.content ServersScenario.str_content
                   ServersScenario.call_tool ServersScenario.load_config
                   ServersScenario.completions_create ChatScenario.aclose
                   5 10 ServersScenario.one_down ChatScenario.lines
                 = Some (t', Ok tt)) by (vm_compute; reflexivity).
  split; [|split; [|split]].
  - destruct (Hclosed 5 10 ServersScenario.one_down ChatScenario.lines t' (Ok tt) Hrun)
      as (t0 & body & w2 & closed & _ & Hclose & Ht & _).
    exists t'. split; [exact Hrun|].
    replace (L6.st_world (L6Chat.bot t')) with w2 by (rewrite Ht; reflexivity).
    unfold ChatScenario.aclose in Hclose. injection Hclose as <- _. reflexivity.
  - eexists. eexists. split; [|split].
    + unfold ChatScenario.servers_main.
      apply (Hunreadable 5 10 ChatScenario.no_config ChatScenario.lines
               ChatScenario.no_config
               (Exn "FileNotFoundError"
                  "[Errno 2] No such file or directory: 'L6-multi-client-server/server_config.json'")
               ChatScenario.no_config (Ok tt)); reflexivity.
    + reflexivity.
    + reflexivity.
  - eexists. eexists. split; [|split].
    + unfold ChatScenario.servers_main.
      apply (Hshape 5 10 ChatScenario.array_config ChatScenario.lines
               ChatScenario.array_config (PList [])
               (Exn "AttributeError" "'list' object has no attribute 'get'")
               ChatScenario.array_config (Ok tt)); reflexivity.
    + reflexivity.
    + reflexivity.
  - exact (Hquit 5 10 ServersScenario.one_down ChatScenario.lines t' Hrun).
Defined.

(* ================================================================== *)
(** * The agent of ai-azure-client.py at its edges                     *)
(* ================================================================== *)

Lemma texts_of_no_text content :
  Forall (fun item => Azure.item_text item = None) content ->
  Azure.texts_of content = [].
Proof.
  induction 1 as [|item content Hitem _ IH]; [reflexivity|].
  unfold Azure.texts_of in *. simpl. rewrite Hitem. exact IH.
Qed.

Lemma texts_of_texts texts :
  Azure.texts_of (map (fun t => Azure.ContentItem (Some t)) texts) = texts.
Proof.
  induction texts as [|t texts IH]; [reflexivity|].
  unfold Azure.texts_of in *. simpl. f_equal. exact IH.
Qed.

Lemma texts_of_app a b :
  Azure.texts_of (a ++ b) = Azure.texts_of a ++ Azure.texts_of b.
Proof.
  unfold Azure.texts_of. apply omap_app.
Qed.

Lemma for_each_raise_inv {S} (body : tool_call -> M S unit) calls : forall s s' e,
  for_each body calls s = (s', Raise e) ->
  exists tc s1, In tc calls /\ body tc s1 = (s', Raise e).
Proof.
  induction calls as [|tc calls IH]; intros s s' e Hrun; simpl in Hrun.
  - unfold ret in Hrun. discriminate.
  - unfold bind in Hrun. destruct (body tc s) as [s1 [[]|e1]] eqn:Hbody.
    + destruct (IH _ _ _ Hrun) as (tc' & s2 & Hin & Hraise).
      exists tc', s2. split; [right; exact Hin|exact Hraise].
    + invert Hrun. exists tc, s. split; [left; reflexivity|exact Hbody].
Qed.

Section AzureEdges.

Variable world : Type.
Variable json_loads : string -> result pyval.
Variable session_call_tool : string -> pyval -> M world (list Azure.content_item).
Variable print : Azure.progress_line -> M world unit.
Variable completions_create :
  list message -> option (list tool_descriptor) -> M world llm_message.
Variable available_tools : list tool_descriptor.

Local Abbreviation _execute_tool := (Azure._execute_tool world session_call_tool).
Local Abbreviation run_tool_call :=
  (Azure.run_tool_call world json_loads session_call_tool print).
Local Abbreviation tools := (Azure._convert_tools_to_openai_format available_tools).
Local Abbreviation chat :=
  (Azure.chat world json_loads session_call_tool print completions_create
     available_tools).

(** X11.  What [_execute_tool] makes of the content of a result.  The
    placeholder stands for an empty content only.  A content that has
    items but none with a [text] (images only, say) gives the empty
    text, not the placeholder.  An item without [text] is dropped
    without a trace: the text is the one of the content without that
    item.  The texts of text items reach the caller unchanged, in their
    order and joined by line breaks. *)
Theorem X11_only_text_items_are_returned :
  forall name args w w1 content,
    session_call_tool name args w = (w1, Ok content) ->
    (content = [] ->
       _execute_tool name args w = (w1, Ok "Tool executed but returned no content"))
    /\ (content <> [] ->
        Forall (fun item => Azure.item_text item = None) content ->
        _execute_tool name args w = (w1, Ok EmptyString))
    /\ (forall before after,
        content = before ++ Azure.ContentItem None :: after ->
        _execute_tool name args w
        = (w1, Ok (join (str1 newline) (Azure.texts_of (before ++ after)))))
    /\ (forall texts,
        texts <> [] ->
        content = map (fun t => Azure.ContentItem (Some t)) texts ->
        _execute_tool name args w = (w1, Ok (join (str1 newline) texts))).
Proof.
  intros name args w w1 content Hcall.
  rewrite (Azure_execute_tool_content world session_call_tool name args w w1 content
             Hcall).
  split; [|split; [|split]].
  - intros ->. reflexivity.
  - intros Hsome Hnone. destruct content as [|item content]; [contradiction|].
    rewrite (texts_of_no_text _ Hnone). reflexivity.
  - intros before after ->.
    rewrite !texts_of_app. simpl.
    destruct before; reflexivity.
  - intros texts Hsome ->. rewrite texts_of_texts.
    destruct texts; [contradiction|reflexivity].
Qed.

Lemma Azure_run_tool_call_decodable tc args st :
  (forall line w, exists w1, print line w = (w1, Ok tt)) ->
  loads_optional json_loads (tc_arguments tc) = Ok args ->
  exists st1, run_tool_call tc st = (st1, Ok tt).
Proof.
  intros Hprint Hargs.
  unfold Azure.run_tool_call, Azure.on_world, Azure.append. unfold_monad.
  rewrite Hargs. simpl.
  destruct (Hprint (Azure.Executing (tc_name tc)) (Azure.st_world st)) as [w1 ->]. simpl.
  destruct (Hprint (Azure.Args (json_dumps_indent2 args)) w1) as [w2 ->]. simpl.
  destruct (Azure_execute_tool_total world session_call_tool (tc_name tc) args w2)
    as (w3 & text & ->).
  eauto.
Qed.

(** X12.  No failure of a tool ends a turn of the agent.  When the
    arguments of every request decode and the standard output takes the
    progress lines, the loop over the requests runs to its end whatever
    the MCP session does.  So a turn that raises raises the exception
    of its first LLM request, or the one [json.loads] raised on the
    arguments of one of the requests, or the one [print] raised on one
    of the two progress lines of a request, or the exception of its
    second LLM request; and a progress line is printed for a request
    only after its arguments decoded. *)
Theorem X12_turn_fails_only_at_llm_payload_or_print :
  (forall calls st,
      (forall line w, exists w1, print line w = (w1, Ok tt)) ->
      Forall (fun tc => exists args,
                  loads_optional json_loads (tc_arguments tc) = Ok args) calls ->
      exists st', for_each run_tool_call calls st = (st', Ok tt))
  /\ (forall user_message st st' e,
      chat user_message st = (st', Raise e) ->
      (exists w1,
          completions_create
            (Azure.system_message :: Azure.conversation_history st ++ [User user_message])
            (Some tools) (Azure.st_world st)
          = (w1, Raise e))
      \/ (exists w1 am,
            completions_create
              (Azure.system_message
                 :: Azure.conversation_history st ++ [User user_message])
              (Some tools) (Azure.st_world st)
            = (w1, Ok am)
            /\ requests_tools am = true
            /\ ((exists tc, In tc (calls_of am)
                            /\ loads_optional json_loads (tc_arguments tc) = Raise e)
                \/ (exists tc args line w w2,
                      In tc (calls_of am)
                      /\ loads_optional json_loads (tc_arguments tc) = Ok args
                      /\ (line = Azure.Executing (tc_name tc)
                          \/ line = Azure.Args (json_dumps_indent2 args))
                      /\ print line w = (w2, Raise e))
                \/ (exists w2,
                      completions_create
                        (Azure.system_message :: Azure.conversation_history st')
                        None w2
                      = (Azure.st_world st', Raise e))))).
Proof.
  split.
  - intros calls st Hprint Hcalls. revert st.
    induction Hcalls as [|tc calls [args Hargs] _ IH]; intros st; simpl.
    + eexists. reflexivity.
    + unfold bind.
      destruct (Azure_run_tool_call_decodable tc args st Hprint Hargs) as [st1 ->].
      apply IH.
  - intros user_message st st' e. rewrite Azure_chat_unfold. cbv zeta.
    destruct (completions_create _ _ _) as [w1 [am|e1]].
    + destruct (requests_tools am) eqn:Htools.
      * destruct (for_each _ _ _) as [st2 [[]|e2]] eqn:Hloop.
        -- destruct (completions_create _ _ (Azure.st_world st2)) as [w3 [fr|e3]] eqn:Hfinal;
             intros H; invert H.
           right. exists w1, am. split; [reflexivity|]. split; [exact Htools|].
           right. right. exists (Azure.st_world st2). simpl. exact Hfinal.
        -- intros H. invert H.
           destruct (for_each_raise_inv _ _ _ _ _ Hloop) as (tc & s1 & Hin & Hraise).
           right. exists w1, am. split; [reflexivity|]. split; [exact Htools|].
           destruct (Azure_run_tool_call_raise_cause _ _ _ _ _ _ _ _ Hraise)
             as [Hpayload|(args & Hargs & line & w & w2 & Hline & Hprint)].
           ++ left. exists tc. split; [exact Hin|exact Hpayload].
           ++ right. left. exists tc, args, line, w, w2.
              split; [exact Hin|]. split; [exact Hargs|]. split; [exact Hline|exact Hprint].
      * intros H. invert H.
    + intros H. invert H. left. exists w1. reflexivity.
Qed.

End AzureEdges.

(** X11 on a result that is an image, on a report with an image between
    two texts, and on a result without content. *)
Lemma X11_content_witness :
  ContentScenario._execute_tool "get_chart" (PDict []) [] = (["get_chart"], Ok EmptyString)
  /\ ContentScenario._execute_tool "get_report" (PDict []) []
     = (["get_report"], Ok ("Phases: 12" +:+ str1 newline +:+ "Trains: 8"))
  /\ ContentScenario._execute_tool "get_table" (PDict []) []
     = (["get_table"], Ok "Tool executed but returned no content").
Proof.
  split; [|split].
  - refine (proj1 (proj2 (X11_only_text_items_are_returned
                            ContentScenario.world ContentScenario.session_call_tool
                            "get_chart" (PDict []) [] ["get_chart"]
                            [ContentScenario.image] _)) _ _).
    + reflexivity.
    + discriminate.
    + repeat constructor.
  - refine (proj1 (proj2 (proj2 (X11_only_text_items_are_returned
                            ContentScenario.world ContentScenario.session_call_tool
                            "get_report" (PDict []) [] ["get_report"]
                            [ContentScenario.text "Phases: 12"; ContentScenario.image;
                             ContentScenario.text "Trains: 8"] _)))
              [ContentScenario.text "Phases: 12"] [ContentScenario.text "Trains: 8"] _).
    + reflexivity.
    + reflexivity.
  - refine (proj1 (X11_only_text_items_are_returned
                     ContentScenario.world ContentScenario.session_call_tool
                     "get_table" (PDict []) [] ["get_table"] [] _) _).
    + reflexivity.
    + reflexivity.
Defined.

(** X12 on two requests the second of which the server fails, on the
    turn that fails on a payload, and on a turn whose progress line the
    standard output cannot take. *)
Lemma X12_turn_failure_witness :
  (exists st',
      for_each FailingToolsScenario.run_tool_call FailingToolsScenario.calls
        FailingToolsScenario.before
      = (st', Ok tt))
  /\ (exists e tc,
      snd (AgentScenario.chat "q" FailingToolsScenario.failing_turn) = Raise e
      /\ In tc [AgentScenario.overview_call; AgentScenario.second_call]
      /\ loads_optional Json.loads (tc_arguments tc) = Raise e)
  /\ (exists line w w2,
      snd (FailingToolsScenario.cp1252_chat "q" FailingToolsScenario.before)
      = Raise FailingToolsScenario.cp1252_error
      /\ FailingToolsScenario.cp1252_print line w
         = (w2, Raise FailingToolsScenario.cp1252_error)).
Proof.
  split; [|split].
  - destruct (X12_turn_fails_only_at_llm_payload_or_print
                AgentScenario.world Json.loads AgentScenario.session_call_tool
                AgentScenario.print
                AgentScenario.completions_create AgentScenario.available_tools)
      as [Hloop _].
    apply (Hloop FailingToolsScenario.calls FailingToolsScenario.before).
    + intros line w. exists w. reflexivity.
    + repeat constructor; eexists; vm_compute; reflexivity.
  - destruct (X12_turn_fails_only_at_llm_payload_or_print
                AgentScenario.world Json.loads AgentScenario.session_call_tool
                AgentScenario.print
                AgentScenario.completions_create AgentScenario.available_tools)
      as [_ Hturn].
    let r := eval vm_compute in
             (snd (AgentScenario.chat "q" FailingToolsScenario.failing_turn)) in
    match r with Raise ?e => pose (e' := e) end.
    assert (Hrun : Azure.chat AgentScenario.world Json.loads
                     AgentScenario.session_call_tool AgentScenario.print
                     AgentScenario.completions_create
                     AgentScenario.available_tools "q" FailingToolsScenario.failing_turn
                   = (fst (AgentScenario.chat "q" FailingToolsScenario.failing_turn),
                      Raise e')) by (vm_compute; reflexivity).
    destruct (Hturn "q" FailingToolsScenario.failing_turn _ e' Hrun)
      as [[w1 Hfirst]
         |(w1 & am & Ham & _
           & [(tc & Hin & Hload)
             |[(tc & args & line & w & w2 & _ & _ & _ & Hprint)|[w2 Hfinal]]])].
    + vm_compute in Hfirst. discriminate Hfirst.
    + vm_compute in Ham. injection Ham as _ Ham. subst am.
      exists e', tc. split; [vm_compute; reflexivity|]. split; [exact Hin|exact Hload].
    + discriminate Hprint.
    + unfold AgentScenario.completions_create in Hfinal.
      destruct (AgentScenario.script w2); vm_compute in Hfinal; discriminate Hfinal.
  - destruct (X12_turn_fails_only_at_llm_payload_or_print
                AgentScenario.world Json.loads AgentScenario.session_call_tool
                FailingToolsScenario.cp1252_print
                AgentScenario.completions_create AgentScenario.available_tools)
      as [_ Hturn].
    assert (Hrun : Azure.chat AgentScenario.world Json.loads
                     AgentScenario.session_call_tool FailingToolsScenario.cp1252_print
                     AgentScenario.completions_create
                     AgentScenario.available_tools "q" FailingToolsScenario.before
                   = (fst (FailingToolsScenario.cp1252_chat "q"
                             FailingToolsScenario.before),
                      Raise FailingToolsScenario.cp1252_error))
      by (vm_compute; reflexivity).
    destruct (Hturn "q" FailingToolsScenario.before _ _ Hrun)
      as [[w1 Hfirst]
         |(w1 & am & Ham & _
           & [(tc & Hin & Hload)
             |[(tc & args & line & w & w2 & _ & _ & _ & Hprint)|[w2 Hfinal]]])].
    + vm_compute in Hfirst. discriminate Hfirst.
    + vm_compute in Ham. injection Ham as _ Ham. subst am.
      destruct Hin as [<-|[]]. vm_compute in Hload. discriminate Hload.
    + exists line, w, w2. split; [vm_compute; reflexivity|exact Hprint].
    + unfold AgentScenario.completions_create in Hfinal.
      destruct (AgentScenario.script w2); vm_compute in Hfinal; discriminate Hfinal.
Defined.

(* ================================================================== *)
(** * The web wrapper                                                  *)
(* ================================================================== *)

Section WebApi.

Variable world : Type.
Variable json_loads : string -> result pyval.
Variable session_call_tool : string -> pyval -> M world (list Azure.content_item).
Variable print : Azure.progress_line -> M world unit.
Variable completions_create :
  list message -> option (list tool_descriptor) -> M world llm_message.
Variable available_tools : list tool_descriptor.
Variable response_not_a_string : exn.

Local Abbreviation process_query :=
  (AzureApi.process_query world json_loads session_call_tool print completions_create
     available_tools response_not_a_string).
Local Abbreviation process_complex_query :=
  (AzureApi.process_complex_query world json_loads session_call_tool print
     completions_create available_tools response_not_a_string).

Lemma AzureApi_query_extends request a agent1 rep :
  process_query request (Some a) = (agent1, rep) ->
  exists a1 suffix,
    agent1 = Some a1
    /\ Azure.conversation_history a1
       = Azure.conversation_history a ++ User (AzureApi.query request) :: suffix.
Proof.
  unfold AzureApi.process_query, AzureApi.chat.
  destruct (Azure.chat _ _ _ _ _ _ _ a) as [a1 r] eqn:Hchat. intros H. invert H.
  destruct (Azure_chat_extends _ _ _ _ _ _ _ _ _ _ Hchat) as [suffix Hsuffix].
  eauto.
Qed.

Lemma AzureApi_complex_query_extends request a agent1 rep :
  process_complex_query request (Some a) = (agent1, rep) ->
  exists a1 suffix,
    agent1 = Some a1
    /\ Azure.conversation_history a1
       = Azure.conversation_history a
           ++ User (AzureApi.decomposition_prompt (AzureApi.query request)) :: suffix.
Proof.
  unfold AzureApi.process_complex_query, AzureApi.handle_complex_query, AzureApi.chat.
  destruct (Azure.chat _ _ _ _ _ _ _ a) as [a1 r] eqn:Hchat. intros H. invert H.
  destruct (Azure_chat_extends _ _ _ _ _ _ _ _ _ _ Hchat) as [suffix Hsuffix].
  eauto.
Qed.

Lemma AzureApi_reply_status request r status detail :
  AzureApi.reply_of response_not_a_string request r
  = AzureApi.HTTPException status detail ->
  status = 500.
Proof.
  destruct r as [[text|]|e]; intros H; invert H; reflexivity.
Qed.

(** X13.  The two endpoints of the web wrapper keep one conversation
    for every caller.  A request to [/query] leaves its query in the
    history of the global agent, and a request to [/complex-query] the
    decomposition prompt built around its query, whatever the reply is;
    so after two requests the history holds the message of the first
    and, after it, the one of the second, whatever session ids they
    carry.  The session id of a request changes nothing but the id
    echoed in a successful reply, which is the id of the request, or
    [default] when that is absent or empty.  Every [HTTPException] an
    endpoint raises has status 500, also before the agent is
    initialised, when the detail is the text of the [AttributeError] on
    [None]. *)
Theorem X13_sessions_share_one_history :
  (forall request a agent1 rep,
      process_query request (Some a) = (agent1, rep) ->
      exists a1 suffix,
        agent1 = Some a1
        /\ Azure.conversation_history a1
           = Azure.conversation_history a ++ User (AzureApi.query request) :: suffix)
  /\ (forall request a agent1 rep,
      process_complex_query request (Some a) = (agent1, rep) ->
      exists a1 suffix,
        agent1 = Some a1
        /\ Azure.conversation_history a1
           = Azure.conversation_history a
               ++ User (AzureApi.decomposition_prompt (AzureApi.query request))
               :: suffix)
  /\ (forall r1 r2 a agent1 reply1 agent2 reply2,
      process_query r1 (Some a) = (agent1, reply1) ->
      process_query r2 agent1 = (agent2, reply2) ->
      exists a2 s1 s2,
        agent2 = Some a2
        /\ Azure.conversation_history a2
           = Azure.conversation_history a
               ++ User (AzureApi.query r1) :: s1 ++ User (AzureApi.query r2) :: s2)
  /\ (forall request sid agent,
      let other := {| AzureApi.query := AzureApi.query request;
                      AzureApi.session_id := sid |} in
      let echo (rep : AzureApi.reply) :=
        match rep with
        | AzureApi.Returns r =>
            AzureApi.Returns
              {| AzureApi.response := AzureApi.response r;
                 AzureApi.response_session_id := AzureApi.session_or_default other |}
        | AzureApi.HTTPException status detail => AzureApi.HTTPException status detail
        end in
      process_query other agent
      = (fst (process_query request agent), echo (snd (process_query request agent)))
      /\ process_complex_query other agent
         = (fst (process_complex_query request agent),
            echo (snd (process_complex_query request agent))))
  /\ (forall request agent agent1 r,
      (process_query request agent = (agent1, AzureApi.Returns r)
       \/ process_complex_query request agent = (agent1, AzureApi.Returns r)) ->
      AzureApi.response_session_id r = AzureApi.session_or_default request)
  /\ (forall request agent agent1 status detail,
      (process_query request agent = (agent1, AzureApi.HTTPException status detail)
       \/ process_complex_query request agent
          = (agent1, AzureApi.HTTPException status detail)) ->
      status = 500)
  /\ (forall request,
      process_query request None
      = (None, AzureApi.HTTPException 500 "'NoneType' object has no attribute 'chat'")
      /\ process_complex_query request None
         = (None, AzureApi.HTTPException 500
                    "'NoneType' object has no attribute 'handle_complex_query'")).
Proof.
  split; [|split; [|split; [|split; [|split; [|split]]]]].
  - intros request a agent1 rep. apply AzureApi_query_extends.
  - intros request a agent1 rep. apply AzureApi_complex_query_extends.
  - intros r1 r2 a agent1 reply1 agent2 reply2 H1 H2.
    destruct (AzureApi_query_extends _ _ _ _ H1) as (a1 & s1 & -> & Hs1).
    destruct (AzureApi_query_extends _ _ _ _ H2) as (a2 & s2 & -> & Hs2).
    exists a2, s1, s2. split; [reflexivity|].
    rewrite Hs2, Hs1, <- app_assoc. reflexivity.
  - intros request sid [a|]; cbv zeta; [|split; reflexivity].
    unfold AzureApi.process_query, AzureApi.process_complex_query,
      AzureApi.handle_complex_query. simpl. split.
    + destruct (AzureApi.chat _ _ _ _ _ _ _ a) as [a1 [[text|]|e]]; reflexivity.
    + destruct (AzureApi.chat _ _ _ _ _ _ _ a) as [a1 [[text|]|e]]; reflexivity.
  - intros request [a|] agent1 r [H|H];
      unfold AzureApi.process_query, AzureApi.process_complex_query,
        AzureApi.handle_complex_query in H; try discriminate H;
      destruct (AzureApi.chat _ _ _ _ _ _ _ a) as [a1 [[text|]|e]]; invert H; reflexivity.
  - intros request [a|] agent1 status detail [H|H];
      unfold AzureApi.process_query, AzureApi.process_complex_query,
        AzureApi.handle_complex_query in H;
      try (invert H; reflexivity);
      destruct (AzureApi.chat _ _ _ _ _ _ _ a) as [a1 r]; invert H;
      eapply AzureApi_reply_status; eauto.
  - intros request. split; reflexivity.
Qed.

End WebApi.

(** X13 on the requests of two users, on a request that finds the LLM
    endpoint down, on a complex query, and on requests that come before
    the agent is initialised. *)
Lemma X13_sessions_witness :
  (exists a2 s1 s2,
      WebScenario.after_second = Some a2
      /\ Azure.conversation_history a2
         = [] ++ User "How many phases has TRN-2024-001?"
              :: s1 ++ User "And what did I ask before?" :: s2)
  /\ (exists a1 suffix,
       fst (ApiScenario.process_query ApiScenario.first_request
              (Some WebScenario.offline))
       = Some a1
       /\ Azure.conversation_history a1
          = AgentScenario.earlier
              ++ User "How many phases has TRN-2024-001?" :: suffix)
  /\ (exists a1 suffix,
       fst (ApiScenario.process_complex_query ApiScenario.first_request
              ApiScenario.started)
       = Some a1
       /\ Azure.conversation_history a1
          = [] ++ User (AzureApi.decomposition_prompt
                          "How many phases has TRN-2024-001?") :: suffix)
  /\ WebScenario.status_of
       (snd (ApiScenario.process_complex_query ApiScenario.first_request
               (Some WebScenario.offline)))
     = 500
  /\ snd (ApiScenario.process_complex_query ApiScenario.first_request None)
     = AzureApi.HTTPException 500
         "'NoneType' object has no attribute 'handle_complex_query'".
Proof.
  destruct (X13_sessions_share_one_history
              AgentScenario.world Json.loads AgentScenario.session_call_tool
              AgentScenario.print
              AgentScenario.completions_create AgentScenario.available_tools
              ApiScenario.validation_error)
    as (Hquery & Hcomplex & Htwo & _ & _ & Hstatus & Hnone).
  split; [|split; [|split; [|split]]].
  - refine (Htwo ApiScenario.first_request ApiScenario.second_request
              (Azure.State
                 (AgentScenario.World
                    [Script.answers "Twelve."; Script.answers "Nothing."] [] []) [])
              WebScenario.after_first
              (snd (ApiScenario.process_query ApiScenario.first_request
                      ApiScenario.started))
              WebScenario.after_second
              (snd (ApiScenario.process_query ApiScenario.second_request
                      WebScenario.after_first)) _ _).
    + vm_compute. reflexivity.
    + vm_compute. reflexivity.
  - refine (Hquery ApiScenario.first_request WebScenario.offline
              (fst (ApiScenario.process_query ApiScenario.first_request
                      (Some WebScenario.offline)))
              (AzureApi.HTTPException 500 "Connection error.") _).
    vm_compute. reflexivity.
  - refine (Hcomplex ApiScenario.first_request
              (Azure.State
                 (AgentScenario.World
                    [Script.answers "Twelve."; Script.answers "Nothing."] [] []) [])
              (fst (ApiScenario.process_complex_query ApiScenario.first_request
                      ApiScenario.started))
              (snd (ApiScenario.process_complex_query ApiScenario.first_request
                      ApiScenario.started)) _).
    vm_compute. reflexivity.
  - refine (Hstatus ApiScenario.first_request (Some WebScenario.offline)
              (fst (ApiScenario.process_complex_query ApiScenario.first_request
                      (Some WebScenario.offline)))
              (WebScenario.status_of
                 (snd (ApiScenario.process_complex_query ApiScenario.first_request
                         (Some WebScenario.offline))))
              "Connection error." (or_intror _)).
    vm_compute. reflexivity.
  - unfold ApiScenario.process_complex_query.
    rewrite (proj2 (Hnone ApiScenario.first_request)). reflexivity.
Defined.

(* ================================================================== *)
(** * Routing a tool call in the multi-server chatbot                  *)
(* ================================================================== *)

Section Routing.

Variable world : Type.
Variable json_loads : string -> result pyval.
Variable open_session : string -> pyval -> M world unit.
Variable list_tools : L6.session -> M world (list tool_descriptor).
Variable content : Type.
Variable str_content : content -> string.
Variable call_tool : L6.session -> string -> pyval -> M world content.
Variable load_config : M world pyval.

Local Abbreviation connect_to_servers :=
  (L6.connect_to_servers world open_session list_tools load_config).
Local Abbreviation run_tool_call :=
  (L6.run_tool_call world json_loads content str_content call_tool).


End Routing.

